(** * RAG-Ahadith: the hadith ingestion pipeline of [rag.py]

    A shallow embedding of [HadithPGVectorInserter] (file [rag.py]) and the
    properties its specification states about it.

    - [Py]: the fragment of Python the program relies on: exceptions,
      truthiness and [or], [range], slicing, [//].
    - [Config]: [HadithPGVectorInserter.__init__].
    - [Mapper]: pandas rows and [create_document_from_row].
    - [Pipeline]: the vector store, the progress file and the clock as an
      explicit world; [_insert_batch_with_retry], [_save_progress],
      [_load_progress], [insert_chunks_batch], [insert_chunks_individual]
      and [process_csv_file] as computations over that world.
    - [Main]: the function [main].

    Calls to [logger] have no influence on control flow or on the world and
    are left out; [tqdm] is the identity on the iterable it wraps.  The
    store, the file system and the clock are not under the control of the
    program: an environment fixes what each of their calls does, and every
    statement below holds for all environments unless it says otherwise. *)

From Stdlib Require Import ZArith QArith List String Ascii Lia Lqa Bool.
From stdpp Require Import base option list gmap strings.

Open Scope Z_scope.

(* ===================================================================== *)
(** ** Python preliminaries *)
(* ===================================================================== *)

Module Py.

(** Exceptions raised in the program or by its collaborators.  All of them
    are subclasses of [Exception], so that [except Exception] catches them. *)
Inductive exn : Type :=
| ValueError (msg : string)
| TypeError
| ZeroDivisionError
| OSError
| StoreError
| ReaderError.

Inductive result (A : Type) : Type :=
| Ok (a : A)
| Raise (e : exn).
Arguments Ok {A} a.
Arguments Raise {A} e.

Definition is_ok {A} (r : result A) : bool :=
  match r with Ok _ => true | Raise _ => false end.

Definition bind_result {A B} (r : result A) (k : A -> result B) : result B :=
  match r with Ok a => k a | Raise e => Raise e end.

Notation "'let?' x ':=' c1 'in' c2" := (bind_result c1 (fun x => c2))
  (at level 10, x pattern, c1 at level 100, c2 at level 200).

(** Scalars: what a cell of a DataFrame read by [pd.read_csv] holds, and
    what the constructor of the inserter is given. [SNaN] is the float
    [nan]; the other floats carry their value. *)
Inductive scalar : Type :=
| SNone
| SBool (b : bool)
| SInt (z : Z)
| SNaN
| SFloat (q : Q)
| SStr (s : string).

(** A value is a scalar or a pandas Series of scalars (the result of
    [Series.get] on a label that occurs more than once, and of [pd.notna]
    on such a result). *)
Inductive pyval : Type :=
| Scalar (c : scalar)
| Series (cells : list scalar).

Coercion Scalar : scalar >-> pyval.

(** [bool(v)]: the truth value Python's [if], [not] and [or] ask for.
    [nan] is true as every non-zero float; the truth value of a Series is
    ambiguous, pandas raises [ValueError]. *)
Definition truthy_scalar (c : scalar) : bool :=
  match c with
  | SNone => false
  | SBool b => b
  | SInt z => negb (z =? 0)
  | SNaN => true
  | SFloat q => negb (Qeq_bool q 0)
  | SStr s => negb (String.eqb s "")
  end.

Definition truthy (v : pyval) : result bool :=
  match v with
  | Scalar c => Ok (truthy_scalar c)
  | Series _ => Raise (ValueError "The truth value of a Series is ambiguous")
  end.

(** [a or b]: [b] is evaluated only when [a] is false. *)
Definition py_or (a : pyval) (b : result pyval) : result pyval :=
  match truthy a with
  | Ok true => Ok a
  | Ok false => b
  | Raise e => Raise e
  end.

(** [range(stop)] and [range(start, stop, step)]. *)
Definition range (stop : Z) : list Z :=
  map Z.of_nat (seq 0 (Z.to_nat stop)).

Definition range3 (start stop step : Z) : result (list Z) :=
  if step =? 0 then Raise (ValueError "range() arg 3 must not be zero")
  else
    let len := if 0 <? step
               then (stop - start + step - 1) / step
               else (start - stop - step - 1) / (- step) in
    Ok (map (fun j : nat => start + Z.of_nat j * step) (seq 0 (Z.to_nat len))).

(** [a // b] on ints. *)
Definition floordiv (a b : Z) : result Z :=
  if b =? 0 then Raise ZeroDivisionError else Ok (a / b).

(** [l[lo:hi]]: a negative bound counts from the end, both bounds are
    clamped to the list. *)
Definition clamp_index (len idx : Z) : Z :=
  if idx <? 0 then Z.max (idx + len) 0 else Z.min idx len.

Definition slice {A} (l : list A) (lo hi : Z) : list A :=
  let len := Z.of_nat (length l) in
  let lo' := clamp_index len lo in
  let hi' := clamp_index len hi in
  firstn (Z.to_nat (hi' - lo')) (skipn (Z.to_nat lo') l).

End Py.
Import Py.

(* ===================================================================== *)
(** ** The world of the pipeline *)
(* ===================================================================== *)

(** The content of [insertion_progress.json].  The dictionary
    [_load_progress] falls back to has no ["timestamp"] key. *)
Record Progress : Type := mkProgress {
  current_batch : Z;
  successful_batches : Z;
  failed_batches : Z;
  timestamp : option Q
}.

(** What [insertion_progress.json] holds: a checkpoint, or what a write
    that broke off has left of it, which [json.load] refuses. *)
Inductive Content : Type :=
| Json (p : Progress)
| Damaged.

(** How a write of the progress file ends: done; refused by [open], which
    then leaves the file as it was; or broken off after [open(..., "w")]
    has emptied the file. *)
Inductive WriteResult : Type :=
| Written
| OpenFailed
| DumpFailed.

Definition written (res : WriteResult) (p : Progress) (file : option Content)
    : option Content :=
  match res with
  | Written => Some (Json p)
  | OpenFailed => file
  | DumpFailed => Some Damaged
  end.

(** What the collaborators do is fixed by an environment: whether the
    [n]-th call of [vector_store.add_documents] returns or raises; for the
    [n]-th write of the progress file, whether [open(..., "w")] succeeds
    and whether [json.dump] and the closing of the file succeed after it;
    whether opening the file for reading and removing it succeed; and
    what [time.time()] reads. *)
Record Env : Type := mkEnv {
  add_documents_ok : nat -> bool;
  open_write_ok : nat -> bool;
  json_dump_ok : nat -> bool;
  open_read_ok : bool;
  os_remove_ok : bool;
  time_time : nat -> Q
}.

Definition write_result (env : Env) (n : nat) : WriteResult :=
  if open_write_ok env n
  then if json_dump_ok env n then Written else DumpFailed
  else OpenFailed.

Record World : Type := mkWorld {
  n_add : nat;                       (* calls of add_documents so far *)
  n_write : nat;                     (* writes of the progress file so far *)
  progress_file : option Content     (* insertion_progress.json, if it exists *)
}.

Section Pipeline.

Context {Row Doc : Type}.

(** What happens, in order.  [InsertBatch] marks the entry into
    [_insert_batch_with_retry] with its arguments; the other events are
    the calls to the collaborators with their outcome. *)
Inductive Event : Type :=
| InsertBatch (batch_num : Z) (batch : list Doc)
| AddDocuments (batch : list Doc) (ok : bool)
| Sleep (secs : Q)
| SaveProgress (p : Progress) (res : WriteResult)
| LoadProgress (ok : bool)
| RemoveProgress (ok : bool).

Record Out (A : Type) : Type := mkOut {
  outcome : result A;
  world : World;
  events : list Event
}.
Arguments mkOut {A} _ _ _.
Arguments outcome {A} _.
Arguments world {A} _.
Arguments events {A} _.

(** A computation runs from a world to an outcome, the world it leaves and
    the events it caused. *)
Definition Run (A : Type) : Type := World -> Out A.

Definition ret {A} (a : A) : Run A :=
  fun w => mkOut (Ok a) w [].

Definition lift {A} (r : result A) : Run A :=
  fun w => mkOut r w [].

Definition bind {A B} (m : Run A) (k : A -> Run B) : Run B :=
  fun w =>
    let r := m w in
    match outcome r with
    | Ok a => let r' := k a (world r) in
              mkOut (outcome r') (world r') (events r ++ events r')
    | Raise e => mkOut (Raise e) (world r) (events r)
    end.

(** [try: body  except Exception as e: handler e] *)
Definition try_except {A} (body : Run A) (handler : exn -> Run A) : Run A :=
  fun w =>
    let r := body w in
    match outcome r with
    | Ok a => r
    | Raise e => let r' := handler e (world r) in
                 mkOut (outcome r') (world r') (events r ++ events r')
    end.

Notation "'let*' x ':=' c1 'in' c2" := (bind c1 (fun x => c2))
  (at level 10, x pattern, c1 at level 100, c2 at level 200).

Fixpoint for_loop {A S} (xs : list A) (body : A -> S -> Run S) (s : S) : Run S :=
  match xs with
  | [] => ret s
  | x :: xs' => let* s' := body x s in for_loop xs' body s'
  end.

Variable env : Env.
Variable max_retries : Z.            (* self.max_retries *)

(** *** Collaborators *)

(** [self.vector_store.add_documents(batch)] *)
Definition add_documents (batch : list Doc) : Run unit :=
  fun w =>
    let ok := add_documents_ok env (n_add w) in
    mkOut (if ok then Ok tt else Raise StoreError)
          (mkWorld (S (n_add w)) (n_write w) (progress_file w))
          [AddDocuments batch ok].

(** [time.sleep(secs)] *)
Definition time_sleep (secs : Q) : Run unit :=
  fun w => mkOut (Ok tt) w [Sleep secs].

(** [with open("insertion_progress.json", "w") as f: json.dump(p, f)].
    Opening the file for writing empties it: a write that fails after that
    has destroyed what the file held. *)
Definition write_progress_file (p : Progress) : Run unit :=
  fun w =>
    let res := write_result env (n_write w) in
    mkOut (match res with Written => Ok tt | _ => Raise OSError end)
          (mkWorld (n_add w) (S (n_write w)) (written res p (progress_file w)))
          [SaveProgress p res].

(** [os.path.exists("insertion_progress.json")] *)
Definition os_path_exists : Run bool :=
  fun w => mkOut (Ok (bool_decide (is_Some (progress_file w)))) w [].

(** [with open("insertion_progress.json", "r") as f: json.load(f)] *)
Definition read_progress_file : Run Progress :=
  fun w =>
    match progress_file w with
    | Some content =>
        if open_read_ok env
        then match content with
             | Json p => mkOut (Ok p) w [LoadProgress true]
             | Damaged => mkOut (Raise (ValueError "Expecting value")) w
                                [LoadProgress false]
             end
        else mkOut (Raise OSError) w [LoadProgress false]
    | None => mkOut (Raise OSError) w [LoadProgress false]
    end.

(** [os.remove("insertion_progress.json")] *)
Definition os_remove : Run unit :=
  fun w =>
    match progress_file w with
    | Some _ =>
        if os_remove_ok env
        then mkOut (Ok tt) (mkWorld (n_add w) (n_write w) None) [RemoveProgress true]
        else mkOut (Raise OSError) w [RemoveProgress false]
    | None => mkOut (Raise OSError) w [RemoveProgress false]
    end.

(** *** [_insert_batch_with_retry] (rag.py, 175-193) *)

Fixpoint retry_loop (batch : list Doc) (attempts : list Z) : Run bool :=
  match attempts with
  | [] => ret false
  | attempt :: rest =>
      try_except
        (let* _ := add_documents batch in ret true)
        (fun _ =>
           if attempt <? max_retries - 1
           then let* _ := time_sleep (inject_Z (2 ^ attempt * 2)) in
                retry_loop batch rest
           else ret false)
  end.

Definition _insert_batch_with_retry (batch : list Doc) (batch_num : Z) : Run bool :=
  fun w =>
    let r := retry_loop batch (range max_retries) w in
    mkOut (outcome r) (world r) (InsertBatch batch_num batch :: events r).

(** *** [_save_progress] (rag.py, 195-209) *)

Definition _save_progress (current_batch successful failed : Z) : Run unit :=
  fun w =>
    let progress_data :=
      mkProgress current_batch successful failed (Some (time_time env (n_write w))) in
    try_except (write_progress_file progress_data) (fun _ => ret tt) w.

(** *** [_load_progress] (rag.py, 211-222) *)

Definition default_progress : Progress := mkProgress 0 0 0 None.

Definition _load_progress : Run Progress :=
  try_except
    (let* present := os_path_exists in
     if present then read_progress_file else ret default_progress)
    (fun _ => ret default_progress).

(** *** [insert_chunks_batch] (rag.py, 136-173)

    The method returns [None]; the embedding returns the final values of
    [successful_batches] and [failed_batches], which its last line logs. *)

Definition batch_body (documents : list Doc) (batch_size : Z)
    (i : Z) (counts : Z * Z) : Run (Z * Z) :=
  let '(successful_batches, failed_batches) := counts in
  let batch := slice documents i (i + batch_size) in
  let batch_num := i / batch_size + 1 in
  let* success := _insert_batch_with_retry batch batch_num in
  let* counts' :=
    (if success : bool then
       let successful_batches := successful_batches + 1 in
       let* _ := (if successful_batches mod 10 =? 0
                  then _save_progress batch_num successful_batches failed_batches
                  else ret tt) in
       ret (successful_batches, failed_batches)
     else ret (successful_batches, failed_batches + 1)) in
  let* _ := time_sleep (1 # 2) in
  ret counts'.

Definition insert_chunks_batch (documents : list Doc)
    (batch_size resume_from : Z) : Run (Z * Z) :=
  let total_docs := Z.of_nat (length documents) in
  let* total_batches := lift (floordiv (total_docs + batch_size - 1) batch_size) in
  let* starts := lift (range3 (resume_from * batch_size) total_docs batch_size) in
  for_loop starts (batch_body documents batch_size) (0, 0).

(** *** [insert_chunks_individual] (rag.py, 224-243) *)

Definition individual_body (doc : Doc) (counts : Z * Z) : Run (Z * Z) :=
  let '(successful_inserts, failed_inserts) := counts in
  try_except
    (let* _ := add_documents [doc] in ret (successful_inserts + 1, failed_inserts))
    (fun _ => ret (successful_inserts, failed_inserts + 1)).

Definition insert_chunks_individual (documents : list Doc) : Run (Z * Z) :=
  for_loop documents individual_body (0, 0).

(** *** [process_csv_file] (rag.py, 245-295) *)

Variable read_csv_file : string -> result (list Row).
Variable create_document_from_row : Row -> result Doc.

(** The loop of lines 264-271: a row whose conversion raises is skipped. *)
Fixpoint convert_rows (rows : list Row) : list Doc :=
  match rows with
  | [] => []
  | row :: rest =>
      match create_document_from_row row with
      | Ok doc => doc :: convert_rows rest
      | Raise _ => convert_rows rest
      end
  end.

Definition process_csv_file (csv_file_path : string) (batch_size : Z)
    (use_batch_insert resume : bool) : Run unit :=
  let* df := lift (read_csv_file csv_file_path) in
  let documents := convert_rows df in
  let* resume_from :=
    (if resume && use_batch_insert
     then let* progress := _load_progress in ret (current_batch progress)
     else ret 0) in
  let* _ := (if use_batch_insert
             then insert_chunks_batch documents batch_size resume_from
             else insert_chunks_individual documents) in
  let* present := os_path_exists in
  if present then try_except os_remove (fun _ => ret tt) else ret tt.

End Pipeline.

Arguments Out Doc A : clear implicits.
Arguments Run Doc A : clear implicits.
Arguments Event Doc : clear implicits.
Arguments mkOut {Doc A} _ _ _.
Arguments outcome {Doc A} _.
Arguments world {Doc A} _.
Arguments events {Doc A} _.

(* ===================================================================== *)
(** ** Configuration: [HadithPGVectorInserter.__init__] (rag.py, 22-67) *)
(* ===================================================================== *)

Module Config.
Section Init.

(** The embedding client, the vector store client and Python's [int] on
    strings are collaborators; [int_of_str s = None] stands for the
    [ValueError] of [int(s)]. *)
Context {Embeddings Store : Type}.
Variable int_of_str : string -> option Z.
Variable GoogleGenerativeAIEmbeddings : pyval -> result Embeddings.
Variable PGVector : pyval -> Embeddings -> pyval -> result Store.

Record Inserter : Type := mkInserter {
  postgres_url : pyval;
  google_api_key : pyval;
  collection_name : pyval;
  max_retries : pyval;
  embeddings : Embeddings;
  vector_store : Store
}.

(** [os.getenv(key)] and [os.getenv(key, default)] *)
Definition getenv (environ : gmap string string) (key : string) : pyval :=
  match environ !! key with
  | Some v => Scalar (SStr v)
  | None => Scalar SNone
  end.

Definition getenv_default (environ : gmap string string) (key dflt : string) : string :=
  default dflt (environ !! key).

(** [int(os.getenv('MAX_RETRIES', '3'))] *)
Definition env_max_retries (environ : gmap string string) : result pyval :=
  match int_of_str (getenv_default environ "MAX_RETRIES" "3") with
  | Some z => Ok (Scalar (SInt z))
  | None => Raise (ValueError "invalid literal for int()")
  end.

(** [os.environ[key] = v]: the value has to be a [str]. *)
Definition setenv (environ : gmap string string) (key : string) (v : pyval)
    : result (gmap string string) :=
  match v with
  | Scalar (SStr s) => Ok (<[key := s]> environ)
  | _ => Raise TypeError
  end.

(** The constructor, from the process environment and its four arguments
    ([None] when omitted) to the inserter and the environment it leaves.
    [_test_connection] only logs. *)
Definition __init__ (environ : gmap string string)
    (postgres_url google_api_key collection_name max_retries : pyval)
    : result (Inserter * gmap string string) :=
  let? postgres_url := py_or postgres_url (Ok (getenv environ "POSTGRES_URL")) in
  let? google_api_key := py_or google_api_key (Ok (getenv environ "GOOGLE_API_KEY")) in
  let? collection_name :=
    py_or collection_name
          (Ok (Scalar (SStr (getenv_default environ "COLLECTION_NAME" "rag_ahadees")))) in
  let? max_retries := py_or max_retries (env_max_retries environ) in
  let? has_url := truthy postgres_url in
  if negb has_url then Raise (ValueError "POSTGRES_URL is required") else
  let? has_key := truthy google_api_key in
  if negb has_key then Raise (ValueError "GOOGLE_API_KEY is required") else
  let? environ' := setenv environ "GOOGLE_API_KEY" google_api_key in
  let? embeddings := GoogleGenerativeAIEmbeddings google_api_key in
  let? vector_store := PGVector postgres_url embeddings collection_name in
  Ok (mkInserter postgres_url google_api_key collection_name max_retries
                 embeddings vector_store,
      environ').

End Init.
End Config.

(* ===================================================================== *)
(** ** Rows and [create_document_from_row] (rag.py, 110-134) *)
(* ===================================================================== *)

Module Mapper.

(** A row of the DataFrame is a Series: its index labels, each with its
    cell, in column order.  A label may occur more than once in a Series;
    in a DataFrame read by [pd.read_csv] it does not, the reader renames
    repeated columns. *)
Definition Row : Type := list (string * scalar).

Definition reader_row (row : Row) : Prop := NoDup (map fst row).

Definition cells_at (row : Row) (key : string) : list scalar :=
  map snd (List.filter (fun kv => String.eqb (fst kv) key) row).

(** [row.get(key, default)]: the cell at the label, the Series of the cells
    at the label when it occurs several times, the default when the label
    is absent. *)
Definition series_get (row : Row) (key : string) (dflt : pyval) : pyval :=
  match cells_at row key with
  | [] => dflt
  | [c] => Scalar c
  | cells => Series cells
  end.

(** [pd.notna]: element-wise on a Series. *)
Definition notna_scalar (c : scalar) : bool :=
  match c with
  | SNone | SNaN => false
  | _ => true
  end.

Definition pd_notna (v : pyval) : pyval :=
  match v with
  | Scalar c => Scalar (SBool (notna_scalar c))
  | Series cells => Series (map (fun c => SBool (notna_scalar c)) cells)
  end.

Record Document : Type := mkDocument {
  page_content : string;
  metadata : gmap string pyval
}.

Definition nl : string := String (Ascii.ascii_of_nat 10) EmptyString.

Section Create.

(** [str(v)], as a replacement field of an f-string formats [v]. *)
Variable py_str : pyval -> string.

(** [row.get(key, 0) if pd.notna(row.get(key)) else 0] *)
Definition get_number (row : Row) (key : string) : result pyval :=
  let? present := truthy (pd_notna (series_get row key SNone)) in
  Ok (if present then series_get row key (SInt 0) else Scalar (SInt 0)).

Definition create_document_from_row (row : Row) : result Document :=
  let text_ar := series_get row "text_ar" (SStr "") in
  let text_en := series_get row "text_en" (SStr "") in
  let content :=
    ("الحديث باللغة العربية:" ++ nl ++ py_str text_ar ++ nl ++ nl
     ++ "hadith in english:" ++ nl ++ py_str text_en)%string in
  let source := series_get row "source" (SStr "Unknown") in
  let? hadith_number := get_number row "hadith_no" in
  let? chapter_number := get_number row "chapter_no" in
  let chapter := series_get row "chapter" (SStr "") in
  let chain_index := series_get row "chain_indx" (SStr "") in
  Ok (mkDocument content
        (<["source" := source]>
         (<["hadith_number" := hadith_number]>
          (<["chapter_number" := chapter_number]>
           (<["chapter" := chapter]>
            (<["chain_index" := chain_index]> ∅)))))).

End Create.
End Mapper.

(* ===================================================================== *)
(** ** Reading a trace, and what the specification expects of it *)
(* ===================================================================== *)

Section Observations.

Context {Doc : Type}.
Implicit Type t : list (Event Doc).

(** The batches handed to [_insert_batch_with_retry], with their number. *)
Definition submitted t : list (Z * list Doc) :=
  flat_map (fun e => match e with InsertBatch n b => [(n, b)] | _ => [] end) t.

(** The calls of [add_documents], with their outcome. *)
Definition attempts t : list (list Doc * bool) :=
  flat_map (fun e => match e with AddDocuments b ok => [(b, ok)] | _ => [] end) t.

(** The delays slept. *)
Definition sleeps t : list Q :=
  flat_map (fun e => match e with Sleep q => [q] | _ => [] end) t.

(** The checkpoints handed to the file system, with the outcome of the write. *)
Definition saves t : list (Progress * WriteResult) :=
  flat_map (fun e => match e with SaveProgress p res => [(p, res)] | _ => [] end) t.

(** Whether the last thing that happened is a wait. *)
Definition ends_with_sleep t : bool :=
  match last t with
  | Some (Sleep _) => true
  | _ => false
  end.

(** Whether a call of [add_documents] succeeds before the next batch is
    entered, and from it the outcome of every batch of a trace. *)
Fixpoint inserted t : bool :=
  match t with
  | [] => false
  | InsertBatch _ _ :: _ => false
  | AddDocuments _ true :: _ => true
  | _ :: t' => inserted t'
  end.

Fixpoint batch_outcomes t : list (Z * bool) :=
  match t with
  | [] => []
  | InsertBatch n _ :: t' => (n, inserted t') :: batch_outcomes t'
  | _ :: t' => batch_outcomes t'
  end.

(** The file after a sequence of writes: a write that succeeds replaces
    the content, one that [open] refuses changes nothing, one that breaks
    off later leaves a damaged file. *)
Definition file_after (file : option Content) (writes : list (Progress * WriteResult))
    : option Content :=
  fold_left (fun f pw => written (snd pw) (fst pw) f) writes file.

(** [n] failed attempts, each followed by its backoff: the attempts
    numbered [a], ..., [a + n - 1] wait [2^attempt * 2]. *)
Definition backoff_pattern (batch : list Doc) (a n : nat) : list (Event Doc) :=
  flat_map (fun j : nat =>
              [AddDocuments batch false; Sleep (inject_Z (2 ^ Z.of_nat j * 2))])
           (seq a n).

(** What [_insert_batch_with_retry] leaves in the trace after its entry:
    nothing when no attempt is allowed, else some failed attempts with
    their backoffs and a last attempt, whose outcome is the result. *)
Definition retry_shape (batch : list Doc) (ok : bool) t : Prop :=
  (t = [] /\ ok = false)
  \/ exists k : nat, t = backoff_pattern batch 0 k ++ [AddDocuments batch ok].

(** Every write of a checkpoint comes right after a call of
    [add_documents] that succeeded and right before the delay between two
    batches: [prev] is the event before [t]. *)
Fixpoint saves_at_boundary (prev : option (Event Doc)) t : Prop :=
  match t with
  | [] => True
  | e :: t' =>
      match e with
      | SaveProgress _ _ =>
          (exists b, prev = Some (AddDocuments b true))
          /\ (exists rest, t' = Sleep (1 # 2) :: rest)
      | _ => True
      end
      /\ saves_at_boundary (Some e) t'
  end.

(** The write a successful batch may owe. *)
Definition checkpoint_tail (num s f : Z) (ok : bool) (tail : list (Event Doc)) : Prop :=
  (ok = true /\ (s + 1) mod 10 = 0
   /\ exists ts wok, tail = [SaveProgress (mkProgress num (s + 1) f (Some ts)) wok])
  \/ ((ok = false \/ (s + 1) mod 10 <> 0) /\ tail = []).

(** The [j]-th batch (from 0) of a list cut into batches of [batch_size]. *)
Definition nth_batch (documents : list Doc) (batch_size : Z) (j : nat) : list Doc :=
  firstn (Z.to_nat batch_size) (skipn (j * Z.to_nat batch_size) documents).

End Observations.

(** [ceil(n / b)] *)
Definition ceil_div (n b : Z) : Z :=
  if n mod b =? 0 then n / b else n / b + 1.

(** The numbers of successful and of failed batches among some outcomes. *)
Definition successes (rs : list (Z * bool)) : Z :=
  Z.of_nat (length (List.filter (fun r => snd r) rs)).

Definition failures (rs : list (Z * bool)) : Z :=
  Z.of_nat (length (List.filter (fun r => negb (snd r)) rs)).



Definition checkpoint_counts (p : Progress) : Z * Z * Z :=
  (current_batch p, successful_batches p, failed_batches p).

(** The same checkpoints, computed along the outcomes from the counts
    [s] and [f] reached before them. *)
Fixpoint checkpoints_from (s f : Z) (rs : list (Z * bool)) : list (Z * Z * Z) :=
  match rs with
  | [] => []
  | (num, true) :: rs' =>
      (if (s + 1) mod 10 =? 0 then [(num, s + 1, f)] else [])
      ++ checkpoints_from (s + 1) f rs'
  | (num, false) :: rs' => checkpoints_from s (f + 1) rs'
  end.

(* ===================================================================== *)
(** ** Sample inputs *)
(* ===================================================================== *)

Module Sample.

Definition w0 : World := mkWorld 0 0 None.

(** A store that always accepts, on a file system that never fails. *)
Definition calm : Env :=
  mkEnv (fun _ => true) (fun _ => true) (fun _ => true) true true (fun _ => 0%Q).

(** A store that rejects its first two calls. *)
Definition fails_twice : Env :=
  mkEnv (fun n => (2 <=? n)%nat) (fun _ => true) (fun _ => true) true true
        (fun _ => 0%Q).

(** A store that rejects every call. *)
Definition down : Env :=
  mkEnv (fun _ => false) (fun _ => true) (fun _ => true) true true (fun _ => 0%Q).

(** A working directory that is read-only: the progress file can be read,
    but neither written nor removed. *)
Definition read_only : Env :=
  mkEnv (fun _ => true) (fun _ => false) (fun _ => true) true false (fun _ => 0%Q).

(** The world an interrupted run left: a checkpoint after batch 2. *)
Definition interrupted : World :=
  mkWorld 0 0 (Some (Json (mkProgress 2 2 0 (Some 0%Q)))).

Definition docs (n : nat) : list nat := seq 0 n.

(** Rows, with a formatter that shows strings as they are. *)
Definition show (v : pyval) : string :=
  match v with
  | Scalar (SStr s) => s
  | Scalar SNaN => "nan"
  | _ => "?"
  end.

Definition full_row : Mapper.Row :=
  [("source", SStr "Sahih Bukhari"); ("chapter_no", SInt 1); ("hadith_no", SInt 7);
   ("chapter", SStr "Revelation"); ("chain_indx", SStr "30418, 20005");
   ("text_ar", SStr "..."); ("text_en", SStr "...")].

(** The row of a line whose source and hadith number are left empty. *)
Definition null_cells_row : Mapper.Row :=
  [("source", SNaN); ("chapter_no", SInt 1); ("hadith_no", SNaN);
   ("chapter", SStr "Revelation"); ("chain_indx", SStr "30418, 20005");
   ("text_ar", SStr "..."); ("text_en", SStr "...")].

(** A Series no reader produces: one label, two cells. *)
Definition repeated_label_row : Mapper.Row :=
  [("hadith_no", SInt 7); ("hadith_no", SInt 8)].

(** A reader of the numerals the samples use, standing for [int]. *)
Definition int_of_digit (s : string) : option Z :=
  if String.eqb s "0" then Some 0
  else if String.eqb s "3" then Some 3
  else if String.eqb s "5" then Some 5
  else None.

Definition environ : gmap string string :=
  <["POSTGRES_URL" := "postgresql://localhost/hadith"]>
  (<["GOOGLE_API_KEY" := "key"]> (<["MAX_RETRIES" := "5"]> ∅)).

(** Clients that always connect. *)
Definition embeddings_client (key : pyval) : result unit := Ok tt.

Definition store_client (url : pyval) (e : unit) (collection : pyval) : result unit :=
  Ok tt.

End Sample.

(* ===================================================================== *)
(** ** More of the program: further readings of a trace, and [main] *)
(* ===================================================================== *)

Section MoreObservations.

Context {Doc : Type}.
Implicit Type t : list (Event Doc).

(** The batches the store accepted, in order. *)
Definition inserted_batches t : list (list Doc) :=
  flat_map (fun e => match e with AddDocuments b true => [b] | _ => [] end) t.

(** The time slept, in all. *)
Definition total_sleep t : Q :=
  fold_right Qplus 0%Q (sleeps t).

(** The calls of [add_documents] made for each batch handed to
    [_insert_batch_with_retry]: those between its entry and the next
    entry, with the number of the batch and the batch. *)
Fixpoint calls_before_next t : list (list Doc * bool) :=
  match t with
  | [] => []
  | InsertBatch _ _ :: _ => []
  | AddDocuments b ok :: t' => (b, ok) :: calls_before_next t'
  | _ :: t' => calls_before_next t'
  end.

Fixpoint batch_calls t : list (Z * list Doc * list (list Doc * bool)) :=
  match t with
  | [] => []
  | InsertBatch n b :: t' => (n, b, calls_before_next t') :: batch_calls t'
  | _ :: t' => batch_calls t'
  end.

(** What a batch with at least one attempt allowed gets: between one and
    [retries] calls, all of them with the batch, all but the last
    rejected. *)
Definition fair_share (retries : Z) (x : Z * list Doc * list (list Doc * bool)) : Prop :=
  (1 <= length (snd x) <= Z.to_nat retries)%nat
  /\ List.Forall (fun c => fst c = snd (fst x)) (snd x)
  /\ List.Forall (fun c => snd c = false) (removelast (snd x)).

(** Whether the progress file was read. *)
Definition reads_progress t : bool :=
  existsb (fun e => match e with LoadProgress _ => true | _ => false end) t.

End MoreObservations.

(** The batch [process_csv_file] starts from: the [current_batch] of the
    progress file when the run is in batch mode, asked to resume, and the
    file is there, can be opened and holds a checkpoint; batch 0
    otherwise. *)
Definition resume_point (env : Env) (use_batch_insert resume : bool) (w : World) : Z :=
  if resume && use_batch_insert
  then match progress_file w with
       | Some (Json p) => if open_read_ok env then current_batch p else 0
       | _ => 0
       end
  else 0.

(** Whether a label occurs more than once in a row. *)
Definition repeated_label (row : Mapper.Row) (key : string) : bool :=
  (2 <=? length (Mapper.cells_at row key))%nat.

(** *** [main] (rag.py, 297-350) *)

Module Main.
Section Main.

Context {Embeddings Store : Type}.

(** Collaborators: Python's [int] on strings ([None] for its [ValueError])
    and [str.lower], the two clients, the reader, [str] as f-strings use
    it, and the environment of the pipeline. *)
Variable int_of_str : string -> option Z.
Variable str_lower : string -> string.
Variable py_str : pyval -> string.
Variable GoogleGenerativeAIEmbeddings : pyval -> result Embeddings.
Variable PGVector : pyval -> Embeddings -> pyval -> result Store.
Variable read_csv_file : string -> result (list Mapper.Row).
Variable env : Env.

(** The dictionary [config]. *)
Record Configuration : Type := mkConfiguration {
  postgres_url : pyval;
  google_api_key : pyval;
  collection_name : string;
  csv_file_path : string;
  batch_size : Z;
  use_batch_insert : bool;
  max_retries : Z;
  resume : bool
}.

(** [int(os.getenv(key, default))] *)
Definition getenv_int (environ : gmap string string) (key dflt : string) : result Z :=
  match int_of_str (Config.getenv_default environ key dflt) with
  | Some z => Ok z
  | None => Raise (ValueError "invalid literal for int()")
  end.

(** [os.getenv(key, default).lower() == "true"] *)
Definition getenv_flag (environ : gmap string string) (key dflt : string) : bool :=
  String.eqb (str_lower (Config.getenv_default environ key dflt)) "true".

(** Lines 302-311; the values are evaluated in the order of the keys. *)
Definition load_config (environ : gmap string string) : result Configuration :=
  let? batch_size := getenv_int environ "BATCH_SIZE" "25" in
  let? max_retries := getenv_int environ "MAX_RETRIES" "3" in
  Ok (mkConfiguration
        (Config.getenv environ "POSTGRES_URL")
        (Config.getenv environ "GOOGLE_API_KEY")
        (Config.getenv_default environ "COLLECTION_NAME" "rag_ahadees")
        (Config.getenv_default environ "CSV_FILE_PATH" "all_hadiths_clean.csv")
        batch_size
        (getenv_flag environ "USE_BATCH_INSERT" "true")
        max_retries
        (getenv_flag environ "RESUME" "true")).

(** [self.max_retries] as the methods of the inserter use it, in
    [range(self.max_retries)] and [self.max_retries - 1]: an [int] (a
    [bool] is one).  [main] always hands the constructor an [int], so the
    other values do not occur here. *)
Definition retries_of (v : pyval) : result Z :=
  match v with
  | Scalar (SInt z) => Ok z
  | Scalar (SBool b) => Ok (if b then 1 else 0)
  | _ => Raise TypeError
  end.

Notation "'let*' x ':=' c1 'in' c2" := (bind c1 (fun x => c2))
  (at level 10, x pattern, c1 at level 100, c2 at level 200).

(** [main] returns [None]; the embedding returns the [os.environ] it
    leaves.  The [try] of lines 331-350 logs and re-raises. *)
Definition main (environ : gmap string string)
    : Run Mapper.Document (gmap string string) :=
  let* config := lift (load_config environ) in
  let* has_key := lift (truthy (google_api_key config)) in
  if negb has_key
  then lift (Raise (ValueError "Missing required configuration: ['google_api_key']"))
  else
    let* built :=
      lift (Config.__init__ int_of_str GoogleGenerativeAIEmbeddings PGVector environ
              (postgres_url config) (google_api_key config)
              (Scalar (SStr (collection_name config)))
              (Scalar (SInt (max_retries config)))) in
    let* retries := lift (retries_of (Config.max_retries (fst built))) in
    let* _ := process_csv_file env retries read_csv_file
                (Mapper.create_document_from_row py_str)
                (csv_file_path config) (batch_size config)
                (use_batch_insert config) (resume config) in
    ret (snd built).

End Main.
End Main.

(** Further sample inputs. *)
Module Scenario.

(** A store that rejects every second call, starting with the first. *)
Definition flaky : Env :=
  mkEnv Nat.odd (fun _ => true) (fun _ => true) true true (fun _ => 0%Q).

(** An environment without the key of the embedding provider. *)
Definition no_key : gmap string string :=
  <["POSTGRES_URL" := "postgresql://localhost/hadith"]> ∅.

(** An environment that asks for no attempt at all. *)
Definition no_retries : gmap string string :=
  <["POSTGRES_URL" := "postgresql://localhost/hadith"]>
  (<["GOOGLE_API_KEY" := "key"]> (<["MAX_RETRIES" := "0"]> ∅)).

(** A file system on which every write of the progress file breaks off
    after the file was opened. *)
Definition disk_full : Env :=
  mkEnv (fun _ => true) (fun _ => true) (fun _ => false) true true (fun _ => 0%Q).

(** A reader of two rows. *)
Definition two_rows (path : string) : result (list Mapper.Row) :=
  Ok [Sample.full_row; Sample.null_cells_row].

(** [int] on the strings of decimal digits, and [str.lower] on ASCII. *)
Definition digit (a : ascii) : option Z :=
  let n := nat_of_ascii a in
  if (48 <=? n)%nat && (n <=? 57)%nat then Some (Z.of_nat (n - 48)) else None.

Fixpoint digits (s : string) (acc : Z) : option Z :=
  match s with
  | EmptyString => Some acc
  | String a s' =>
      match digit a with
      | Some d => digits s' (10 * acc + d)
      | None => None
      end
  end.

Definition int_of_decimal (s : string) : option Z :=
  match s with
  | EmptyString => None
  | _ => digits s 0
  end.

Definition lower_ascii (a : ascii) : ascii :=
  let n := nat_of_ascii a in
  if (65 <=? n)%nat && (n <=? 90)%nat then ascii_of_nat (n + 32) else a.

Fixpoint lower (s : string) : string :=
  match s with
  | EmptyString => EmptyString
  | String a s' => String (lower_ascii a) (lower s')
  end.

(** A row in which the label of a text field occurs twice. *)
Definition repeated_text_row : Mapper.Row :=
  [("source", SStr "a"); ("source", SStr "b"); ("hadith_no", SInt 7)].

End Scenario.

(* ===================================================================== *)
(** ** The computations, step by step *)
(* ===================================================================== *)

Section RetryFacts.

Context {Doc : Type}.
Variable env : Env.
Variable max_retries : Z.

Lemma retry_loop_nil (batch : list Doc) w :
  retry_loop env max_retries batch [] w = mkOut (Ok false) w [].
Proof. reflexivity. Qed.

Lemma retry_loop_success (batch : list Doc) attempt rest w :
  add_documents_ok env (n_add w) = true ->
  retry_loop env max_retries batch (attempt :: rest) w
  = mkOut (Ok true) (mkWorld (S (n_add w)) (n_write w) (progress_file w))
          [AddDocuments batch true].
Proof.
  intros Hok. cbn. unfold try_except, bind, add_documents, ret. cbn.
  rewrite Hok. reflexivity.
Qed.

Lemma retry_loop_last (batch : list Doc) attempt rest w :
  add_documents_ok env (n_add w) = false ->
  (attempt <? max_retries - 1) = false ->
  retry_loop env max_retries batch (attempt :: rest) w
  = mkOut (Ok false) (mkWorld (S (n_add w)) (n_write w) (progress_file w))
          [AddDocuments batch false].
Proof.
  intros Hok Hlast. cbn. unfold try_except, bind, add_documents, ret. cbn.
  rewrite Hok. cbn. rewrite Hlast. reflexivity.
Qed.

Lemma retry_loop_again (batch : list Doc) attempt rest w :
  add_documents_ok env (n_add w) = false ->
  (attempt <? max_retries - 1) = true ->
  let r := retry_loop env max_retries batch rest
             (mkWorld (S (n_add w)) (n_write w) (progress_file w)) in
  retry_loop env max_retries batch (attempt :: rest) w
  = mkOut (outcome r) (world r)
          (AddDocuments batch false
             :: Sleep (inject_Z (2 ^ attempt * 2)) :: events r).
Proof.
  intros Hok Hlast. cbn. unfold try_except, bind, add_documents, ret. cbn.
  rewrite Hok. cbn. rewrite Hlast. cbn. reflexivity.
Qed.

(** The loop over the attempts [a], ..., [a + n - 1], the last of which is
    attempt [max_retries - 1]: it stops at the first call that succeeds,
    after [k] failures and their backoffs, or at the last attempt. *)
Lemma retry_loop_spec (batch : list Doc) n : forall a w,
  (a + S n)%nat = Z.to_nat max_retries ->
  exists (k : nat) (ok : bool),
    (k <= n)%nat
    /\ (forall j, (j < k)%nat -> add_documents_ok env (n_add w + j) = false)
    /\ add_documents_ok env (n_add w + k) = ok
    /\ (ok = false -> k = n)
    /\ retry_loop env max_retries batch (map Z.of_nat (seq a (S n))) w
       = mkOut (Ok ok)
               (mkWorld (n_add w + S k) (n_write w) (progress_file w))
               (backoff_pattern batch a k ++ [AddDocuments batch ok]).
Proof.
  induction n as [|n IH]; intros a w Ha.
  - destruct (add_documents_ok env (n_add w)) eqn:Hok.
    + exists 0%nat, true. rewrite Nat.add_0_r.
      split_and!; [lia | intros; lia | exact Hok | discriminate |].
      cbn [seq map]. rewrite retry_loop_success by exact Hok.
      rewrite Nat.add_1_r. reflexivity.
    + exists 0%nat, false. rewrite Nat.add_0_r.
      split_and!; [lia | intros; lia | exact Hok | reflexivity |].
      cbn [seq map]. rewrite retry_loop_last; [| exact Hok | apply Z.ltb_ge; lia].
      rewrite Nat.add_1_r. reflexivity.
  - destruct (add_documents_ok env (n_add w)) eqn:Hok.
    + exists 0%nat, true. rewrite Nat.add_0_r.
      split_and!; [lia | intros; lia | exact Hok | discriminate |].
      cbn [seq map]. rewrite retry_loop_success by exact Hok.
      rewrite Nat.add_1_r. reflexivity.
    + destruct (IH (S a) (mkWorld (S (n_add w)) (n_write w) (progress_file w)))
        as (k & ok & Hk & Hfail & Hlast & Hall & Hrun); [lia |].
      cbn [n_add n_write progress_file] in *.
      exists (S k), ok.
      split_and!.
      * lia.
      * intros j Hj. destruct j as [|j].
        -- rewrite Nat.add_0_r. exact Hok.
        -- replace (n_add w + S j)%nat with (S (n_add w) + j)%nat by lia.
           apply Hfail. lia.
      * replace (n_add w + S k)%nat with (S (n_add w) + k)%nat by lia. exact Hlast.
      * intros Hf. rewrite (Hall Hf). reflexivity.
      * change (map Z.of_nat (seq a (S (S n))))
          with (Z.of_nat a :: map Z.of_nat (seq (S a) (S n))).
        rewrite retry_loop_again; [| exact Hok | apply Z.ltb_lt; lia].
        cbv zeta. rewrite Hrun. cbn [outcome world events].
        replace (S (n_add w) + S k)%nat with (n_add w + S (S k))%nat by lia.
        reflexivity.
Qed.

(** [_insert_batch_with_retry] always returns; with no attempt allowed it
    returns [False] at once. *)
Lemma insert_batch_no_attempt (batch : list Doc) num w :
  max_retries <= 0 ->
  _insert_batch_with_retry env max_retries batch num w
  = mkOut (Ok false) w [InsertBatch num batch].
Proof.
  intros Hmr. unfold _insert_batch_with_retry, range.
  replace (Z.to_nat max_retries) with 0%nat by lia. reflexivity.
Qed.

Lemma insert_batch_spec (batch : list Doc) num w :
  1 <= max_retries ->
  exists (k : nat) (ok : bool),
    (Z.of_nat k < max_retries)
    /\ (forall j, (j < k)%nat -> add_documents_ok env (n_add w + j) = false)
    /\ add_documents_ok env (n_add w + k) = ok
    /\ (ok = false -> Z.of_nat k = max_retries - 1)
    /\ _insert_batch_with_retry env max_retries batch num w
       = mkOut (Ok ok)
               (mkWorld (n_add w + S k) (n_write w) (progress_file w))
               (InsertBatch num batch
                  :: backoff_pattern batch 0 k ++ [AddDocuments batch ok]).
Proof.
  intros Hmr. unfold _insert_batch_with_retry, range.
  destruct (Z.to_nat max_retries) as [|n] eqn:Hn; [lia |].
  destruct (retry_loop_spec batch n 0%nat w) as (k & ok & Hk & Hf & Hl & Ha & Hrun);
    [lia |].
  exists k, ok. split_and!; try assumption.
  - lia.
  - intros H. specialize (Ha H). lia.
  - rewrite Hrun. reflexivity.
Qed.

End RetryFacts.

Section TraceFacts.

Context {Doc : Type}.
Implicit Type t : list (Event Doc).

Lemma submitted_app t1 t2 : submitted (t1 ++ t2) = submitted t1 ++ submitted t2.
Proof. unfold submitted. apply flat_map_app. Qed.

Lemma attempts_app t1 t2 : attempts (t1 ++ t2) = attempts t1 ++ attempts t2.
Proof. unfold attempts. apply flat_map_app. Qed.

Lemma sleeps_app t1 t2 : sleeps (t1 ++ t2) = sleeps t1 ++ sleeps t2.
Proof. unfold sleeps. apply flat_map_app. Qed.

Lemma saves_app t1 t2 : saves (t1 ++ t2) = saves t1 ++ saves t2.
Proof. unfold saves. apply flat_map_app. Qed.

Lemma file_after_app file ws1 ws2 :
  file_after file (ws1 ++ ws2) = file_after (file_after file ws1) ws2.
Proof. unfold file_after. apply fold_left_app. Qed.


Lemma backoff_pattern_S (batch : list Doc) a k :
  backoff_pattern batch a (S k)
  = AddDocuments batch false :: Sleep (inject_Z (2 ^ Z.of_nat a * 2))
      :: backoff_pattern batch (S a) k.
Proof. reflexivity. Qed.

Lemma submitted_backoff (batch : list Doc) k : forall a,
  submitted (backoff_pattern batch a k) = [].
Proof. induction k as [|k IH]; intros a; [reflexivity |]. cbn. apply IH. Qed.

Lemma saves_backoff (batch : list Doc) k : forall a,
  saves (backoff_pattern batch a k) = [].
Proof. induction k as [|k IH]; intros a; [reflexivity |]. cbn. apply IH. Qed.

Lemma attempts_backoff (batch : list Doc) k : forall a,
  attempts (backoff_pattern batch a k) = repeat (batch, false) k.
Proof.
  induction k as [|k IH]; intros a; [reflexivity |].
  cbn. f_equal. apply IH.
Qed.

Lemma sleeps_backoff (batch : list Doc) k : forall a,
  sleeps (backoff_pattern batch a k)
  = map (fun j : nat => inject_Z (2 ^ Z.of_nat j * 2)) (seq a k).
Proof.
  induction k as [|k IH]; intros a; [reflexivity |].
  cbn. f_equal. apply IH.
Qed.

Lemma inserted_backoff (batch : list Doc) k : forall a t,
  inserted (backoff_pattern batch a k ++ t) = inserted t.
Proof. induction k as [|k IH]; intros a t; [reflexivity |]. cbn. apply IH. Qed.

Lemma batch_outcomes_backoff (batch : list Doc) k : forall a t,
  batch_outcomes (backoff_pattern batch a k ++ t) = batch_outcomes t.
Proof. induction k as [|k IH]; intros a t; [reflexivity |]. cbn. apply IH. Qed.

Lemma boundary_backoff (batch : list Doc) k : forall a prev t,
  (forall prev', saves_at_boundary prev' t) ->
  saves_at_boundary prev (backoff_pattern batch a k ++ t).
Proof.
  induction k as [|k IH]; intros a prev t Ht; [apply Ht |].
  cbn. split; [exact I |]. split; [exact I |]. apply IH, Ht.
Qed.

(** What a retry leaves, seen through the observations. *)
Lemma retry_shape_submitted (batch : list Doc) ok t :
  retry_shape batch ok t -> submitted t = [].
Proof.
  intros [[-> _] | [k ->]]; [reflexivity |].
  rewrite submitted_app, submitted_backoff. reflexivity.
Qed.

Lemma retry_shape_saves (batch : list Doc) ok t :
  retry_shape batch ok t -> saves t = [].
Proof.
  intros [[-> _] | [k ->]]; [reflexivity |].
  rewrite saves_app, saves_backoff. reflexivity.
Qed.

Lemma retry_shape_attempts (batch : list Doc) ok t :
  retry_shape batch ok t -> Forall (fun a => fst a = batch) (attempts t).
Proof.
  intros [[-> _] | [k ->]]; [constructor |].
  rewrite attempts_app, attempts_backoff. apply Forall_app. split.
  - apply List.Forall_forall. intros x Hx. apply repeat_spec in Hx. subst. reflexivity.
  - cbn. constructor; [reflexivity | constructor].
Qed.

Lemma retry_shape_inserted (batch : list Doc) ok t t' :
  retry_shape batch ok t -> inserted t' = false -> inserted (t ++ t') = ok.
Proof.
  intros [[-> ->] | [k ->]] Ht'; [exact Ht' |].
  rewrite <- app_assoc, inserted_backoff. cbn. destruct ok; [reflexivity | exact Ht'].
Qed.

Lemma retry_shape_outcomes (batch : list Doc) ok t t' :
  retry_shape batch ok t -> batch_outcomes (t ++ t') = batch_outcomes t'.
Proof.
  intros [[-> _] | [k ->]]; [reflexivity |].
  rewrite <- app_assoc, batch_outcomes_backoff. reflexivity.
Qed.

Lemma retry_shape_boundary (batch : list Doc) ok t t' prev :
  retry_shape batch ok t ->
  (forall prev', saves_at_boundary prev' t') ->
  saves_at_boundary prev (t ++ t').
Proof.
  intros [[-> _] | [k ->]] Ht'; [apply Ht' |].
  rewrite <- app_assoc. apply boundary_backoff. intros prev'.
  cbn. split; [exact I | apply Ht'].
Qed.

Lemma retry_shape_boundary_save (batch : list Doc) t t' prev p wok :
  retry_shape batch true t ->
  (forall prev', saves_at_boundary prev' t') ->
  saves_at_boundary prev (t ++ SaveProgress p wok :: Sleep (1 # 2) :: t').
Proof.
  intros [[_ Hok] | [k ->]] Ht'; [discriminate |].
  rewrite <- app_assoc. apply boundary_backoff. intros prev'.
  cbn. split; [exact I |]. split; [split; eauto |].
  split; [exact I | apply Ht'].
Qed.

End TraceFacts.

Section LoopFacts.

Context {Doc : Type}.
Variable env : Env.
Variable max_retries : Z.

Lemma insert_batch_shape (batch : list Doc) num w :
  exists ok evs w',
    _insert_batch_with_retry env max_retries batch num w
    = mkOut (Ok ok) w' (InsertBatch num batch :: evs)
    /\ retry_shape batch ok evs
    /\ n_write w' = n_write w
    /\ progress_file w' = progress_file w
    /\ (ok = true -> exists n, add_documents_ok env n = true).
Proof.
  destruct (Z_le_gt_dec max_retries 0) as [Hmr | Hmr].
  - exists false, [], w. rewrite insert_batch_no_attempt by exact Hmr.
    split_and!; try reflexivity; [| discriminate]. left. split; reflexivity.
  - destruct (insert_batch_spec env max_retries batch num w)
      as (k & ok & _ & _ & Hlast & _ & Hrun); [lia |].
    eexists ok, _, _. rewrite Hrun. split_and!; try reflexivity.
    + right. exists k. reflexivity.
    + intros ->. eauto.
Qed.

Lemma batch_body_shape (documents : list Doc) B i s f w :
  exists ok evs tail w',
    batch_body env max_retries documents B i (s, f) w
    = mkOut (Ok (if ok : bool then (s + 1, f) else (s, f + 1))) w'
            (InsertBatch (i / B + 1) (slice documents i (i + B))
               :: evs ++ tail ++ [Sleep (1 # 2)])
    /\ retry_shape (slice documents i (i + B)) ok evs
    /\ checkpoint_tail (i / B + 1) s f ok tail
    /\ progress_file w' = file_after (progress_file w) (saves tail)
    /\ (ok = true -> exists n, add_documents_ok env n = true)
    /\ Forall (fun pw => exists n, snd pw = write_result env n) (saves tail).
Proof.
  destruct (insert_batch_shape (slice documents i (i + B)) (i / B + 1) w)
    as (ok & evs & w1 & Hrun & Hshape & Hnw & Hfile & Horacle).
  unfold batch_body, bind. rewrite Hrun. cbn [outcome world events].
  destruct ok.
  - destruct ((s + 1) mod 10 =? 0) eqn:Hmod.
    + unfold _save_progress, try_except, write_progress_file, time_sleep, ret.
      cbn [outcome world events].
      destruct (write_result env (n_write w1)) eqn:Hw; cbn [outcome world events];
        (eexists true, evs, [_], _; split_and!;
         [ rewrite <- ?app_assoc, ?app_nil_r; cbn; reflexivity
         | exact Hshape
         | left; split_and!; [reflexivity | apply Z.eqb_eq, Hmod | eauto]
         | cbn; rewrite ?Hfile; reflexivity
         | exact Horacle
         | cbn; constructor; [| constructor]; cbn; rewrite <- Hw; eauto ]).
    + unfold time_sleep, ret. cbn [outcome world events].
      eexists true, evs, [], _. split_and!.
      * rewrite ?app_nil_r. cbn. reflexivity.
      * exact Hshape.
      * right. split; [right; apply Z.eqb_neq, Hmod | reflexivity].
      * exact Hfile.
      * exact Horacle.
      * constructor.
  - unfold time_sleep, ret. cbn [outcome world events].
    eexists false, evs, [], _. split_and!.
    + rewrite ?app_nil_r. cbn. reflexivity.
    + exact Hshape.
    + right. split; [left; reflexivity | reflexivity].
    + exact Hfile.
    + discriminate.
    + constructor.
Qed.


Lemma successes_cons num (ok : bool) rs :
  successes ((num, ok) :: rs) = (if ok then 1 else 0) + successes rs.
Proof. unfold successes. destruct ok; cbn [List.filter snd length]; lia. Qed.

Lemma failures_cons num (ok : bool) rs :
  failures ((num, ok) :: rs) = (if ok then 0 else 1) + failures rs.
Proof. unfold failures. destruct ok; cbn [List.filter snd negb length]; lia. Qed.

Lemma checkpoint_tail_inserted num s f ok tail q (t : list (Event Doc)) :
  checkpoint_tail num s f ok tail ->
  inserted (tail ++ Sleep q :: t) = inserted t.
Proof. intros [(_ & _ & ts & wok & ->) | [_ ->]]; reflexivity. Qed.

Lemma checkpoint_tail_outcomes num s f ok tail q (t : list (Event Doc)) :
  checkpoint_tail num s f ok tail ->
  batch_outcomes (tail ++ Sleep q :: t) = batch_outcomes t.
Proof. intros [(_ & _ & ts & wok & ->) | [_ ->]]; reflexivity. Qed.

Lemma checkpoint_tail_submitted num s f ok (tail : list (Event Doc)) :
  checkpoint_tail num s f ok tail -> submitted tail = [].
Proof. intros [(_ & _ & ts & wok & ->) | [_ ->]]; reflexivity. Qed.

Lemma checkpoint_tail_attempts num s f ok (tail : list (Event Doc)) :
  checkpoint_tail num s f ok tail -> attempts tail = [].
Proof. intros [(_ & _ & ts & wok & ->) | [_ ->]]; reflexivity. Qed.

Lemma checkpoint_tail_counts num s f ok (tail : list (Event Doc)) :
  checkpoint_tail num s f ok tail ->
  map checkpoint_counts (map fst (saves tail))
  = if ok then (if (s + 1) mod 10 =? 0 then [(num, s + 1, f)] else []) else [].
Proof.
  intros [(-> & Hmod & ts & wok & ->) | [[-> | Hmod] ->]].
  - rewrite Hmod. reflexivity.
  - reflexivity.
  - destruct ok; [| reflexivity].
    destruct ((s + 1) mod 10 =? 0) eqn:E; [| reflexivity].
    apply Z.eqb_eq in E. contradiction.
Qed.

Lemma for_loop_cons {A S} (x : A) xs (body : A -> S -> Run Doc S) s w s' w' evs :
  body x s w = mkOut (Ok s') w' evs ->
  for_loop (x :: xs) body s w
  = mkOut (outcome (for_loop xs body s' w')) (world (for_loop xs body s' w'))
          (evs ++ events (for_loop xs body s' w')).
Proof. intros H. cbn [for_loop]. unfold bind. rewrite H. reflexivity. Qed.

(** The loop of [insert_chunks_batch], from any counts and any world. *)
Lemma batch_loop_spec (documents : list Doc) B starts : forall st w,
  let r := for_loop starts (batch_body env max_retries documents B) st w in
  let rs := batch_outcomes (events r) in
  outcome r = Ok (fst st + successes rs, snd st + failures rs)
  /\ submitted (events r)
     = map (fun i => (i / B + 1, slice documents i (i + B))) starts
  /\ map fst rs = map (fun i => i / B + 1) starts
  /\ map checkpoint_counts (map fst (saves (events r)))
     = checkpoints_from (fst st) (snd st) rs
  /\ (forall prev, saves_at_boundary prev (events r))
  /\ progress_file (world r) = file_after (progress_file w) (saves (events r))
  /\ inserted (events r) = false
  /\ Forall (fun a => In (fst a) (map snd (submitted (events r))))
            (attempts (events r))
  /\ Forall (fun o => snd o = true -> exists n, add_documents_ok env n = true) rs
  /\ Forall (fun pw => exists n, snd pw = write_result env n) (saves (events r)).
Proof.
  induction starts as [|i rest IH]; intros [s f] w.
  - cbn. split_and!; try reflexivity.
    + f_equal. f_equal; unfold successes, failures; cbn; lia.
    + constructor.
    + constructor.
    + constructor.
  - destruct (batch_body_shape documents B i s f w)
      as (ok & evs & tail & w' & Hrun & Hshape & Htail & Hfile & Horacle & Hwr).
    rewrite (for_loop_cons _ _ _ _ _ _ _ _ Hrun).
    cbv zeta. cbn [outcome world events].
    set (st' := if ok then (s + 1, f) else (s, f + 1)) in *.
    specialize (IH st' w'). cbv zeta in IH.
    set (r' := for_loop rest (batch_body env max_retries documents B) st' w') in *.
    destruct IH as (Hout & Hsub & Hnums & Hcp & Hbd & Hf & Hins & Hatt & Hor & Hws).
    set (num := i / B + 1) in *. set (batch := slice documents i (i + B)) in *.
    assert (HT : (InsertBatch num batch :: evs ++ tail ++ [Sleep (1 # 2)]) ++ events r'
                 = InsertBatch num batch
                     :: evs ++ tail ++ Sleep (1 # 2) :: events r').
    { cbn. rewrite <- !app_assoc. reflexivity. }
    rewrite HT. clear HT.
    assert (Hrs : batch_outcomes (InsertBatch num batch
                     :: evs ++ tail ++ Sleep (1 # 2) :: events r')
                  = (num, ok) :: batch_outcomes (events r')).
    { cbn [batch_outcomes]. f_equal.
      - f_equal. apply (retry_shape_inserted batch ok); [exact Hshape |].
        rewrite (checkpoint_tail_inserted _ _ _ _ _ _ _ Htail). exact Hins.
      - rewrite (retry_shape_outcomes batch ok) by exact Hshape.
        apply (checkpoint_tail_outcomes _ _ _ _ _ _ _ Htail). }
    rewrite Hrs. clear Hrs.
    assert (Hsubm : submitted (InsertBatch num batch
                      :: evs ++ tail ++ Sleep (1 # 2) :: events r')
                    = (num, batch) :: submitted (events r')).
    { change (InsertBatch num batch :: evs ++ tail ++ Sleep (1 # 2) :: events r')
        with ([InsertBatch num batch] ++ evs ++ tail ++ [Sleep (1 # 2)] ++ events r').
      rewrite !submitted_app, (retry_shape_submitted _ _ _ Hshape),
        (checkpoint_tail_submitted _ _ _ _ _ Htail). reflexivity. }
    assert (Hsav : saves (InsertBatch num batch
                      :: evs ++ tail ++ Sleep (1 # 2) :: events r')
                   = saves tail ++ saves (events r')).
    { change (InsertBatch num batch :: evs ++ tail ++ Sleep (1 # 2) :: events r')
        with ([InsertBatch num batch] ++ evs ++ tail ++ [Sleep (1 # 2)] ++ events r').
      rewrite !saves_app, (retry_shape_saves _ _ _ Hshape). reflexivity. }
    assert (Hat : attempts (InsertBatch num batch
                      :: evs ++ tail ++ Sleep (1 # 2) :: events r')
                   = attempts evs ++ attempts (events r')).
    { change (InsertBatch num batch :: evs ++ tail ++ Sleep (1 # 2) :: events r')
        with ([InsertBatch num batch] ++ evs ++ tail ++ [Sleep (1 # 2)] ++ events r').
      rewrite !attempts_app, (checkpoint_tail_attempts _ _ _ _ _ Htail). reflexivity. }
    rewrite Hsubm, Hsav, Hat. clear Hsubm Hsav Hat.
    split_and!.
    + rewrite Hout, successes_cons, failures_cons.
      subst st'. destruct ok; cbn [fst snd]; f_equal; f_equal; lia.
    + cbn [map]. rewrite Hsub. reflexivity.
    + cbn [map fst]. rewrite Hnums. reflexivity.
    + rewrite !map_app, Hcp, (checkpoint_tail_counts _ _ _ _ _ Htail).
      subst st'. cbn [fst snd checkpoints_from].
      destruct ok; cbn [fst snd]; reflexivity.
    + intros prev. cbn [saves_at_boundary]. split; [exact I |].
      destruct Htail as [(-> & Hmod & ts & wok & ->) | [_ ->]].
      * apply (retry_shape_boundary_save batch); [exact Hshape |].
        intros prev'. apply Hbd.
      * apply (retry_shape_boundary batch ok); [exact Hshape |].
        intros prev'. cbn. split; [exact I | apply Hbd].
    + rewrite file_after_app, Hf, Hfile. reflexivity.
    + reflexivity.
    + cbn [map snd]. apply Forall_app. split.
      * eapply List.Forall_impl; [| apply (retry_shape_attempts _ _ _ Hshape)].
        intros a Ha. left. symmetry. exact Ha.
      * eapply List.Forall_impl; [| exact Hatt]. intros a Ha. right. exact Ha.
    + constructor; [exact Horacle | exact Hor].
    + apply Forall_app. split; [exact Hwr | exact Hws].
Qed.

End LoopFacts.

Section BatchFacts.

Context {Doc : Type}.

(** [total_batches] of the source is the ceiling of the quotient. *)
Lemma ceil_div_total_batches n b :
  1 <= b -> ceil_div n b = (n + b - 1) / b.
Proof.
  intros Hb. unfold ceil_div.
  pose proof (Z.div_mod n b ltac:(lia)) as Hn.
  pose proof (Z.mod_pos_bound n b ltac:(lia)) as Hr.
  destruct (n mod b =? 0) eqn:E.
  - apply Z.eqb_eq in E.
    apply (Z.div_unique_pos _ _ _ (b - 1)); lia.
  - apply Z.eqb_neq in E.
    apply (Z.div_unique_pos _ _ _ (n mod b - 1)); lia.
Qed.

Lemma ceil_div_bounds n b :
  1 <= b -> 0 <= n -> 0 <= ceil_div n b /\ n <= ceil_div n b * b < n + b.
Proof.
  intros Hb Hn. unfold ceil_div.
  pose proof (Z.div_mod n b ltac:(lia)) as Hd.
  pose proof (Z.mod_pos_bound n b ltac:(lia)) as Hr.
  pose proof (Z.div_pos n b Hn ltac:(lia)) as Hq.
  destruct (n mod b =? 0) eqn:E.
  - apply Z.eqb_eq in E. nia.
  - apply Z.eqb_neq in E. nia.
Qed.

(** The starts of the batches: [range(resume_from * batch_size, total_docs,
    batch_size)] visits the multiples of the batch size from batch
    [resume_from] up to the last batch. *)
Lemma range3_batches n b k :
  1 <= b -> 0 <= k ->
  range3 (k * b) n b
  = Ok (map (fun j : nat => Z.of_nat j * b)
            (seq (Z.to_nat k) (Z.to_nat (ceil_div n b) - Z.to_nat k))).
Proof.
  intros Hb Hk. unfold range3.
  replace (b =? 0) with false by (symmetry; apply Z.eqb_neq; lia).
  replace (0 <? b) with true by (symmetry; apply Z.ltb_lt; lia).
  f_equal.
  replace (n - k * b + b - 1) with (n + b - 1 + (- k) * b) by lia.
  rewrite Z.div_add by lia. rewrite <- ceil_div_total_batches by exact Hb.
  replace (Z.to_nat (ceil_div n b + - k))
    with (Z.to_nat (ceil_div n b) - Z.to_nat k)%nat by lia.
  generalize (Z.to_nat (ceil_div n b) - Z.to_nat k)%nat as len.
  intros len.
  assert (H : forall a,
             map (fun j : nat => k * b + Z.of_nat j * b) (seq a len)
             = map (fun j : nat => Z.of_nat j * b) (seq (Z.to_nat k + a) len)).
  { induction len as [|len IH]; intros a; [reflexivity |].
    cbn [seq map]. f_equal; [lia |].
    rewrite IH. replace (Z.to_nat k + S a)%nat with (S (Z.to_nat k + a)) by lia.
    reflexivity. }
  rewrite H, Nat.add_0_r. reflexivity.
Qed.

(** The slice the loop takes at the start of batch [j] is the [j]-th batch. *)
Lemma slice_nth_batch (documents : list Doc) b (j : nat) :
  0 <= b ->
  slice documents (Z.of_nat j * b) (Z.of_nat j * b + b) = nth_batch documents b j.
Proof.
  intros Hb. unfold slice, nth_batch, clamp_index.
  set (n := Z.of_nat (length documents)).
  replace (Z.of_nat j * b <? 0) with false by (symmetry; apply Z.ltb_ge; lia).
  replace (Z.of_nat j * b + b <? 0) with false by (symmetry; apply Z.ltb_ge; lia).
  replace (j * Z.to_nat b)%nat with (Z.to_nat (Z.of_nat j * b)) by lia.
  destruct (Z_le_gt_dec (Z.of_nat j * b) n) as [Hle | Hgt].
  - rewrite (Z.min_l (Z.of_nat j * b) n) by lia.
    set (rest := skipn (Z.to_nat (Z.of_nat j * b)) documents).
    assert (Hlen : length rest = Z.to_nat (n - Z.of_nat j * b)).
    { subst rest. rewrite length_skipn. subst n. lia. }
    destruct (Z_le_gt_dec (Z.of_nat j * b + b) n) as [Hle' | Hgt'].
    + rewrite Z.min_l by lia. f_equal. lia.
    + rewrite Z.min_r by lia.
      rewrite !firstn_all2; [reflexivity | lia | lia].
  - rewrite !skipn_all2 by (subst n; lia). rewrite !firstn_nil. reflexivity.
Qed.

Lemma batch_num_of_start b (j : nat) :
  1 <= b -> Z.of_nat j * b / b + 1 = Z.of_nat j + 1.
Proof. intros Hb. rewrite Z.div_mul by lia. reflexivity. Qed.

(** Batches [a], ..., [a + n - 1] laid end to end. *)
Lemma concat_nth_batch (documents : list Doc) b n : forall a,
  1 <= b ->
  concat (map (nth_batch documents b) (seq a n))
  = firstn (n * Z.to_nat b) (skipn (a * Z.to_nat b) documents).
Proof.
  induction n as [|n IH]; intros a Hb; [reflexivity |].
  cbn [seq map concat]. rewrite IH by exact Hb. unfold nth_batch.
  set (c := Z.to_nat b).
  replace (S a * c)%nat with (c + a * c)%nat by lia.
  rewrite <- skipn_skipn.
  replace (S n * c)%nat with (c + n * c)%nat by lia.
  generalize (skipn (a * c) documents) as l. intros l.
  rewrite <- (firstn_skipn c l) at 3.
  rewrite firstn_app, firstn_firstn.
  replace (Init.Nat.min (c + n * c) c) with c by lia.
  f_equal.
  destruct (Nat.le_gt_cases c (length l)) as [Hl | Hl].
  - rewrite length_firstn. replace (c + n * c - Init.Nat.min c (length l))%nat with (n * c)%nat by lia.
    reflexivity.
  - rewrite (skipn_all2 l) by lia. rewrite !firstn_nil. reflexivity.
Qed.


End BatchFacts.

Section CheckpointFacts.






End CheckpointFacts.

Section RunFacts.

Context {Doc : Type}.
Variable env : Env.
Variable max_retries : Z.

Lemma bind_lift_ok {A B} (a : A) (k : A -> Run Doc B) w :
  bind (lift (Ok a)) k w = k a w.
Proof. unfold bind, lift. cbn. destruct (k a w). reflexivity. Qed.

Lemma bind_lift_raise {A B} e (k : A -> Run Doc B) w :
  bind (lift (Raise e)) k w = mkOut (Raise e) w [].
Proof. reflexivity. Qed.

(** With a batch size other than 0 the method is its loop over the starts
    of the batches. *)
Lemma insert_chunks_batch_loop (documents : list Doc) B k w :
  B <> 0 ->
  exists starts,
    range3 (k * B) (Z.of_nat (length documents)) B = Ok starts
    /\ insert_chunks_batch env max_retries documents B k w
       = for_loop starts (batch_body env max_retries documents B) (0, 0) w.
Proof.
  intros HB. unfold insert_chunks_batch, floordiv.
  replace (B =? 0) with false by (symmetry; apply Z.eqb_neq; exact HB).
  rewrite bind_lift_ok.
  assert (exists starts,
            range3 (k * B) (Z.of_nat (length documents)) B = Ok starts)
    as [starts Hs].
  { unfold range3.
    replace (B =? 0) with false by (symmetry; apply Z.eqb_neq; exact HB).
    eauto. }
  exists starts. split; [exact Hs |]. rewrite Hs, bind_lift_ok. reflexivity.
Qed.

Lemma insert_chunks_batch_zero (documents : list Doc) k w :
  insert_chunks_batch env max_retries documents 0 k w
  = mkOut (Raise ZeroDivisionError) w [].
Proof. reflexivity. Qed.

(** From batch [k] on, for a batch size of at least 1. *)
Lemma insert_chunks_batch_from (documents : list Doc) B k w :
  1 <= B -> 0 <= k ->
  insert_chunks_batch env max_retries documents B k w
  = for_loop
      (map (fun j : nat => Z.of_nat j * B)
           (seq (Z.to_nat k)
                (Z.to_nat (ceil_div (Z.of_nat (length documents)) B) - Z.to_nat k)))
      (batch_body env max_retries documents B) (0, 0) w.
Proof.
  intros HB Hk.
  destruct (insert_chunks_batch_loop documents B k w) as (starts & Hs & Hrun); [lia |].
  rewrite range3_batches in Hs by assumption. injection Hs as <-. exact Hrun.
Qed.

Lemma submitted_from (documents : list Doc) B k w :
  1 <= B -> 0 <= k ->
  submitted (events (insert_chunks_batch env max_retries documents B k w))
  = map (fun j : nat => (Z.of_nat j + 1, nth_batch documents B j))
        (seq (Z.to_nat k)
             (Z.to_nat (ceil_div (Z.of_nat (length documents)) B) - Z.to_nat k)).
Proof.
  intros HB Hk. rewrite insert_chunks_batch_from by assumption.
  destruct (batch_loop_spec env max_retries documents B
              (map (fun j : nat => Z.of_nat j * B)
                 (seq (Z.to_nat k)
                    (Z.to_nat (ceil_div (Z.of_nat (length documents)) B)
                     - Z.to_nat k)))
              (0, 0) w) as (_ & Hsub & _).
  rewrite Hsub, map_map. apply map_ext. intros j.
  rewrite slice_nth_batch by lia. rewrite batch_num_of_start by exact HB.
  reflexivity.
Qed.

End RunFacts.

Section CountFacts.



End CountFacts.

Section ProcessFacts.

Context {Row Doc : Type}.
Variable env : Env.
Variable max_retries : Z.

Lemma bind_ok {A B} (m : Run Doc A) (k : A -> Run Doc B) w a w1 e1 :
  m w = mkOut (Ok a) w1 e1 ->
  bind m k w = mkOut (outcome (k a w1)) (world (k a w1)) (e1 ++ events (k a w1)).
Proof. intros H. unfold bind. rewrite H. reflexivity. Qed.

Lemma bind_raise {A B} (m : Run Doc A) (k : A -> Run Doc B) w e w1 e1 :
  m w = mkOut (Raise e) w1 e1 ->
  bind m k w = mkOut (Raise e) w1 e1.
Proof. intros H. unfold bind. rewrite H. reflexivity. Qed.

(** [_load_progress] always returns, and leaves the world as it is. *)
Lemma load_progress_returns w :
  exists p evs, _load_progress (Doc := Doc) env w = mkOut (Ok p) w evs.
Proof.
  unfold _load_progress, try_except, bind, os_path_exists, read_progress_file, ret.
  cbn [outcome world events].
  destruct (progress_file w) as [p|] eqn:Hf; cbn [outcome world events].
  - rewrite bool_decide_eq_true_2 by eauto. cbn [outcome world events].
    rewrite Hf. destruct (open_read_ok env), p; cbn [outcome world events]; eauto.
  - rewrite bool_decide_eq_false_2 by (intros [? ?]; discriminate).
    cbn [outcome world events]. eauto.
Qed.

(** [insert_chunks_individual] always returns. *)
Lemma individual_loop_returns (documents : list Doc) : forall counts w,
  exists c w' evs,
    for_loop documents (individual_body env) counts w = mkOut (Ok c) w' evs.
Proof.
  induction documents as [|doc rest IH]; intros [s f] w.
  - cbn. unfold ret. eauto.
  - assert (exists c1 w1 e1,
               individual_body env doc (s, f) w = mkOut (Ok c1) w1 e1)
      as (c1 & w1 & e1 & H1).
    { unfold individual_body, try_except, bind, add_documents, ret.
      cbn [outcome world events].
      destruct (add_documents_ok env (n_add w)); cbn [outcome world events]; eauto. }
    destruct (IH c1 w1) as (c & w' & evs & Hrest).
    cbn [for_loop]. rewrite (bind_ok _ _ _ _ _ _ H1), Hrest.
    cbn [outcome world events]. eauto.
Qed.

(** [insert_chunks_batch] returns unless the batch size is 0. *)
Lemma insert_chunks_batch_returns (documents : list Doc) B k w :
  B <> 0 ->
  exists c w' evs,
    insert_chunks_batch env max_retries documents B k w = mkOut (Ok c) w' evs.
Proof.
  intros HB.
  destruct (insert_chunks_batch_loop env max_retries documents B k w HB)
    as (starts & _ & Hrun).
  destruct (batch_loop_spec env max_retries documents B starts (0, 0) w)
    as (Hout & _).
  rewrite Hrun.
  destruct (for_loop starts (batch_body env max_retries documents B) (0, 0) w)
    as [o w' evs].
  cbn [outcome events] in Hout. rewrite Hout. eauto.
Qed.

(** The clean-up at the end of [process_csv_file]: the file is removed when
    it is there, and an error of [os.remove] is swallowed. *)
Lemma cleanup_run w :
  let c := bind (Doc := Doc) os_path_exists
             (fun present : bool =>
                if present then try_except (os_remove env) (fun _ => ret tt)
                else ret tt) w in
  outcome c = Ok tt
  /\ (progress_file (world c) = None
      \/ (os_remove_ok env = false
          /\ events c = [RemoveProgress false]
          /\ is_Some (progress_file (world c)))).
Proof.
  unfold bind, os_path_exists, try_except, os_remove, ret.
  cbn [outcome world events].
  destruct (progress_file w) as [p|] eqn:Hf.
  - rewrite bool_decide_eq_true_2 by eauto. cbn [outcome world events].
    rewrite Hf. destruct (os_remove_ok env) eqn:Hrm; cbn [outcome world events].
    + split; [reflexivity | left; reflexivity].
    + split; [reflexivity | right]. rewrite Hf. split_and!; eauto.
  - rewrite bool_decide_eq_false_2 by (intros [? ?]; discriminate).
    cbn [outcome world events]. split; [reflexivity | left; exact Hf].
Qed.

End ProcessFacts.

Section MapperFacts.
Import Mapper.
Variable py_str : pyval -> string.

Lemma cells_at_absent (row : Row) key :
  ~ In key (map fst row) -> cells_at row key = [].
Proof.
  induction row as [|[k c] row IH]; intros Hin; [reflexivity |].
  unfold cells_at in *. cbn [List.filter fst].
  destruct (String.eqb k key) eqn:E.
  - apply String.eqb_eq in E. subst. exfalso. apply Hin. left. reflexivity.
  - apply IH. intros H. apply Hin. right. exact H.
Qed.

(** In a row of the reader a label has at most one cell. *)
Lemma reader_row_cells (row : Row) key :
  reader_row row -> cells_at row key = [] \/ exists c, cells_at row key = [c].
Proof.
  unfold reader_row. induction row as [|[k c] row IH]; intros Hnd; [left; reflexivity |].
  cbn [map fst] in Hnd. apply NoDup_cons in Hnd as [Hk Hnd].
  unfold cells_at in *. cbn [List.filter fst].
  destruct (String.eqb k key) eqn:E.
  - apply String.eqb_eq in E. subst. right. exists c. cbn [map snd]. f_equal.
    apply (cells_at_absent row key). rewrite <- list_elem_of_In. exact Hk.
  - apply IH, Hnd.
Qed.

Lemma series_get_reader (row : Row) key dflt :
  reader_row row ->
  (cells_at row key = [] /\ series_get row key dflt = dflt)
  \/ (exists c, cells_at row key = [c] /\ series_get row key dflt = Scalar c).
Proof.
  intros Hr. unfold series_get.
  destruct (reader_row_cells row key Hr) as [-> | [c ->]]; eauto.
Qed.

(** The guarded read of a number, on a row of the reader. *)
Lemma get_number_reader (row : Row) key :
  reader_row row ->
  exists v, get_number row key = Ok v
    /\ (cells_at row key = [] -> v = Scalar (SInt 0))
    /\ (forall c, cells_at row key = [c] ->
          v = if notna_scalar c then Scalar c else Scalar (SInt 0)).
Proof.
  intros Hr. unfold get_number, series_get.
  destruct (reader_row_cells row key Hr) as [-> | [c ->]].
  - cbn. eexists. split_and!; [reflexivity | reflexivity | discriminate].
  - cbn. eexists. split_and!; [reflexivity | discriminate |].
    intros c' [= <-]. reflexivity.
Qed.

Lemma create_document_reader (row : Row) :
  reader_row row ->
  exists hadith_number chapter_number,
    get_number row "hadith_no" = Ok hadith_number
    /\ get_number row "chapter_no" = Ok chapter_number
    /\ create_document_from_row py_str row
       = Ok (mkDocument
               ("الحديث باللغة العربية:" ++ nl
                ++ py_str (series_get row "text_ar" (SStr "")) ++ nl ++ nl
                ++ "hadith in english:" ++ nl
                ++ py_str (series_get row "text_en" (SStr "")))%string
               (<["source" := series_get row "source" (SStr "Unknown")]>
                (<["hadith_number" := hadith_number]>
                 (<["chapter_number" := chapter_number]>
                  (<["chapter" := series_get row "chapter" (SStr "")]>
                   (<["chain_index" := series_get row "chain_indx" (SStr "")]> ∅)))))).
Proof.
  intros Hr.
  destruct (get_number_reader row "hadith_no" Hr) as (h & Hh & _).
  destruct (get_number_reader row "chapter_no" Hr) as (c & Hc & _).
  exists h, c. unfold create_document_from_row. rewrite Hh, Hc.
  split_and!; reflexivity.
Qed.

End MapperFacts.

Section ConfigFacts.
Import Config.
Context {Embeddings Store : Type}.
Variable int_of_str : string -> option Z.
Variable GoogleGenerativeAIEmbeddings : pyval -> result Embeddings.
Variable PGVector : pyval -> Embeddings -> pyval -> result Store.

Lemma py_or_falsy v b : truthy v = Ok false -> py_or v b = b.
Proof. intros H. unfold py_or. rewrite H. reflexivity. Qed.

Lemma py_or_none b : py_or (Scalar SNone) b = b.
Proof. reflexivity. Qed.

Lemma py_or_truthy v b : truthy v = Ok true -> py_or v b = Ok v.
Proof. intros H. unfold py_or. rewrite H. reflexivity. Qed.

(** The retry count of an inserter is the argument when it is true, the
    environment's otherwise. *)
Lemma init_max_retries environ a1 a2 a3 a4 inserter environ' :
  __init__ int_of_str GoogleGenerativeAIEmbeddings PGVector environ a1 a2 a3 a4
  = Ok (inserter, environ') ->
  py_or a4 (env_max_retries int_of_str environ) = Ok (max_retries inserter).
Proof.
  unfold __init__. intros H.
  destruct (py_or a1 _) as [u|]; cbn [bind_result] in H; [| discriminate].
  destruct (py_or a2 _) as [g|]; cbn [bind_result] in H; [| discriminate].
  destruct (py_or a3 _) as [c|]; cbn [bind_result] in H; [| discriminate].
  destruct (py_or a4 _) as [m|]; cbn [bind_result] in H; [| discriminate].
  destruct (truthy u) as [[|]|]; cbn [bind_result negb] in H; try discriminate.
  destruct (truthy g) as [[|]|]; cbn [bind_result negb] in H; try discriminate.
  destruct (setenv environ "GOOGLE_API_KEY" g); cbn [bind_result] in H; [| discriminate].
  destruct (GoogleGenerativeAIEmbeddings g); cbn [bind_result] in H; [| discriminate].
  destruct (PGVector u _ c); cbn [bind_result] in H; [| discriminate].
  injection H as <- _. reflexivity.
Qed.

End ConfigFacts.

(* ===================================================================== *)
(** ** The claims of the specification *)
(* ===================================================================== *)



(** C3: [_insert_batch_with_retry] calls [add_documents] at most
    [max_retries] times.  When at least one attempt is allowed, the trace
    is: the attempts 0, ..., [k - 1] failing, each followed by a wait of
    [2^attempt * 2], then attempt [k], whose outcome is the result; [k + 1]
    is at most [max_retries], and equal to it when the batch fails.  With
    [max_retries = 3] and a store that fails twice and then accepts, the
    batch is reported successful after waits of 2 and 4. *)
Theorem C3_retry_with_backoff {Doc} env max_retries (batch : list Doc) batch_num w :
  let r := _insert_batch_with_retry env max_retries batch batch_num w in
  (length (attempts (events r)) <= Z.to_nat max_retries)%nat
  /\ (1 <= max_retries ->
      exists (k : nat) (ok : bool),
        Z.of_nat (S k) <= max_retries
        /\ (forall j, (j < k)%nat -> add_documents_ok env (n_add w + j) = false)
        /\ add_documents_ok env (n_add w + k) = ok
        /\ (ok = false -> Z.of_nat (S k) = max_retries)
        /\ outcome r = Ok ok
        /\ events r
           = InsertBatch batch_num batch
               :: backoff_pattern batch 0 k ++ [AddDocuments batch ok]
        /\ sleeps (events r)
           = map (fun j : nat => inject_Z (2 ^ Z.of_nat j * 2)) (seq 0 k))
  /\ (max_retries = 3 ->
      add_documents_ok env (n_add w) = false ->
      add_documents_ok env (n_add w + 1) = false ->
      add_documents_ok env (n_add w + 2) = true ->
      outcome r = Ok true
      /\ events r
         = [InsertBatch batch_num batch;
            AddDocuments batch false; Sleep (inject_Z 2);
            AddDocuments batch false; Sleep (inject_Z 4);
            AddDocuments batch true]
      /\ sleeps (events r) = [inject_Z 2; inject_Z 4]).
Proof.
  intros r.
  assert (Hspec : 1 <= max_retries ->
      exists (k : nat) (ok : bool),
        Z.of_nat (S k) <= max_retries
        /\ (forall j, (j < k)%nat -> add_documents_ok env (n_add w + j) = false)
        /\ add_documents_ok env (n_add w + k) = ok
        /\ (ok = false -> Z.of_nat (S k) = max_retries)
        /\ outcome r = Ok ok
        /\ events r
           = InsertBatch batch_num batch
               :: backoff_pattern batch 0 k ++ [AddDocuments batch ok]
        /\ sleeps (events r)
           = map (fun j : nat => inject_Z (2 ^ Z.of_nat j * 2)) (seq 0 k)).
  { intros Hmr.
    destruct (insert_batch_spec env max_retries batch batch_num w Hmr)
      as (k & ok & Hk & Hfail & Hlast & Hall & Hrun).
    exists k, ok. subst r. rewrite Hrun. cbn [outcome events].
    split_and!; try assumption; try reflexivity.
    - lia.
    - intros H. specialize (Hall H). lia.
    - change (InsertBatch batch_num batch
                :: backoff_pattern batch 0 k ++ [AddDocuments batch ok])
        with ([InsertBatch batch_num batch]
                ++ backoff_pattern batch 0 k ++ [AddDocuments batch ok]).
      rewrite !sleeps_app, sleeps_backoff. cbn. apply app_nil_r. }
  split_and!.
  - destruct (Z_le_gt_dec max_retries 0) as [Hmr | Hmr].
    + subst r. rewrite insert_batch_no_attempt by exact Hmr. cbn. lia.
    + destruct Hspec as (k & ok & Hk & _ & _ & _ & _ & Hev & _); [lia |].
      rewrite Hev.
      change (InsertBatch batch_num batch
                :: backoff_pattern batch 0 k ++ [AddDocuments batch ok])
        with ([InsertBatch batch_num batch]
                ++ backoff_pattern batch 0 k ++ [AddDocuments batch ok]).
      rewrite !attempts_app, attempts_backoff, !length_app, repeat_length.
      cbn. lia.
  - exact Hspec.
  - intros Hmr H0 H1 H2.
    destruct Hspec as (k & ok & Hk & Hfail & Hlast & Hall & Hout & Hev & Hsl); [lia |].
    assert (k = 2%nat) as ->.
    { destruct k as [|[|[|k]]].
      - rewrite Nat.add_0_r in Hlast. rewrite H0 in Hlast. subst ok.
        specialize (Hall eq_refl). lia.
      - rewrite H1 in Hlast. subst ok. specialize (Hall eq_refl). lia.
      - reflexivity.
      - lia. }
    rewrite H2 in Hlast. subst ok.
    split_and!; [exact Hout | rewrite Hev; reflexivity | rewrite Hsl; reflexivity].
Qed.

(** C8, as the code has it: a batch whose last allowed attempt fails is
    given up at once.  The trace of [_insert_batch_with_retry] ends with
    that failed call, not with a wait: [max_retries] calls are separated
    by [max_retries - 1] waits, and the method returns [False]. *)
Theorem C8_no_backoff_after_final_failure {Doc} env max_retries
    (batch : list Doc) batch_num w :
  1 <= max_retries ->
  let r := _insert_batch_with_retry env max_retries batch batch_num w in
  outcome r = Ok false ->
  ends_with_sleep (events r) = false
  /\ last (events r) = Some (AddDocuments batch false)
  /\ length (attempts (events r)) = Z.to_nat max_retries
  /\ length (sleeps (events r)) = (Z.to_nat max_retries - 1)%nat.
Proof.
  intros Hmr r Hfalse.
  destruct (insert_batch_spec env max_retries batch batch_num w Hmr)
    as (k & ok & Hk & Hfail & Hlast & Hall & Hrun).
  subst r. rewrite Hrun in *. cbn [outcome events] in *.
  injection Hfalse as ->. specialize (Hall eq_refl).
  change (InsertBatch batch_num batch
            :: backoff_pattern batch 0 k ++ [AddDocuments batch false])
    with ([InsertBatch batch_num batch]
            ++ backoff_pattern batch 0 k ++ [AddDocuments batch false]).
  assert (Hl : last ([InsertBatch batch_num batch]
                       ++ backoff_pattern batch 0 k ++ [AddDocuments batch false])
               = Some (AddDocuments batch false)).
  { rewrite app_assoc. apply last_snoc. }
  split_and!.
  - unfold ends_with_sleep. rewrite Hl. reflexivity.
  - exact Hl.
  - rewrite !attempts_app, attempts_backoff, !length_app, repeat_length. cbn. lia.
  - rewrite !sleeps_app, sleeps_backoff, !length_app, length_map, length_seq. cbn. lia.
Qed.


(** A batch that uses up its two attempts is counted as failed, and the
    two batches after it are inserted. *)
Lemma one_failed_batch_of_three :
  let r := insert_chunks_batch Sample.fails_twice 2 (Sample.docs 7) 3 0 Sample.w0 in
  outcome r = Ok (2, 1)
  /\ batch_outcomes (events r) = [(1, false); (2, true); (3, true)]
  /\ map fst (attempts (events r))
     = [[0; 1; 2]; [0; 1; 2]; [3; 4; 5]; [6]]%nat.
Proof. vm_compute. split_and!; reflexivity. Qed.


(** C6, as the code has it: [process_csv_file] completes normally exactly
    when the reader returns and, in batch mode, the batch size is not 0.
    When it does, the progress file no longer exists, unless its removal
    failed: then the error of [os.remove] was caught as the last step of
    the run, and the file is still there. *)
Theorem C6_progress_file_removed_unless_removal_fails {Row Doc} env max_retries
    (read_csv_file : string -> result (list Row))
    (create_document_from_row : Row -> result Doc)
    csv_file_path batch_size use_batch_insert resume w :
  let r := process_csv_file env max_retries read_csv_file create_document_from_row
             csv_file_path batch_size use_batch_insert resume w in
  (outcome r = Ok tt
   <-> is_ok (read_csv_file csv_file_path) = true
       /\ (use_batch_insert = true -> batch_size <> 0))
  /\ (outcome r = Ok tt ->
      progress_file (world r) = None
      \/ (os_remove_ok env = false
          /\ last (events r) = Some (RemoveProgress false)
          /\ is_Some (progress_file (world r)))).
Proof.
  intros r. subst r. unfold process_csv_file.
  destruct (read_csv_file csv_file_path) as [df | e].
  2:{ rewrite bind_lift_raise. cbn [outcome is_ok]. split.
      - split; [discriminate | intros [H _]; discriminate].
      - discriminate. }
  rewrite bind_lift_ok. cbn [is_ok].
  set (documents := convert_rows create_document_from_row df).
  assert (exists k e1,
            (if resume && use_batch_insert
             then bind (_load_progress env) (fun progress => ret (current_batch progress))
             else ret 0) w = mkOut (Doc := Doc) (Ok k) w e1) as (k & e1 & Hres).
  { destruct (resume && use_batch_insert).
    - destruct (load_progress_returns (Doc := Doc) env w) as (p & evs & Hl).
      rewrite (bind_ok _ _ _ _ _ _ Hl). unfold ret. cbn [outcome world events]. eauto.
    - unfold ret. eauto. }
  rewrite (bind_ok _ _ _ _ _ _ Hres).
  destruct use_batch_insert.
  - destruct (Z.eq_dec batch_size 0) as [-> | HB].
    + rewrite (bind_raise _ _ _ _ _ _ (insert_chunks_batch_zero env max_retries documents k w)).
      cbn [outcome]. split.
      * split; [discriminate | intros [_ H]; destruct (H eq_refl eq_refl)].
      * discriminate.
    + destruct (insert_chunks_batch_returns env max_retries documents batch_size k w HB)
        as (c & w' & evs & Hins).
      rewrite (bind_ok _ _ _ _ _ _ Hins).
      destruct (cleanup_run (Doc := Doc) env w') as (Hout & Hfile).
      cbn [outcome world events]. split.
      * split; [intros _; split; [reflexivity | intros _; exact HB] | intros _; exact Hout].
      * intros _. destruct Hfile as [Hnone | (Hrm & Hev & Hsome)]; [left; exact Hnone |].
        right. split_and!; [exact Hrm | | exact Hsome].
        rewrite Hev, !app_assoc. apply last_snoc.
  - destruct (individual_loop_returns env documents (0, 0) w) as (c & w' & evs & Hins).
    unfold insert_chunks_individual. rewrite (bind_ok _ _ _ _ _ _ Hins).
    destruct (cleanup_run (Doc := Doc) env w') as (Hout & Hfile).
    cbn [outcome world events]. split.
    * split; [intros _; split; [reflexivity | discriminate] | intros _; exact Hout].
    * intros _. destruct Hfile as [Hnone | (Hrm & Hev & Hsome)]; [left; exact Hnone |].
      right. split_and!; [exact Hrm | | exact Hsome].
      rewrite Hev, !app_assoc. apply last_snoc.
Qed.



Lemma C3_witness :
  let r := _insert_batch_with_retry Sample.fails_twice 3 (Sample.docs 2) 1
             Sample.w0 in
  outcome r = Ok true
  /\ events r
     = [InsertBatch 1 (Sample.docs 2);
        AddDocuments (Sample.docs 2) false; Sleep (inject_Z 2);
        AddDocuments (Sample.docs 2) false; Sleep (inject_Z 4);
        AddDocuments (Sample.docs 2) true]
  /\ sleeps (events r) = [inject_Z 2; inject_Z 4].
Proof.
  pose proof (C3_retry_with_backoff Sample.fails_twice 3 (Sample.docs 2) 1
                Sample.w0) as H.
  cbv zeta in H. destruct H as (_ & _ & H).
  apply H; reflexivity.
Defined.



Lemma C6_witness :
  let r := process_csv_file Sample.calm 3 (fun _ => Ok (Sample.docs 10))
             (fun row => Ok row) "all_hadiths_clean.csv" 1 true true Sample.w0 in
  outcome r = Ok tt
  /\ (progress_file (world r) = None
      \/ (os_remove_ok Sample.calm = false
          /\ last (events r) = Some (RemoveProgress false)
          /\ is_Some (progress_file (world r)))).
Proof.
  pose proof (C6_progress_file_removed_unless_removal_fails Sample.calm 3
                (fun _ => Ok (Sample.docs 10)) (fun row => Ok row)
                "all_hadiths_clean.csv" 1 true true Sample.w0) as H.
  cbv zeta in H. destruct H as (Hiff & Hfile).
  assert (Hout : outcome
                   (process_csv_file Sample.calm 3 (fun _ => Ok (Sample.docs 10))
                      (fun row => Ok row) "all_hadiths_clean.csv" 1 true true
                      Sample.w0) = Ok tt).
  { apply Hiff. split; [reflexivity | intros _; lia]. }
  split; [exact Hout | exact (Hfile Hout)].
Defined.

Lemma C6_counterexample :
  let r := process_csv_file Sample.read_only 3 (fun _ => Ok (Sample.docs 5))
             (fun row => Ok row) "all_hadiths_clean.csv" 1 true true
             Sample.interrupted in
  outcome r = Ok tt
  /\ submitted (events r) = [(3, [2%nat]); (4, [3%nat]); (5, [4%nat])]
  /\ last (events r) = Some (RemoveProgress false)
  /\ progress_file (world r) = Some (Json (mkProgress 2 2 0 (Some 0%Q))).
Proof. vm_compute. split_and!; reflexivity. Qed.

Lemma C8_witness :
  let r := _insert_batch_with_retry Sample.down 3 (Sample.docs 2) 1 Sample.w0 in
  1 <= 3
  /\ outcome r = Ok false
  /\ ends_with_sleep (events r) = false
  /\ last (events r) = Some (AddDocuments (Sample.docs 2) false)
  /\ length (attempts (events r)) = 3%nat
  /\ length (sleeps (events r)) = 2%nat.
Proof.
  split; [lia |]. split; [reflexivity |].
  exact (C8_no_backoff_after_final_failure Sample.down 3 (Sample.docs 2) 1
           Sample.w0 ltac:(lia) eq_refl).
Defined.

Lemma C8_counterexample :
  let r := _insert_batch_with_retry Sample.down 3 (Sample.docs 2) 1 Sample.w0 in
  outcome r = Ok false
  /\ events r
     = [InsertBatch 1 (Sample.docs 2);
        AddDocuments (Sample.docs 2) false; Sleep (inject_Z 2);
        AddDocuments (Sample.docs 2) false; Sleep (inject_Z 4);
        AddDocuments (Sample.docs 2) false]
  /\ ends_with_sleep (events r) <> true.
Proof. vm_compute. split_and!; [reflexivity | reflexivity | discriminate]. Qed.

Import Mapper.

(** C7: at the row of a line whose [source] and [hadith_no] cells are
    empty, the metadata keeps the [nan] of the source: the default
    ["Unknown"] is not substituted, since [row.get] applies its default
    only to a label that is absent.  The number, which is guarded by
    [pd.notna], does get its default 0. *)
Theorem C7_null_source_is_not_defaulted :
  exists doc,
    create_document_from_row Sample.show Sample.null_cells_row = Ok doc
    /\ cells_at Sample.null_cells_row "source" = [SNaN]
    /\ metadata doc !! "source" = Some (Scalar SNaN)
    /\ metadata doc !! "source" <> Some (Scalar (SStr "Unknown"))
    /\ cells_at Sample.null_cells_row "hadith_no" = [SNaN]
    /\ metadata doc !! "hadith_number" = Some (Scalar (SInt 0)).
Proof.
  eexists. split; [reflexivity |]. cbn [metadata].
  split_and!; try reflexivity; by simplify_map_eq.
Qed.

(** C10, as the code has it: [create_document_from_row] returns a
    Document for every row of the reader, a Series in which no label is
    repeated; on such rows the loop of [process_csv_file] never skips a
    row: it yields the Documents of the rows, one for each row, in
    order. *)
Theorem C10_reader_rows_always_convert py_str :
  (forall row, reader_row row ->
     is_ok (create_document_from_row py_str row) = true)
  /\ (forall rows, Forall reader_row rows ->
        map Ok (convert_rows (create_document_from_row py_str) rows)
        = map (create_document_from_row py_str) rows
        /\ length (convert_rows (create_document_from_row py_str) rows)
           = length rows).
Proof.
  assert (Hret : forall row, reader_row row ->
                   is_ok (create_document_from_row py_str row) = true).
  { intros row Hr.
    destruct (create_document_reader py_str row Hr) as (h & c & _ & _ & ->).
    reflexivity. }
  split; [exact Hret |].
  intros rows Hrows.
  assert (Hmap : map Ok (convert_rows (create_document_from_row py_str) rows)
                 = map (create_document_from_row py_str) rows).
  { induction Hrows as [|row rows Hrow _ IH]; [reflexivity |].
    cbn [convert_rows map]. specialize (Hret row Hrow).
    destruct (create_document_from_row py_str row) as [doc | e]; [| discriminate].
    cbn [map]. rewrite IH. reflexivity. }
  split; [exact Hmap |].
  rewrite <- (length_map Ok), Hmap, length_map. reflexivity.
Qed.

(** Not every row converts: on a Series in which the label [hadith_no]
    occurs twice the guard [pd.notna(...)] yields a Series, whose truth
    value is ambiguous; the conversion raises, the loop of
    [process_csv_file] skips the row, and fewer Documents than rows are
    made. *)
Lemma C10_counterexample :
  is_ok (create_document_from_row Sample.show Sample.repeated_label_row) = false
  /\ create_document_from_row Sample.show Sample.repeated_label_row
     = Raise (ValueError "The truth value of a Series is ambiguous")
  /\ length (convert_rows (create_document_from_row Sample.show)
               [Sample.repeated_label_row; Sample.full_row]) = 1%nat
  /\ length [Sample.repeated_label_row; Sample.full_row] = 2%nat.
Proof. split_and!; reflexivity. Qed.

Lemma C10_witness :
  Forall reader_row [Sample.full_row; Sample.null_cells_row]
  /\ length (convert_rows (create_document_from_row Sample.show)
               [Sample.full_row; Sample.null_cells_row]) = 2%nat.
Proof.
  assert (Hr : Forall reader_row [Sample.full_row; Sample.null_cells_row]).
  { repeat constructor; unfold reader_row; apply (bool_decide_unpack _);
      vm_compute; reflexivity. }
  split; [exact Hr |].
  destruct (C10_reader_rows_always_convert Sample.show) as [_ H].
  destruct (H _ Hr) as [_ Hlen]. exact Hlen.
Defined.

Import Config.

(** C9: an argument of the constructor that is false ([None], [0], [""],
    [False], [0.0]) is treated as if it had been omitted, in each of the
    four positions.  In particular [max_retries = 0] gives an inserter
    whose retry count is the integer read from [MAX_RETRIES], or 3 when
    the variable is not set; and an inserter built with any arguments has
    the retry count 0 only when the environment says so.  Such an
    inserter is built: when the environment holds a connection string, a
    key and an integer for [MAX_RETRIES] (or none), and the two clients
    can be made, the constructor called with false arguments returns the
    inserter configured from the environment alone. *)
Theorem C9_falsy_argument_is_as_omitted {Embeddings Store : Type}
    (int_of_str : string -> option Z)
    (GoogleGenerativeAIEmbeddings : pyval -> result Embeddings)
    (PGVector : pyval -> Embeddings -> pyval -> result Store)
    (environ : gmap string string) (a1 a2 a3 a4 v : pyval) :
  truthy v = Ok false ->
  let init := __init__ int_of_str GoogleGenerativeAIEmbeddings PGVector environ in
  init v a2 a3 a4 = init (Scalar SNone) a2 a3 a4
  /\ init a1 v a3 a4 = init a1 (Scalar SNone) a3 a4
  /\ init a1 a2 v a4 = init a1 a2 (Scalar SNone) a4
  /\ init a1 a2 a3 v = init a1 a2 a3 (Scalar SNone)
  /\ init a1 a2 a3 (Scalar (SInt 0)) = init a1 a2 a3 (Scalar SNone)
  /\ (forall inserter environ',
        init a1 a2 a3 (Scalar (SInt 0)) = Ok (inserter, environ') ->
        exists z,
          int_of_str (getenv_default environ "MAX_RETRIES" "3") = Some z
          /\ max_retries inserter = Scalar (SInt z)
          /\ (environ !! "MAX_RETRIES" = None -> int_of_str "3" = Some 3 -> z = 3))
  /\ (forall inserter environ',
        init a1 a2 a3 a4 = Ok (inserter, environ') ->
        max_retries inserter = Scalar (SInt 0) ->
        int_of_str (getenv_default environ "MAX_RETRIES" "3") = Some 0)
  /\ (forall url key z emb st,
        environ !! "POSTGRES_URL" = Some url -> url <> "" ->
        environ !! "GOOGLE_API_KEY" = Some key -> key <> "" ->
        int_of_str (getenv_default environ "MAX_RETRIES" "3") = Some z ->
        GoogleGenerativeAIEmbeddings (Scalar (SStr key)) = Ok emb ->
        PGVector (Scalar (SStr url)) emb
          (Scalar (SStr (getenv_default environ "COLLECTION_NAME" "rag_ahadees")))
        = Ok st ->
        init v v v (Scalar (SInt 0))
        = Ok (mkInserter (Scalar (SStr url)) (Scalar (SStr key))
                (Scalar (SStr (getenv_default environ "COLLECTION_NAME"
                                 "rag_ahadees")))
                (Scalar (SInt z)) emb st,
              environ)).
Proof.
  intros Hv init. subst init. unfold __init__.
  split_and!.
  - rewrite (py_or_falsy v) by exact Hv. reflexivity.
  - rewrite (py_or_falsy v) by exact Hv. reflexivity.
  - rewrite (py_or_falsy v) by exact Hv. reflexivity.
  - rewrite (py_or_falsy v) by exact Hv. reflexivity.
  - reflexivity.
  - intros inserter environ' H. apply init_max_retries in H.
    rewrite py_or_falsy in H by reflexivity. unfold env_max_retries in H.
    destruct (int_of_str (getenv_default environ "MAX_RETRIES" "3")) as [z|] eqn:Hz;
      [| discriminate].
    injection H as H. exists z. split_and!; [reflexivity | symmetry; exact H |].
    intros Hnone H3. unfold getenv_default in Hz. rewrite Hnone in Hz.
    cbn in Hz. congruence.
  - intros inserter environ' H H0. apply init_max_retries in H.
    rewrite H0 in H. unfold py_or in H.
    destruct (truthy a4) as [[|]|] eqn:Ht; [| | discriminate].
    + injection H as ->. cbn in Ht. discriminate.
    + unfold env_max_retries in H.
      destruct (int_of_str (getenv_default environ "MAX_RETRIES" "3")) as [z|];
        [| discriminate].
      injection H as ->. reflexivity.
  - intros url key z emb st Hurl Hune Hkey Hkne Hz Hemb Hst.
    rewrite !(py_or_falsy v) by exact Hv.
    rewrite (py_or_falsy (Scalar (SInt 0))) by reflexivity.
    unfold env_max_retries, getenv. rewrite Hurl, Hkey, Hz.
    cbn [bind_result truthy truthy_scalar].
    destruct (String.eqb_spec url "") as [-> | _]; [contradiction |].
    destruct (String.eqb_spec key "") as [-> | _]; [contradiction |].
    cbn [negb bind_result setenv]. rewrite Hemb. cbn [bind_result].
    rewrite Hst. cbn [bind_result].
    rewrite (insert_id environ "GOOGLE_API_KEY" key Hkey). reflexivity.
Qed.

Lemma C9_witness :
  truthy (Scalar (SInt 0)) = Ok false
  /\ __init__ Sample.int_of_digit Sample.embeddings_client Sample.store_client
       Sample.environ (Scalar SNone) (Scalar SNone) (Scalar SNone) (Scalar (SInt 0))
     = __init__ Sample.int_of_digit Sample.embeddings_client Sample.store_client
         Sample.environ (Scalar SNone) (Scalar SNone) (Scalar SNone) (Scalar SNone)
  /\ __init__ Sample.int_of_digit Sample.embeddings_client Sample.store_client
       Sample.environ (Scalar (SInt 0)) (Scalar (SInt 0)) (Scalar (SInt 0))
       (Scalar (SInt 0))
     = Ok (mkInserter (Scalar (SStr "postgresql://localhost/hadith"))
             (Scalar (SStr "key")) (Scalar (SStr "rag_ahadees"))
             (Scalar (SInt 5)) tt tt,
           Sample.environ).
Proof.
  split; [reflexivity |].
  pose proof (C9_falsy_argument_is_as_omitted Sample.int_of_digit
                Sample.embeddings_client Sample.store_client Sample.environ
                (Scalar SNone) (Scalar SNone) (Scalar SNone) (Scalar SNone)
                (Scalar (SInt 0)) eq_refl) as H.
  cbv zeta in H. destruct H as (_ & _ & _ & _ & Hsame & _ & _ & Hbuilt).
  split; [exact Hsame |].
  apply (Hbuilt "postgresql://localhost/hadith" "key" 5 tt tt);
    solve [reflexivity | discriminate].
Defined.

(* ===================================================================== *)
(** ** Further properties of the program *)
(* ===================================================================== *)

(** [insert_chunks_individual], the cost of [insert_chunks_batch] in calls
    and in time, the progress file, [process_csv_file] as a whole,
    [create_document_from_row] on any row, the constructor and [main]. *)

Section IndividualFacts.

Context {Doc : Type}.
Variable env : Env.

Lemma inserted_batches_app (t1 t2 : list (Event Doc)) :
  inserted_batches (t1 ++ t2) = inserted_batches t1 ++ inserted_batches t2.
Proof. unfold inserted_batches. apply flat_map_app. Qed.

Lemma individual_body_run (doc : Doc) s f w :
  individual_body env doc (s, f) w
  = mkOut (Ok (if add_documents_ok env (n_add w) then (s + 1, f) else (s, f + 1)))
          (mkWorld (S (n_add w)) (n_write w) (progress_file w))
          [AddDocuments [doc] (add_documents_ok env (n_add w))].
Proof.
  unfold individual_body, try_except, bind, add_documents, ret.
  cbn [outcome world events].
  destruct (add_documents_ok env (n_add w)); reflexivity.
Qed.

(** The loop of [insert_chunks_individual], from any counts and any world. *)
Lemma individual_loop_spec (documents : list Doc) : forall s f w,
  let r := for_loop documents (individual_body env) (s, f) w in
  events r
  = imap (fun i doc => AddDocuments [doc] (add_documents_ok env (n_add w + i)))
         documents
  /\ outcome r
     = Ok (s + Z.of_nat (length (inserted_batches (events r))),
           f + Z.of_nat (length documents)
             - Z.of_nat (length (inserted_batches (events r))))
  /\ world r
     = mkWorld (n_add w + length documents) (n_write w) (progress_file w)
  /\ (length (inserted_batches (events r)) <= length documents)%nat.
Proof.
  induction documents as [|doc rest IH]; intros s f w.
  - cbn. split_and!; try reflexivity.
    + f_equal. f_equal; lia.
    + rewrite Nat.add_0_r. destruct w; reflexivity.
  - cbv zeta. rewrite (for_loop_cons _ _ _ _ _ _ _ _ (individual_body_run doc s f w)).
    cbn [outcome world events].
    set (w1 := mkWorld (S (n_add w)) (n_write w) (progress_file w)).
    set (st := if add_documents_ok env (n_add w) then (s + 1, f) else (s, f + 1)).
    assert (Hst : st = (fst st, snd st)) by (destruct st; reflexivity).
    rewrite Hst.
    destruct (IH (fst st) (snd st) w1) as (Hev & Hout & Hw & Hlen).
    set (r' := for_loop rest (individual_body env) (fst st, snd st) w1) in *.
    rewrite Hout, Hw. cbn [n_add n_write progress_file w1].
    assert (Hins : length (inserted_batches
                     ([AddDocuments [doc] (add_documents_ok env (n_add w))]
                        ++ events r'))
                   = ((if add_documents_ok env (n_add w) then 1 else 0)
                      + length (inserted_batches (events r')))%nat).
    { rewrite inserted_batches_app, length_app.
      destruct (add_documents_ok env (n_add w)); reflexivity. }
    rewrite Hins. split_and!.
    + rewrite Hev. cbn [app imap]. rewrite Nat.add_0_r. f_equal.
      apply imap_ext. intros i x _. cbn. f_equal. f_equal. lia.
    + subst st. cbn [length].
      destruct (add_documents_ok env (n_add w)); cbn [fst snd]; f_equal; f_equal; lia.
    + f_equal. cbn [length]. lia.
    + cbn [length]. destruct (add_documents_ok env (n_add w)); lia.
Qed.

(** A trace without a call to the store has no accepted batch. *)
Lemma attempts_nil_inserted_nil (t : list (Event Doc)) :
  attempts t = [] -> inserted_batches t = [].
Proof.
  unfold attempts, inserted_batches. induction t as [|e t IH]; [reflexivity |].
  cbn [flat_map]. destruct e as [| b [|] | | | |]; cbn [app];
    try discriminate; exact IH.
Qed.

End IndividualFacts.

(** X1: [insert_chunks_individual] hands the documents to the store one by
    one, in order, each exactly once whatever the store answers; it
    returns the numbers of accepted and of rejected documents, never
    sleeps, never writes a checkpoint, and leaves the progress file as it
    is. *)
Theorem X1_individual_inserts_each_document_once {Doc} env
    (documents : list Doc) w :
  let r := insert_chunks_individual env documents w in
  attempts (events r)
  = imap (fun i doc => ([doc], add_documents_ok env (n_add w + i))) documents
  /\ map fst (attempts (events r)) = map (fun doc => [doc]) documents
  /\ outcome r
     = Ok (Z.of_nat (length (inserted_batches (events r))),
           Z.of_nat (length documents)
           - Z.of_nat (length (inserted_batches (events r))))
  /\ (length (inserted_batches (events r)) <= length documents)%nat
  /\ sleeps (events r) = []
  /\ saves (events r) = []
  /\ progress_file (world r) = progress_file w.
Proof.
  intros r. subst r. unfold insert_chunks_individual.
  destruct (individual_loop_spec env documents 0 0 w) as (Hev & Hout & Hw & Hlen).
  rewrite Hout, Hw. cbn [progress_file].
  assert (Hobs : forall (n : nat),
            attempts (imap (fun i doc =>
                              AddDocuments [doc] (add_documents_ok env (n + i)))
                           documents)
            = imap (fun i doc => ([doc], add_documents_ok env (n + i))) documents
            /\ sleeps (imap (fun i doc =>
                               AddDocuments [doc] (add_documents_ok env (n + i)))
                            documents) = []
            /\ saves (imap (fun i doc =>
                              AddDocuments [doc] (add_documents_ok env (n + i)))
                           documents) = []).
  { clear. induction documents as [|doc rest IH]; intros n; [split_and!; reflexivity |].
    destruct (IH (S n)) as (Ha & Hs & Hv).
    assert (Hshift : imap (fun i doc0 =>
                             AddDocuments [doc0] (add_documents_ok env (n + i)))
                          (doc :: rest)
                     = AddDocuments [doc] (add_documents_ok env (n + 0))
                         :: imap (fun i doc0 =>
                                    AddDocuments [doc0] (add_documents_ok env (S n + i)))
                                 rest).
    { cbn [imap]. f_equal. apply imap_ext. intros i x _. cbn. do 2 f_equal. lia. }
    rewrite Hshift. cbn [attempts sleeps saves flat_map app].
    fold (attempts (imap (fun i doc0 =>
                            AddDocuments [doc0] (add_documents_ok env (S n + i))) rest)).
    fold (sleeps (imap (fun i doc0 =>
                          AddDocuments [doc0] (add_documents_ok env (S n + i))) rest)).
    fold (saves (imap (fun i doc0 =>
                         AddDocuments [doc0] (add_documents_ok env (S n + i))) rest)).
    rewrite Ha, Hs, Hv. split_and!; try reflexivity.
    cbn [imap]. f_equal. apply imap_ext. intros i x _. cbn. do 2 f_equal. lia. }
  destruct (Hobs (n_add w)) as (Ha & Hs & Hv).
  rewrite Hev, Ha, Hs, Hv.
  split_and!; try reflexivity.
  - rewrite fmap_imap. clear. generalize (n_add w).
    induction documents as [|doc rest IH]; intros n; [reflexivity |].
    cbn [imap map]. f_equal. rewrite <- (IH (S n)). apply imap_ext. reflexivity.
  - rewrite <- Hev. exact Hlen.
Qed.

Section CostFacts.

Context {Doc : Type}.
Variable env : Env.
Variable retries : Z.

Lemma inserted_batches_backoff (batch : list Doc) k : forall a,
  inserted_batches (backoff_pattern batch a k) = [].
Proof. induction k as [|k IH]; intros a; [reflexivity |]. cbn. apply IH. Qed.

Lemma total_sleep_app (t1 t2 : list (Event Doc)) :
  (total_sleep (t1 ++ t2) == total_sleep t1 + total_sleep t2)%Q.
Proof.
  unfold total_sleep. rewrite sleeps_app.
  induction (sleeps t1) as [|q qs IH]; cbn [app fold_right].
  - ring.
  - rewrite IH. ring.
Qed.

(** The waits of [k] failed attempts from attempt [a] on add up to
    [2^(a+k+1) - 2^(a+1)]. *)
Lemma total_sleep_backoff (batch : list Doc) k : forall a,
  (total_sleep (backoff_pattern batch a k)
   == inject_Z (2 ^ Z.of_nat (a + k + 1) - 2 ^ Z.of_nat (a + 1)))%Q.
Proof.
  induction k as [|k IH]; intros a.
  - cbn [backoff_pattern seq flat_map total_sleep sleeps fold_right].
    rewrite Nat.add_0_r, Z.sub_diag. reflexivity.
  - rewrite backoff_pattern_S.
    change (AddDocuments batch false
              :: Sleep (inject_Z (2 ^ Z.of_nat a * 2)) :: backoff_pattern batch (S a) k)
      with ([AddDocuments batch false; Sleep (inject_Z (2 ^ Z.of_nat a * 2))]
              ++ backoff_pattern batch (S a) k).
    rewrite total_sleep_app, IH.
    cbn [total_sleep sleeps flat_map app fold_right].
    rewrite Qplus_0_r, <- inject_Z_plus.
    replace (S a + k + 1)%nat with (a + S k + 1)%nat by lia.
    replace (Z.of_nat (S a + 1)) with (Z.of_nat (a + 1) + 1) by lia.
    replace (Z.of_nat (a + 1)) with (Z.of_nat a + 1) by lia.
    rewrite !Z.pow_add_r by lia. change (2 ^ 1) with 2.
    apply inject_Z_injective. lia.
Qed.

(** What one call of [_insert_batch_with_retry] costs. *)
Lemma insert_batch_costs (batch : list Doc) num w :
  exists (ok : bool) (k : nat) evs w',
    _insert_batch_with_retry env retries batch num w
    = mkOut (Ok ok) w' (InsertBatch num batch :: evs)
    /\ n_write w' = n_write w
    /\ progress_file w' = progress_file w
    /\ ((1 <= retries
         /\ evs = backoff_pattern batch 0 k ++ [AddDocuments batch ok]
         /\ Z.of_nat (S k) <= retries
         /\ n_add w' = (n_add w + S k)%nat
         /\ ((forall n, add_documents_ok env n = true) -> k = 0%nat /\ ok = true))
        \/ (retries <= 0 /\ evs = [] /\ ok = false /\ k = 0%nat /\ w' = w)).
Proof.
  destruct (Z_le_gt_dec retries 0) as [Hmr | Hmr].
  - exists false, 0%nat, [], w. rewrite insert_batch_no_attempt by exact Hmr.
    split_and!; try reflexivity. right. split_and!; try reflexivity. exact Hmr.
  - destruct (insert_batch_spec env retries batch num w)
      as (k & ok & Hk & Hfail & Hlast & _ & Hrun); [lia |].
    eexists ok, k, _, _. rewrite Hrun. split_and!; try reflexivity.
    left. split_and!; try reflexivity; try lia.
    intros Hall. destruct k as [|k].
    + rewrite Hall in Hlast. auto.
    + specialize (Hfail 0%nat ltac:(lia)). rewrite Hall in Hfail. discriminate.
Qed.

(** What one turn of the loop of [insert_chunks_batch] costs. *)
Lemma batch_body_costs (documents : list Doc) B i s f w :
  exists (ok : bool) (k : nat) evs tail w',
    batch_body env retries documents B i (s, f) w
    = mkOut (Ok (if ok then (s + 1, f) else (s, f + 1))) w'
            (InsertBatch (i / B + 1) (slice documents i (i + B))
               :: evs ++ tail ++ [Sleep (1 # 2)])
    /\ checkpoint_tail (i / B + 1) s f ok tail
    /\ ((1 <= retries
         /\ evs = backoff_pattern (slice documents i (i + B)) 0 k
                  ++ [AddDocuments (slice documents i (i + B)) ok]
         /\ Z.of_nat (S k) <= retries
         /\ n_add w' = (n_add w + S k)%nat
         /\ ((forall n, add_documents_ok env n = true) -> k = 0%nat /\ ok = true))
        \/ (retries <= 0 /\ evs = [] /\ ok = false /\ k = 0%nat
            /\ tail = [] /\ w' = w)).
Proof.
  destruct (insert_batch_costs (slice documents i (i + B)) (i / B + 1) w)
    as (ok & k & evs & w1 & Hrun & Hnw & Hfile & Hcost).
  unfold batch_body, bind. rewrite Hrun. cbn [outcome world events].
  destruct ok.
  - destruct Hcost as [(Hmr & Hevs & Hk & Hadd & Hall) | (_ & _ & Hok & _)];
      [| discriminate].
    destruct ((s + 1) mod 10 =? 0) eqn:Hmod.
    + unfold _save_progress, try_except, write_progress_file, time_sleep, ret.
      cbn [outcome world events].
      destruct (write_result env (n_write w1)) eqn:Hw; cbn [outcome world events];
        (eexists true, k, evs, [_], _; split_and!;
         [ rewrite <- ?app_assoc, ?app_nil_r; cbn; reflexivity
         | left; split_and!; [reflexivity | apply Z.eqb_eq, Hmod | eauto]
         | left; split_and!; try assumption ]).
    + unfold time_sleep, ret. cbn [outcome world events].
      eexists true, k, evs, [], _. split_and!.
      * rewrite ?app_nil_r. cbn. reflexivity.
      * right. split; [right; apply Z.eqb_neq, Hmod | reflexivity].
      * left. split_and!; try assumption.
  - unfold time_sleep, ret. cbn [outcome world events].
    eexists false, k, evs, [], _. split_and!.
    + rewrite ?app_nil_r. cbn. reflexivity.
    + right. split; [left; reflexivity | reflexivity].
    + destruct Hcost as [(Hmr & Hevs & Hk & Hadd & Hall) | (Hmr & Hevs & _ & Hk & Hw)].
      * left. split_and!; try assumption.
      * right. split_and!; try assumption; reflexivity.
Qed.

Lemma checkpoint_tail_quiet num s f ok (tail : list (Event Doc)) :
  checkpoint_tail num s f ok tail ->
  sleeps tail = [] /\ inserted_batches tail = [] /\ attempts tail = [].
Proof. intros [(_ & _ & ts & wok & ->) | [_ ->]]; split_and!; reflexivity. Qed.

(** The trace of one turn that made [k + 1] attempts, seen through the
    observations. *)
Lemma segment_costs num s f (ok : bool) (batch : list Doc) k tail t :
  checkpoint_tail num s f ok tail ->
  let seg := InsertBatch num batch
               :: (backoff_pattern batch 0 k ++ [AddDocuments batch ok])
               ++ tail ++ [Sleep (1 # 2)] in
  attempts (seg ++ t) = repeat (batch, false) k ++ (batch, ok) :: attempts t
  /\ inserted_batches (seg ++ t)
     = (if ok then [batch] else []) ++ inserted_batches t
  /\ sleeps (seg ++ t)
     = map (fun j : nat => inject_Z (2 ^ Z.of_nat j * 2)) (seq 0 k)
         ++ (1 # 2) :: sleeps t
  /\ (total_sleep (seg ++ t)
      == inject_Z (2 ^ Z.of_nat (k + 1) - 2) + (1 # 2) + total_sleep t)%Q.
Proof.
  intros Htail seg.
  destruct (checkpoint_tail_quiet _ _ _ _ _ Htail) as (Hsl & Hin & Hat).
  assert (Hseg : seg ++ t
                 = [InsertBatch num batch] ++ backoff_pattern batch 0 k
                     ++ [AddDocuments batch ok] ++ tail ++ [Sleep (1 # 2)] ++ t).
  { subst seg. cbn. rewrite <- !app_assoc. reflexivity. }
  rewrite Hseg. split_and!.
  - rewrite !attempts_app, attempts_backoff, Hat. reflexivity.
  - rewrite !inserted_batches_app, inserted_batches_backoff, Hin.
    destruct ok; reflexivity.
  - rewrite !sleeps_app, sleeps_backoff, Hsl. reflexivity.
  - rewrite !total_sleep_app, total_sleep_backoff.
    unfold total_sleep at 2 3. rewrite Hsl. cbn [sleeps flat_map fold_right app].
    change (total_sleep [InsertBatch num batch]) with 0%Q.
    change (total_sleep [Sleep (1 # 2)]) with ((1 # 2) + 0)%Q.
    cbn [Nat.add]. change (2 ^ Z.of_nat 1) with 2. ring.
Qed.

(** The loop of [insert_chunks_batch], from any counts and any world: what
    it asks of the store and how long it sleeps. *)
Lemma batch_loop_costs (documents : list Doc) B starts : forall st w,
  let r := for_loop starts (batch_body env retries documents B) st w in
  (length (attempts (events r)) <= length starts * Z.to_nat retries)%nat
  /\ (1 <= retries -> (length starts <= length (attempts (events r)))%nat)
  /\ n_add (world r) = (n_add w + length (attempts (events r)))%nat
  /\ inserted_batches (events r)
       `sublist_of` map (fun i => slice documents i (i + B)) starts
  /\ outcome r
     = Ok (fst st + Z.of_nat (length (inserted_batches (events r))),
           snd st + Z.of_nat (length starts)
             - Z.of_nat (length (inserted_batches (events r))))
  /\ (inject_Z (Z.of_nat (length starts)) * (1 # 2) <= total_sleep (events r))%Q
  /\ (total_sleep (events r)
      <= inject_Z (Z.of_nat (length starts))
         * (inject_Z (2 ^ Z.max retries 1 - 2) + (1 # 2)))%Q
  /\ ((forall n, add_documents_ok env n = true) -> 1 <= retries ->
      attempts (events r) = map (fun i => (slice documents i (i + B), true)) starts
      /\ sleeps (events r) = repeat (1 # 2)%Q (length starts))
  /\ (retries <= 0 ->
      attempts (events r) = [] /\ saves (events r) = [] /\ world r = w
      /\ sleeps (events r) = repeat (1 # 2)%Q (length starts)).
Proof.
  induction starts as [|i rest IH]; intros [s f] w.
  - cbn. split_and!; try reflexivity; try lia; try (by constructor);
      try (intros; split_and!; reflexivity); try (unfold Qle; cbn; lia).
    f_equal. f_equal; lia.
  - destruct (batch_body_costs documents B i s f w)
      as (ok & k & evs & tail & w' & Hrun & Htail & Hcost).
    cbv zeta. rewrite (for_loop_cons _ _ _ _ _ _ _ _ Hrun).
    cbn [outcome world events].
    set (st' := if ok then (s + 1, f) else (s, f + 1)) in *.
    assert (Hst : st' = (fst st', snd st')) by (destruct st'; reflexivity).
    specialize (IH st' w'). cbv zeta in IH.
    set (r' := for_loop rest (batch_body env retries documents B) st' w') in *.
    destruct IH as (Hle & Hge & Hadd & Hsub & Hout & Hlo & Hhi & Hall & Hnone).
    set (num := i / B + 1) in *. set (batch := slice documents i (i + B)) in *.
    assert (Hsn : (inject_Z (Z.of_nat (length (i :: rest)))
                   == inject_Z (Z.of_nat (length rest)) + 1)%Q).
    { cbn [length]. rewrite Nat2Z.inj_succ. unfold Z.succ.
      rewrite inject_Z_plus. reflexivity. }
    destruct Hcost as [(Hmr & Hevs & Hk & Hn & Htrue)
                      | (Hmr & Hevs & Hok & Hk0 & Htl & Hww)];
      [subst evs | subst evs ok k tail w'].
    + destruct (segment_costs num s f ok batch k tail (events r') Htail)
        as (Hat & Hin & Hsl & Hts).
      cbv zeta in Hat, Hin, Hsl, Hts. rewrite Hat, Hin, Hts.
      assert (Hpow : 2 ^ Z.of_nat (k + 1) <= 2 ^ Z.max retries 1).
      { apply Z.pow_le_mono_r; lia. }
      assert (Hpos : 2 <= 2 ^ Z.of_nat (k + 1)).
      { change 2 with (2 ^ 1) at 1. apply Z.pow_le_mono_r; lia. }
      split_and!.
      * rewrite length_app, repeat_length. cbn [length]. nia.
      * intros _. rewrite length_app, repeat_length. cbn [length].
        specialize (Hge Hmr). lia.
      * rewrite Hadd, Hn, length_app, repeat_length. cbn [length]. lia.
      * cbn [map]. destruct ok.
        -- cbn [app]. apply sublist_skip. exact Hsub.
        -- cbn [app]. apply sublist_cons. exact Hsub.
      * rewrite Hout. subst st'. rewrite length_app.
        destruct ok; cbn [fst snd length app]; f_equal; f_equal; lia.
      * rewrite Hsn.
        assert (0 <= inject_Z (2 ^ Z.of_nat (k + 1) - 2))%Q.
        { change 0%Q with (inject_Z 0). rewrite <- Zle_Qle. lia. }
        lra.
      * rewrite Hsn.
        assert (inject_Z (2 ^ Z.of_nat (k + 1) - 2)
                <= inject_Z (2 ^ Z.max retries 1 - 2))%Q.
        { rewrite <- Zle_Qle. lia. }
        lra.
      * intros Htr _. destruct (Htrue Htr) as [-> ->].
        destruct (Hall Htr Hmr) as [Ha Hs].
        split.
        -- cbn [repeat app map]. rewrite Ha. reflexivity.
        -- rewrite Hsl. cbn [seq map app length repeat]. rewrite Hs. reflexivity.
      * intros Hz. lia.
    + destruct (Hnone Hmr) as (Ha & Hsv & Hw & Hsl).
      cbn [app attempts inserted_batches sleeps saves flat_map].
      fold (attempts (events r')). fold (inserted_batches (events r')).
      fold (sleeps (events r')). fold (saves (events r')).
      assert (Hts : (total_sleep
                       (InsertBatch num batch :: Sleep (1 # 2) :: events r')
                     == (1 # 2) + total_sleep (events r'))%Q).
      { unfold total_sleep. cbn [sleeps flat_map app fold_right]. reflexivity. }
      rewrite Hts.
      split_and!.
      * lia.
      * intros Hc. lia.
      * rewrite Hadd. reflexivity.
      * cbn [map]. apply sublist_cons. exact Hsub.
      * rewrite Hout. subst st'. cbn [fst snd length]. f_equal. f_equal; lia.
      * rewrite Hsn. lra.
      * rewrite Hsn. rewrite Z.max_r by lia. change (inject_Z (2 ^ 1 - 2)) with 0%Q.
        change (inject_Z (2 ^ 1 - 2)) with 0%Q in Hhi.
        rewrite Z.max_r in Hhi by lia. change (inject_Z (2 ^ 1 - 2)) with 0%Q in Hhi.
        lra.
      * intros _ Hc. lia.
      * intros _. split_and!; [exact Ha | exact Hsv | exact Hw |].
        cbn [length repeat app]. rewrite Hsl. reflexivity.
Qed.

End CostFacts.

Section InsertedFacts.

Context {Doc : Type}.
Variable env : Env.
Variable retries : Z.

Lemma sublist_concat_of (l1 l2 : list (list Doc)) :
  l1 `sublist_of` l2 -> concat l1 `sublist_of` concat l2.
Proof.
  induction 1 as [|x l1 l2 _ IH|x l1 l2 _ IH]; cbn [concat].
  - constructor.
  - apply sublist_app; [reflexivity | exact IH].
  - apply sublist_inserts_l. exact IH.
Qed.

(** The batches of a run from batch [k] on, as the loop slices them. *)
Lemma batches_from (documents : list Doc) B (k n : nat) :
  1 <= B ->
  map (fun i => slice documents i (i + B))
      (map (fun j : nat => Z.of_nat j * B) (seq k n))
  = map (nth_batch documents B) (seq k n).
Proof.
  intros HB. rewrite map_map. apply map_ext. intros j.
  apply slice_nth_batch. lia.
Qed.

End InsertedFacts.

(** X2: with no attempt allowed ([max_retries <= 0], as MAX_RETRIES=0 in
    the environment gives), [insert_chunks_batch] never calls the store:
    every batch is entered and counted as failed, no checkpoint is
    written and the world is left as it was; only the delays between the
    batches are slept. *)
Theorem X2_no_attempt_allowed_inserts_nothing {Doc} env retries
    (documents : list Doc) batch_size resume_from w :
  retries <= 0 -> batch_size <> 0 ->
  let r := insert_chunks_batch env retries documents batch_size resume_from w in
  attempts (events r) = []
  /\ saves (events r) = []
  /\ world r = w
  /\ outcome r = Ok (0, Z.of_nat (length (submitted (events r))))
  /\ sleeps (events r) = repeat (1 # 2)%Q (length (submitted (events r))).
Proof.
  intros Hmr HB r. subst r.
  destruct (insert_chunks_batch_loop env retries documents batch_size
              resume_from w HB) as (starts & _ & ->).
  destruct (batch_loop_costs env retries documents batch_size starts (0, 0) w)
    as (_ & _ & _ & _ & Hout & _ & _ & _ & Hnone).
  destruct (batch_loop_spec env retries documents batch_size starts (0, 0) w)
    as (_ & Hsub & _).
  destruct (Hnone Hmr) as (Ha & Hsv & Hw & Hsl).
  rewrite Hsub, length_map.
  split_and!; try assumption.
  rewrite Hout. unfold inserted_batches, attempts in *.
  pose proof (attempts_nil_inserted_nil _ Ha) as Hin.
  unfold inserted_batches in Hin. rewrite Hin. cbn [fst snd length]. repeat f_equal; lia.
Qed.

Lemma X2_witness :
  let r := insert_chunks_batch Sample.calm 0 (Sample.docs 7) 3 0 Sample.w0 in
  0 <= 0 /\ 3 <> 0
  /\ attempts (events r) = [] /\ outcome r = Ok (0, 3).
Proof.
  pose proof (X2_no_attempt_allowed_inserts_nothing Sample.calm 0 (Sample.docs 7)
                3 0 Sample.w0 ltac:(lia) ltac:(lia)) as H.
  cbv zeta in H. destruct H as (Ha & _ & _ & Hout & _).
  split_and!; [lia | lia | exact Ha |].
  rewrite Hout. reflexivity.
Defined.

Section CallFacts.

Context {Doc : Type}.
Variable env : Env.
Variable retries : Z.

Lemma calls_before_next_quiet (t1 t2 : list (Event Doc)) :
  submitted t1 = [] ->
  calls_before_next (t1 ++ t2) = attempts t1 ++ calls_before_next t2.
Proof.
  induction t1 as [|e t1 IH]; intros H; [reflexivity |].
  destruct e; cbn in H |- *; try discriminate; rewrite ?IH by exact H; reflexivity.
Qed.

Lemma batch_calls_quiet (t1 t2 : list (Event Doc)) :
  submitted t1 = [] -> batch_calls (t1 ++ t2) = batch_calls t2.
Proof.
  induction t1 as [|e t1 IH]; intros H; [reflexivity |].
  destruct e; cbn in H |- *; try discriminate; apply IH, H.
Qed.

(** In any trace, the batches with their calls are the batches handed
    over. *)
Lemma batch_calls_submitted (t : list (Event Doc)) :
  map fst (batch_calls t) = submitted t.
Proof.
  induction t as [|e t IH]; [reflexivity |].
  destruct e; cbn; rewrite ?IH; reflexivity.
Qed.

Lemma batch_loop_calls (documents : list Doc) B starts : forall st w,
  1 <= retries ->
  let r := for_loop starts (batch_body env retries documents B) st w in
  calls_before_next (events r) = []
  /\ Forall (fair_share retries) (batch_calls (events r))
  /\ concat (map snd (batch_calls (events r))) = attempts (events r).
Proof.
  induction starts as [|i starts IH]; intros [s f] w Hmr.
  - cbn. split_and!; [reflexivity | constructor | reflexivity].
  - destruct (batch_body_costs env retries documents B i s f w)
      as (ok & k & evs & tail & w1 & Hbody & Htail & Hcost).
    rewrite (for_loop_cons _ _ _ _ _ _ _ _ Hbody). cbn [events].
    destruct (IH (if ok then (s + 1, f) else (s, f + 1)) w1 Hmr)
      as (Hhead & Hfair & Hcat).
    destruct Hcost as [(_ & Hevs & Hk & _) | (Hle & _)]; [| lia].
    destruct (checkpoint_tail_quiet _ _ _ _ _ Htail) as (_ & _ & Hat).
    pose proof (checkpoint_tail_submitted _ _ _ _ _ Htail) as Hst.
    set (rest := events (for_loop starts _ _ w1)) in *.
    assert (Hquiet : submitted (evs ++ tail ++ [Sleep (1 # 2)]) = []).
    { rewrite !submitted_app, Hst, Hevs, submitted_app, submitted_backoff.
      reflexivity. }
    assert (Hatt : attempts (evs ++ tail ++ [Sleep (1 # 2)])
                   = repeat (slice documents i (i + B), false) k
                     ++ [(slice documents i (i + B), ok)]).
    { rewrite !attempts_app, Hat, Hevs, attempts_app, attempts_backoff.
      cbn. rewrite app_nil_r. reflexivity. }
    cbn [app calls_before_next batch_calls].
    rewrite (calls_before_next_quiet _ rest Hquiet), Hhead, app_nil_r.
    rewrite (batch_calls_quiet _ rest Hquiet).
    split_and!.
    + reflexivity.
    + constructor; [| exact Hfair]. unfold fair_share. cbn [fst snd].
      rewrite Hatt.
      assert (Hrep : Forall (fun c : list Doc * bool =>
                               fst c = slice documents i (i + B) /\ snd c = false)
                       (repeat (slice documents i (i + B), false) k)).
      { apply List.Forall_forall. intros c Hc. apply repeat_spec in Hc.
        subst. split; reflexivity. }
      split; [| split].
      * rewrite length_app, repeat_length. cbn [length]. lia.
      * apply List.Forall_app. split.
        -- eapply List.Forall_impl; [| exact Hrep]. intros c [Hc _]. exact Hc.
        -- constructor; [reflexivity | constructor].
      * rewrite removelast_last.
        eapply List.Forall_impl; [| exact Hrep]. intros c [_ Hc]. exact Hc.
    + cbn [map concat snd]. rewrite Hcat, Hatt.
      change (InsertBatch (i / B + 1) (slice documents i (i + B))
                :: (evs ++ tail ++ [Sleep (1 # 2)]) ++ rest)
        with ([InsertBatch (i / B + 1) (slice documents i (i + B))]
                ++ (evs ++ tail ++ [Sleep (1 # 2)]) ++ rest).
      rewrite (attempts_app [InsertBatch _ _]),
        (attempts_app (evs ++ tail ++ [Sleep (1 # 2)]) rest), Hatt. reflexivity.
Qed.

End CallFacts.

(** X3: for [max_retries >= 1], [B >= 1] and a run resumed at [k >= 0],
    [insert_chunks_batch] calls the store for each batch of the run at
    least once and at most [max_retries] times: the calls between the
    entry of a batch into [_insert_batch_with_retry] and the next entry
    all carry that batch, and all but the last of them were rejected.
    These are all the calls of the run, so that their number lies between
    the number of batches and [max_retries] times that number; the number
    of successful batches the run reports is the number of batches the
    store accepted. *)
Theorem X3_store_calls_are_bounded {Doc} env retries
    (documents : list Doc) batch_size k w :
  1 <= retries -> 1 <= batch_size -> 0 <= k ->
  let batches :=
    (Z.to_nat (ceil_div (Z.of_nat (length documents)) batch_size) - Z.to_nat k)%nat in
  let r := insert_chunks_batch env retries documents batch_size k w in
  map fst (batch_calls (events r))
  = map (fun j : nat => (Z.of_nat j + 1, nth_batch documents batch_size j))
        (seq (Z.to_nat k) batches)
  /\ Forall (fair_share retries) (batch_calls (events r))
  /\ concat (map snd (batch_calls (events r))) = attempts (events r)
  /\ (batches <= length (attempts (events r)))%nat
  /\ (length (attempts (events r)) <= batches * Z.to_nat retries)%nat
  /\ n_add (world r) = (n_add w + length (attempts (events r)))%nat
  /\ outcome r
     = Ok (Z.of_nat (length (inserted_batches (events r))),
           Z.of_nat batches - Z.of_nat (length (inserted_batches (events r)))).
Proof.
  intros Hmr HB Hk batches r. subst r batches.
  pose proof (submitted_from env retries documents batch_size k w HB Hk) as Hsub.
  rewrite insert_chunks_batch_from in * by assumption.
  match goal with |- context [for_loop ?s ?b ?st ?w] =>
    destruct (batch_loop_costs env retries documents batch_size s st w)
      as (Hle & Hge & Hadd & _ & Hout & _);
    destruct (batch_loop_calls env retries documents batch_size s st w Hmr)
      as (_ & Hfair & Hcat) end.
  rewrite length_map, length_seq in *.
  split_and!.
  - rewrite batch_calls_submitted. exact Hsub.
  - exact Hfair.
  - exact Hcat.
  - apply Hge, Hmr.
  - exact Hle.
  - exact Hadd.
  - rewrite Hout. cbn [fst snd]. repeat f_equal; lia.
Qed.

Lemma X3_witness :
  let r := insert_chunks_batch Scenario.flaky 3 (Sample.docs 7) 3 0 Sample.w0 in
  1 <= 3 /\ 1 <= 3 /\ 0 <= 0
  /\ map (fun x => (fst (fst x), length (snd x))) (batch_calls (events r))
     = [(1, 2%nat); (2, 2%nat); (3, 2%nat)]
  /\ Forall (fair_share 3) (batch_calls (events r))
  /\ (3 <= length (attempts (events r)) <= 9)%nat.
Proof.
  pose proof (X3_store_calls_are_bounded Scenario.flaky 3 (Sample.docs 7) 3 0
                Sample.w0 ltac:(lia) ltac:(lia) ltac:(lia)) as H.
  cbv zeta in H. destruct H as (_ & Hfair & _ & Hge & Hle & _).
  split_and!; try lia.
  - vm_compute. reflexivity.
  - exact Hfair.
  - exact Hge.
  - exact Hle.
Defined.

(** X4: the time [insert_chunks_batch] sleeps is at least half a second
    for each batch of the run and at most [2^max_retries - 2] seconds of
    backoff plus that half second for each batch. *)
Theorem X4_sleep_is_bounded {Doc} env retries
    (documents : list Doc) batch_size k w :
  1 <= retries -> 1 <= batch_size -> 0 <= k ->
  let batches :=
    (Z.to_nat (ceil_div (Z.of_nat (length documents)) batch_size) - Z.to_nat k)%nat in
  let r := insert_chunks_batch env retries documents batch_size k w in
  (inject_Z (Z.of_nat batches) * (1 # 2) <= total_sleep (events r))%Q
  /\ (total_sleep (events r)
      <= inject_Z (Z.of_nat batches) * (inject_Z (2 ^ retries - 2) + (1 # 2)))%Q.
Proof.
  intros Hmr HB Hk batches r. subst r batches.
  rewrite insert_chunks_batch_from by assumption.
  match goal with |- context [for_loop ?s ?b ?st ?w] =>
    destruct (batch_loop_costs env retries documents batch_size s st w)
      as (_ & _ & _ & _ & _ & Hlo & Hhi & _) end.
  rewrite length_map, length_seq in *.
  rewrite Z.max_l in Hhi by lia. split; assumption.
Qed.

Lemma X4_witness :
  let r := insert_chunks_batch Sample.down 3 (Sample.docs 7) 3 0 Sample.w0 in
  1 <= 3 /\ 1 <= 3 /\ 0 <= 0
  /\ (total_sleep (events r) <= inject_Z 3 * (inject_Z 6 + (1 # 2)))%Q.
Proof.
  pose proof (X4_sleep_is_bounded Sample.down 3 (Sample.docs 7) 3 0
                Sample.w0 ltac:(lia) ltac:(lia) ltac:(lia)) as H.
  cbv zeta in H. destruct H as (_ & Hhi).
  split_and!; try lia. exact Hhi.
Defined.

(** X5: when the store accepts every call ([max_retries >= 1],
    [B >= 1], fresh run), [insert_chunks_batch] calls it exactly once for
    each batch, in order: the batches it accepts, laid end to end, are
    the documents, each inserted once; all batches are reported
    successful, and nothing but the delays between batches is slept. *)
Theorem X5_reliable_store_gets_every_document_once {Doc} env retries
    (documents : list Doc) batch_size w :
  (forall n, add_documents_ok env n = true) ->
  1 <= retries -> 1 <= batch_size ->
  let total := Z.to_nat (ceil_div (Z.of_nat (length documents)) batch_size) in
  let r := insert_chunks_batch env retries documents batch_size 0 w in
  attempts (events r)
  = map (fun j : nat => (nth_batch documents batch_size j, true)) (seq 0 total)
  /\ concat (inserted_batches (events r)) = documents
  /\ outcome r = Ok (Z.of_nat total, 0)
  /\ sleeps (events r) = repeat (1 # 2)%Q total.
Proof.
  intros Hall Hmr HB total r. subst r.
  rewrite insert_chunks_batch_from by lia.
  change (Z.to_nat 0) with 0%nat. rewrite Nat.sub_0_r. fold total.
  destruct (batch_loop_costs env retries documents batch_size
              (map (fun j : nat => Z.of_nat j * batch_size) (seq 0 total)) (0, 0) w)
    as (_ & _ & _ & _ & Hout & _ & _ & Htrue & _).
  destruct (Htrue Hall Hmr) as (Ha & Hs).
  rewrite length_map, length_seq in *.
  assert (Hatt : attempts
                   (events (for_loop
                              (map (fun j : nat => Z.of_nat j * batch_size) (seq 0 total))
                              (batch_body env retries documents batch_size) (0, 0) w))
                 = map (fun j : nat => (nth_batch documents batch_size j, true))
                       (seq 0 total)).
  { rewrite Ha, map_map. apply map_ext. intros j.
    rewrite slice_nth_batch by lia. reflexivity. }
  assert (Hin : inserted_batches
                  (events (for_loop
                             (map (fun j : nat => Z.of_nat j * batch_size) (seq 0 total))
                             (batch_body env retries documents batch_size) (0, 0) w))
                = map (nth_batch documents batch_size) (seq 0 total)).
  { revert Hatt. unfold inserted_batches, attempts.
    generalize (events (for_loop
                          (map (fun j : nat => Z.of_nat j * batch_size) (seq 0 total))
                          (batch_body env retries documents batch_size) (0, 0) w)).
    generalize (seq 0 total) as js.
    intros js t. revert js. induction t as [|e t IH]; intros js Hjs.
    - destruct js; [reflexivity | cbn in Hjs; discriminate].
    - destruct e as [| b [|] | | | |]; cbn [flat_map app] in *; try (apply IH; exact Hjs).
      + destruct js as [|j js]; [discriminate |]. cbn [map] in *.
        injection Hjs as -> Hjs. f_equal. apply IH. exact Hjs.
      + destruct js as [|j js]; cbn [map] in Hjs; [discriminate |].
        injection Hjs as _ Hfalse _. discriminate. }
  split_and!.
  - exact Hatt.
  - rewrite Hin, concat_nth_batch by exact HB. cbn [Nat.mul skipn].
    apply firstn_all2.
    pose proof (ceil_div_bounds (Z.of_nat (length documents)) batch_size HB
                  ltac:(lia)) as [Hc0 Hc].
    subst total. nia.
  - rewrite Hout, Hin, length_map, length_seq. cbn [fst snd]. repeat f_equal; lia.
  - exact Hs.
Qed.

Lemma X5_witness :
  let r := insert_chunks_batch Sample.calm 3 (Sample.docs 7) 3 0 Sample.w0 in
  (forall n, add_documents_ok Sample.calm n = true) /\ 1 <= 3 /\ 1 <= 3
  /\ concat (inserted_batches (events r)) = Sample.docs 7
  /\ outcome r = Ok (3, 0).
Proof.
  assert (Hok : forall n, add_documents_ok Sample.calm n = true)
    by (intros n; reflexivity).
  pose proof (X5_reliable_store_gets_every_document_once Sample.calm 3
                (Sample.docs 7) 3 Sample.w0 Hok ltac:(lia) ltac:(lia)) as H.
  cbv zeta in H. destruct H as (_ & Hc & Hout & _).
  split_and!; [exact Hok | lia | lia | exact Hc | exact Hout].
Defined.

(** X6: whatever the store does, the batches it accepts during
    [insert_chunks_batch] are some of the batches of the run, in their
    order, each at most once: the accepted documents form a sublist of
    the documents, so no document is inserted twice or out of order. *)
Theorem X6_no_document_is_inserted_twice {Doc} env retries
    (documents : list Doc) batch_size k w :
  1 <= batch_size -> 0 <= k ->
  let r := insert_chunks_batch env retries documents batch_size k w in
  inserted_batches (events r) `sublist_of` map snd (submitted (events r))
  /\ concat (inserted_batches (events r)) `sublist_of` documents.
Proof.
  intros HB Hk r.
  assert (Hsubm : map snd (submitted (events r))
                  = map (nth_batch documents batch_size)
                        (seq (Z.to_nat k)
                             (Z.to_nat (ceil_div (Z.of_nat (length documents))
                                          batch_size) - Z.to_nat k))).
  { subst r. rewrite submitted_from by assumption. rewrite map_map. reflexivity. }
  assert (Hsl : inserted_batches (events r) `sublist_of` map snd (submitted (events r))).
  { rewrite Hsubm. subst r. rewrite insert_chunks_batch_from by assumption.
    match goal with |- context [for_loop ?s ?b ?st ?w] =>
      destruct (batch_loop_costs env retries documents batch_size s st w)
        as (_ & _ & _ & Hsub & _) end.
    rewrite batches_from in Hsub by exact HB. exact Hsub. }
  split; [exact Hsl |].
  etransitivity; [apply sublist_concat_of, Hsl |].
  rewrite Hsubm, concat_nth_batch by exact HB.
  etransitivity; [apply sublist_take | apply sublist_drop].
Qed.

Lemma X6_witness :
  let r := insert_chunks_batch Scenario.flaky 1 (Sample.docs 7) 3 0 Sample.w0 in
  1 <= 3 /\ 0 <= 0
  /\ concat (inserted_batches (events r)) `sublist_of` Sample.docs 7.
Proof.
  pose proof (X6_no_document_is_inserted_twice Scenario.flaky 1 (Sample.docs 7)
                3 0 Sample.w0 ltac:(lia) ltac:(lia)) as H.
  cbv zeta in H. destruct H as (_ & Hc).
  split_and!; [lia | lia | exact Hc].
Defined.

Section CheckpointFileFacts.

Context {Doc : Type}.
Variable env : Env.

Lemma save_progress_run n s f w :
  let p := mkProgress n s f (Some (time_time env (n_write w))) in
  let res := write_result env (n_write w) in
  _save_progress (Doc := Doc) env n s f w
  = mkOut (Ok tt)
      (mkWorld (n_add w) (S (n_write w)) (written res p (progress_file w)))
      [SaveProgress p res].
Proof.
  unfold _save_progress, try_except, write_progress_file, ret.
  cbn [outcome world events].
  destruct (write_result env (n_write w)); reflexivity.
Qed.

Lemma load_progress_run w :
  _load_progress (Doc := Doc) env w
  = mkOut (Ok (match progress_file w with
               | Some (Json p) => if open_read_ok env then p else default_progress
               | _ => default_progress
               end))
          w
          (match progress_file w with
           | Some (Json _) => [LoadProgress (open_read_ok env)]
           | Some Damaged => [LoadProgress false]
           | None => []
           end).
Proof.
  unfold _load_progress, try_except, bind, os_path_exists, read_progress_file, ret.
  cbn [outcome world events].
  destruct (progress_file w) as [c|] eqn:Hf; cbn [outcome world events].
  - rewrite bool_decide_eq_true_2 by eauto. cbn [outcome world events].
    rewrite Hf. destruct (open_read_ok env), c; reflexivity.
  - rewrite bool_decide_eq_false_2 by (intros [? ?]; discriminate).
    reflexivity.
Qed.

End CheckpointFileFacts.

(** X7: a checkpoint saved by [_save_progress] is what [_load_progress]
    returns next, when the write and the read succeed.  When [open]
    refuses the write, the file is as before and the load returns the
    checkpoint it held, if it held one.  When the write breaks off after
    [open(..., "w")] has emptied the file, the checkpoint the file held is
    lost: the file is left damaged and the load returns the fallback with
    [current_batch = 0], as it does when the file cannot be opened for
    reading.  Neither call raises, and loading changes nothing. *)
Theorem X7_saved_checkpoint_is_loaded_back {Doc} env n s f w :
  let saved := _save_progress (Doc := Doc) env n s f w in
  let loaded := _load_progress (Doc := Doc) env (world saved) in
  outcome saved = Ok tt
  /\ world loaded = world saved
  /\ (exists p, outcome loaded = Ok p
      /\ (open_write_ok env (n_write w) = true ->
          json_dump_ok env (n_write w) = true ->
          open_read_ok env = true ->
          p = mkProgress n s f (Some (time_time env (n_write w))))
      /\ (open_write_ok env (n_write w) = false ->
          progress_file (world saved) = progress_file w
          /\ (open_read_ok env = true ->
              p = match progress_file w with
                  | Some (Json q) => q
                  | _ => default_progress
                  end))
      /\ (open_write_ok env (n_write w) = true ->
          json_dump_ok env (n_write w) = false ->
          progress_file (world saved) = Some Damaged
          /\ p = default_progress)
      /\ (open_read_ok env = false -> p = default_progress)).
Proof.
  intros saved loaded. subst loaded saved.
  rewrite save_progress_run. cbn [outcome world].
  rewrite load_progress_run. cbn [outcome world progress_file].
  split_and!; try reflexivity.
  eexists. split; [reflexivity |]. unfold write_result.
  destruct (open_write_ok env (n_write w)), (json_dump_ok env (n_write w)),
    (open_read_ok env); cbn [written];
    split_and!; intros; try discriminate; try reflexivity;
    try (split; [reflexivity | intros; try discriminate; try reflexivity]);
    destruct (progress_file w) as [[q|]|]; reflexivity.
Qed.

Lemma X7_witness :
  (exists p,
     outcome (_load_progress (Doc := nat) Sample.calm
                (world (_save_progress (Doc := nat) Sample.calm 10 10 0 Sample.w0)))
     = Ok p
     /\ p = mkProgress 10 10 0 (Some 0%Q))
  /\ (exists p,
        outcome (_load_progress (Doc := nat) Scenario.disk_full
                   (world (_save_progress (Doc := nat) Scenario.disk_full 10 10 0
                             Sample.interrupted)))
        = Ok p
        /\ current_batch p = 0).
Proof.
  split.
  - pose proof (X7_saved_checkpoint_is_loaded_back (Doc := nat) Sample.calm
                  10 10 0 Sample.w0) as H.
    cbv zeta in H. destruct H as (_ & _ & p & Hp & Hok & _).
    exists p. split; [exact Hp |]. apply Hok; reflexivity.
  - pose proof (X7_saved_checkpoint_is_loaded_back (Doc := nat) Scenario.disk_full
                  10 10 0 Sample.interrupted) as H.
    cbv zeta in H. destruct H as (_ & _ & p & Hp & _ & _ & Hlost & _).
    exists p. split; [exact Hp |].
    destruct (Hlost eq_refl eq_refl) as [_ ->]. reflexivity.
Defined.

Section ProcessMoreFacts.

Context {Row Doc : Type}.
Variable env : Env.
Variable retries : Z.
Variable read_csv_file : string -> result (list Row).
Variable create_document_from_row : Row -> result Doc.

(** [process_csv_file] once the reader has returned: the load of the
    checkpoint, the insertion, the clean-up. *)
Lemma process_csv_file_run path B use_batch resume w df :
  read_csv_file path = Ok df ->
  let documents := convert_rows create_document_from_row df in
  let loading : list (Event Doc) :=
    if resume && use_batch
    then match progress_file w with
         | Some (Json _) => [LoadProgress (open_read_ok env)]
         | Some Damaged => [LoadProgress false]
         | None => []
         end
    else [] in
  let ins := if use_batch
             then insert_chunks_batch env retries documents B
                    (resume_point env use_batch resume w) w
             else insert_chunks_individual env documents w in
  let r := process_csv_file env retries read_csv_file create_document_from_row
             path B use_batch resume w in
  match outcome ins with
  | Raise e => r = mkOut (Raise e) (world ins) (loading ++ events ins)
  | Ok _ =>
      exists cleaning,
        outcome r = Ok tt
        /\ events r = loading ++ events ins ++ cleaning
        /\ n_add (world r) = n_add (world ins)
        /\ (cleaning = []
            \/ cleaning = [RemoveProgress true]
            \/ cleaning = [RemoveProgress false])
        /\ (progress_file (world ins) = None -> cleaning = [] /\ world r = world ins)
        /\ (os_remove_ok env = true -> progress_file (world r) = None)
  end.
Proof.
  intros Hdf documents loading ins r. subst r. unfold process_csv_file.
  rewrite Hdf, bind_lift_ok. fold documents.
  assert (Hres : (if resume && use_batch
                  then bind (_load_progress env)
                         (fun progress => ret (current_batch progress))
                  else ret 0) w
                 = mkOut (Doc := Doc) (Ok (resume_point env use_batch resume w)) w
                     loading).
  { subst loading. unfold resume_point. destruct (resume && use_batch).
    - rewrite (bind_ok _ _ _ _ _ _ (load_progress_run env w)).
      unfold ret. cbn [outcome world events]. rewrite app_nil_r.
      destruct (progress_file w) as [[p|]|]; [destruct (open_read_ok env) | |];
        reflexivity.
    - reflexivity. }
  rewrite (bind_ok _ _ _ _ _ _ Hres).
  assert (Hins : (if use_batch
                  then insert_chunks_batch env retries documents B
                         (resume_point env use_batch resume w)
                  else insert_chunks_individual env documents) w = ins).
  { subst ins. destruct use_batch; reflexivity. }
  destruct ins as [[c | e] w' evs] eqn:Hi; cbn [outcome world events].
  - rewrite (bind_ok _ _ _ _ _ _ Hins).
    unfold bind, os_path_exists, try_except, os_remove, ret.
    cbn [outcome world events].
    destruct (progress_file w') as [p|] eqn:Hf.
    + rewrite bool_decide_eq_true_2 by eauto. cbn [outcome world events].
      rewrite Hf. destruct (os_remove_ok env) eqn:Hrm; cbn [outcome world events].
      * exists [RemoveProgress true]. split_and!; try reflexivity; eauto.
        discriminate.
      * exists [RemoveProgress false]. split_and!; try reflexivity; eauto;
          discriminate.
    + rewrite bool_decide_eq_false_2 by (intros [? ?]; discriminate).
      cbn [outcome world events]. exists []. split_and!; try reflexivity; eauto.
  - rewrite (bind_raise _ _ _ _ _ _ Hins). reflexivity.
Qed.

End ProcessMoreFacts.

Section ProcessObservations.

Context {Doc : Type}.

(** Every checkpoint a run owes bears the number of one of its batches. *)
Lemma checkpoints_from_numbers rs : forall s f c,
  In c (checkpoints_from s f rs) -> In (fst (fst c)) (map fst rs).
Proof.
  induction rs as [|[num ok] rs IH]; intros s f c Hc; [destruct Hc |].
  cbn [checkpoints_from] in Hc. destruct ok.
  - apply in_app_or in Hc as [Hc | Hc].
    + destruct ((s + 1) mod 10 =? 0); [| destruct Hc].
      destruct Hc as [<- | []]. left. reflexivity.
    + right. eapply IH, Hc.
  - right. eapply IH, Hc.
Qed.

End ProcessObservations.

(** X8: in batch mode [process_csv_file] starts from the batch the
    progress file names when it is asked to resume and the file can be
    read, and from batch 0 otherwise: the batches handed to
    [_insert_batch_with_retry] are those of index [resume_point] and
    above, cut from the documents of the rows that convert.  When the
    checkpoint is at or past the last batch, the store is not called at
    all. *)
Theorem X8_process_resumes_at_the_checkpoint {Row Doc} env retries
    (read_csv_file : string -> result (list Row))
    (create_document_from_row : Row -> result Doc)
    path batch_size resume w df :
  read_csv_file path = Ok df ->
  1 <= batch_size ->
  0 <= resume_point env true resume w ->
  let documents := convert_rows create_document_from_row df in
  let k := Z.to_nat (resume_point env true resume w) in
  let total := Z.to_nat (ceil_div (Z.of_nat (length documents)) batch_size) in
  let r := process_csv_file env retries read_csv_file create_document_from_row
             path batch_size true resume w in
  outcome r = Ok tt
  /\ submitted (events r)
     = map (fun j : nat => (Z.of_nat j + 1, nth_batch documents batch_size j))
           (seq k (total - k))
  /\ ((total <= k)%nat -> attempts (events r) = []).
Proof.
  intros Hdf HB Hk documents k total r.
  pose proof (process_csv_file_run env retries read_csv_file
                create_document_from_row path batch_size true resume w df Hdf) as H.
  cbv zeta in H. fold documents r in H.
  destruct (insert_chunks_batch_returns env retries documents batch_size
              (resume_point env true resume w) w ltac:(lia)) as (c & w' & evs & Hins).
  pose proof (submitted_from env retries documents batch_size
                (resume_point env true resume w) w HB Hk) as Hsub.
  fold k total in Hsub.
  rewrite Hins in H, Hsub. cbn [outcome world events] in H, Hsub.
  destruct H as (cleaning & Hout & Hev & _ & Hcl & _).
  split_and!.
  - exact Hout.
  - rewrite Hev, !submitted_app, Hsub.
    assert (Hc : submitted cleaning = [])
      by (destruct Hcl as [-> | [-> | ->]]; reflexivity).
    rewrite Hc, app_nil_r.
    destruct (resume && true), (progress_file w) as [[|]|]; reflexivity.
  - intros Hpast.
    pose proof (insert_chunks_batch_from env retries documents batch_size
                  (resume_point env true resume w) w HB Hk) as Hfrom.
    fold k total in Hfrom. replace (total - k)%nat with 0%nat in Hfrom by lia.
    rewrite Hins in Hfrom. cbn in Hfrom. injection Hfrom as _ _ ->.
    rewrite Hev, !attempts_app.
    assert (Hc : attempts cleaning = [])
      by (destruct Hcl as [-> | [-> | ->]]; reflexivity).
    rewrite Hc. destruct (resume && true), (progress_file w) as [[|]|]; reflexivity.
Qed.

Lemma X8_witness :
  let r := process_csv_file Sample.calm 3 (fun _ => Ok (Sample.docs 5))
             (fun row => Ok row) "all_hadiths_clean.csv" 1 true true
             Sample.interrupted in
  1 <= 1
  /\ 0 <= resume_point Sample.calm true true Sample.interrupted
  /\ outcome r = Ok tt
  /\ map fst (submitted (events r)) = [3; 4; 5].
Proof.
  pose proof (X8_process_resumes_at_the_checkpoint Sample.calm 3
                (fun _ => Ok (Sample.docs 5)) (fun row => Ok row)
                "all_hadiths_clean.csv" 1 true Sample.interrupted (Sample.docs 5)
                eq_refl ltac:(lia) ltac:(vm_compute; discriminate)) as H.
  cbv zeta in H. destruct H as (Hout & Hsub & _).
  split_and!; [lia | vm_compute; discriminate | exact Hout |].
  rewrite Hsub. reflexivity.
Defined.

(** X9: when [process_csv_file] fails nothing is cleaned up.  An error of
    the reader is raised before anything happens.  A batch size of 0 in
    batch mode raises [ZeroDivisionError] after the checkpoint was loaded:
    the store is never called, and the progress file stays as it was. *)
Theorem X9_failed_run_keeps_the_checkpoint {Row Doc} env retries
    (read_csv_file : string -> result (list Row))
    (create_document_from_row : Row -> result Doc)
    path batch_size use_batch_insert resume w :
  let r := process_csv_file env retries read_csv_file create_document_from_row
             path batch_size use_batch_insert resume w in
  (forall e, read_csv_file path = Raise e -> r = mkOut (Raise e) w [])
  /\ (is_ok (read_csv_file path) = true -> use_batch_insert = true ->
      batch_size = 0 ->
      outcome r = Raise ZeroDivisionError
      /\ world r = w
      /\ attempts (events r) = []
      /\ submitted (events r) = []).
Proof.
  intros r. split.
  - intros e He. subst r. unfold process_csv_file. rewrite He. reflexivity.
  - intros Hok -> ->.
    destruct (read_csv_file path) as [df |] eqn:Hdf; [| discriminate].
    pose proof (process_csv_file_run env retries read_csv_file
                  create_document_from_row path 0 true resume w df Hdf) as H.
    cbv zeta in H. fold r in H.
    rewrite insert_chunks_batch_zero in H. cbn [outcome world events] in H.
    rewrite H. cbn [outcome world events]. rewrite app_nil_r.
    destruct (resume && true), (progress_file w) as [[|]|]; split_and!; reflexivity.
Qed.

Lemma X9_witness :
  let r := process_csv_file Sample.calm 3 (fun _ => Ok (Sample.docs 5))
             (fun row => Ok row) "all_hadiths_clean.csv" 0 true true
             Sample.interrupted in
  outcome r = Raise ZeroDivisionError
  /\ progress_file (world r) = progress_file Sample.interrupted.
Proof.
  pose proof (X9_failed_run_keeps_the_checkpoint Sample.calm 3
                (fun _ => Ok (Sample.docs 5)) (fun row => Ok row)
                "all_hadiths_clean.csv" 0 true true Sample.interrupted) as H.
  cbv zeta in H. destruct H as (_ & H).
  destruct (H eq_refl eq_refl eq_refl) as (Hout & Hw & _).
  split; [exact Hout | rewrite Hw; reflexivity].
Defined.

(** X10: in individual mode [process_csv_file] never reads the progress
    file, even when asked to resume: every document is handed to the
    store once, from the first on.  A progress file an earlier run left
    is removed all the same at the end. *)
Theorem X10_individual_mode_ignores_the_checkpoint {Row Doc} env retries
    (read_csv_file : string -> result (list Row))
    (create_document_from_row : Row -> result Doc)
    path batch_size resume w df :
  read_csv_file path = Ok df ->
  let r := process_csv_file env retries read_csv_file create_document_from_row
             path batch_size false resume w in
  outcome r = Ok tt
  /\ reads_progress (events r) = false
  /\ map fst (attempts (events r))
     = map (fun doc => [doc]) (convert_rows create_document_from_row df)
  /\ saves (events r) = []
  /\ (os_remove_ok env = true -> progress_file (world r) = None).
Proof.
  intros Hdf r.
  pose proof (process_csv_file_run env retries read_csv_file
                create_document_from_row path batch_size false resume w df Hdf) as H.
  cbv zeta in H. fold r in H.
  pose proof (Hloop := individual_loop_spec env
                (convert_rows create_document_from_row df) 0 0 w).
  cbv zeta in Hloop. destruct Hloop as (Hev & Hout & _).
  unfold insert_chunks_individual in H. rewrite Hout in H.
  destruct H as (cleaning & Hr & Hevs & _ & Hcl & _ & Hrm).
  rewrite andb_false_r in Hevs. cbn [app] in Hevs.
  assert (Hobs : forall n (l : list Doc),
            reads_progress
              (imap (fun i doc => AddDocuments [doc] (add_documents_ok env (n + i))) l)
            = false
            /\ map fst (attempts
                 (imap (fun i doc => AddDocuments [doc] (add_documents_ok env (n + i))) l))
               = map (fun doc => [doc]) l
            /\ saves (imap (fun i doc =>
                              AddDocuments [doc] (add_documents_ok env (n + i))) l)
               = []).
  { intros n l. revert n. induction l as [|doc rest IH]; intros n;
      [split_and!; reflexivity |].
    destruct (IH (S n)) as (Hr' & Ha & Hs).
    assert (Hshift : imap (fun i doc0 =>
                             AddDocuments [doc0] (add_documents_ok env (n + i)))
                          (doc :: rest)
                     = AddDocuments [doc] (add_documents_ok env (n + 0))
                         :: imap (fun i doc0 =>
                                    AddDocuments [doc0] (add_documents_ok env (S n + i)))
                                 rest).
    { cbn [imap]. f_equal. apply imap_ext. intros i x _. cbn. do 2 f_equal. lia. }
    rewrite Hshift.
    cbn [reads_progress existsb orb attempts saves flat_map app map fst].
    fold (reads_progress (imap (fun i doc0 =>
            AddDocuments [doc0] (add_documents_ok env (S n + i))) rest)).
    fold (attempts (imap (fun i doc0 =>
            AddDocuments [doc0] (add_documents_ok env (S n + i))) rest)).
    fold (saves (imap (fun i doc0 =>
            AddDocuments [doc0] (add_documents_ok env (S n + i))) rest)).
    rewrite Hr', Ha, Hs. split_and!; reflexivity. }
  destruct (Hobs (n_add w) (convert_rows create_document_from_row df))
    as (Hrd & Hat & Hsv).
  split_and!.
  - exact Hr.
  - rewrite Hevs, Hev. unfold reads_progress in *. rewrite existsb_app, Hrd.
    destruct Hcl as [-> | [-> | ->]]; reflexivity.
  - rewrite Hevs, Hev, attempts_app, map_app, Hat.
    destruct Hcl as [-> | [-> | ->]]; cbn; apply app_nil_r.
  - rewrite Hevs, Hev, saves_app, Hsv.
    destruct Hcl as [-> | [-> | ->]]; reflexivity.
  - exact Hrm.
Qed.

Lemma X10_witness :
  let r := process_csv_file Sample.calm 3 (fun _ => Ok (Sample.docs 3))
             (fun row => Ok row) "all_hadiths_clean.csv" 25 false true
             Sample.interrupted in
  map fst (attempts (events r)) = [[0]; [1]; [2]]%nat
  /\ progress_file (world r) = None.
Proof.
  pose proof (X10_individual_mode_ignores_the_checkpoint Sample.calm 3
                (fun _ => Ok (Sample.docs 3)) (fun row => Ok row)
                "all_hadiths_clean.csv" 25 true Sample.interrupted (Sample.docs 3)
                eq_refl) as H.
  cbv zeta in H. destruct H as (_ & _ & Ha & _ & Hrm).
  split; [rewrite Ha; reflexivity | apply Hrm; reflexivity].
Defined.

(** X11: a resumed run never goes back.  Every checkpoint a fresh run of
    [insert_chunks_batch] writes bears the number [n >= 1] of a batch of
    that run, and a run resumed from it hands over only batches numbered
    above [n]: a batch that failed before the checkpoint is not attempted
    again. *)
Theorem X11_resume_never_retries_failed_batches {Doc} env retries env' retries'
    (documents : list Doc) batch_size w w' p :
  1 <= batch_size ->
  let first := insert_chunks_batch env retries documents batch_size 0 w in
  In p (map fst (saves (events first))) ->
  let second := insert_chunks_batch env' retries' documents batch_size
                  (current_batch p) w' in
  1 <= current_batch p
  /\ In (current_batch p) (map fst (batch_outcomes (events first)))
  /\ Forall (fun nb => current_batch p < fst nb) (submitted (events second))
  /\ (forall num, In (num, false) (batch_outcomes (events first)) ->
        num <= current_batch p ->
        ~ In num (map fst (submitted (events second)))).
Proof.
  intros HB first Hp second.
  assert (Hnum : In (current_batch p) (map fst (batch_outcomes (events first)))).
  { subst first.
    destruct (insert_chunks_batch_loop env retries documents batch_size 0 w
                ltac:(lia)) as (starts & _ & Hrun).
    rewrite Hrun in *.
    destruct (batch_loop_spec env retries documents batch_size starts (0, 0) w)
      as (_ & _ & _ & Hcp & _).
    apply (in_map checkpoint_counts) in Hp. rewrite Hcp in Hp.
    apply checkpoints_from_numbers in Hp. exact Hp. }
  assert (Hpos : 1 <= current_batch p).
  { subst first. rewrite insert_chunks_batch_from in Hnum by lia.
    match type of Hnum with context [for_loop ?s ?b ?st ?w] =>
      destruct (batch_loop_spec env retries documents batch_size s st w)
        as (_ & _ & Hnums & _) end.
    rewrite Hnums, map_map in Hnum. apply in_map_iff in Hnum as (j & <- & _).
    rewrite batch_num_of_start by exact HB. lia. }
  assert (Habove : Forall (fun nb => current_batch p < fst nb)
                     (submitted (events second))).
  { subst second. rewrite submitted_from by lia.
    apply List.Forall_forall. intros nb Hnb.
    apply in_map_iff in Hnb as (j & <- & Hj). apply in_seq in Hj. cbn [fst]. lia. }
  split_and!; try assumption.
  intros num _ Hle Hin. apply in_map_iff in Hin as (nb & <- & Hnb).
  rewrite List.Forall_forall in Habove. specialize (Habove nb Hnb). lia.
Qed.

Lemma X11_witness :
  let first := insert_chunks_batch Sample.fails_twice 1 (Sample.docs 25) 1 0
                 Sample.w0 in
  let p := mkProgress 12 10 2 (Some 0%Q) in
  let second := insert_chunks_batch Sample.calm 3 (Sample.docs 25) 1
                  (current_batch p) Sample.w0 in
  1 <= 1
  /\ In p (map fst (saves (events first)))
  /\ In (1, false) (batch_outcomes (events first))
  /\ ~ In 1 (map fst (submitted (events second))).
Proof.
  assert (Hp : In (mkProgress 12 10 2 (Some 0%Q))
                 (map fst (saves (events (insert_chunks_batch Sample.fails_twice 1
                                            (Sample.docs 25) 1 0 Sample.w0))))).
  { vm_compute. left. reflexivity. }
  assert (Hf : In (1, false)
                 (batch_outcomes (events (insert_chunks_batch Sample.fails_twice 1
                                            (Sample.docs 25) 1 0 Sample.w0)))).
  { vm_compute. left. reflexivity. }
  pose proof (X11_resume_never_retries_failed_batches Sample.fails_twice 1
                Sample.calm 3 (Sample.docs 25) 1 Sample.w0 Sample.w0
                (mkProgress 12 10 2 (Some 0%Q)) ltac:(lia) Hp) as H.
  cbv zeta in H. destruct H as (_ & _ & _ & Hnot).
  split_and!; [lia | exact Hp | exact Hf |].
  apply (Hnot 1 Hf). cbn. lia.
Defined.

Section MapperMoreFacts.

Variable py_str : pyval -> string.

(** The guarded read of a number raises exactly on a repeated label. *)
Lemma get_number_outcome (row : Row) key :
  (repeated_label row key = false -> is_ok (get_number row key) = true)
  /\ (repeated_label row key = true ->
      get_number row key
      = Raise (ValueError "The truth value of a Series is ambiguous")).
Proof.
  unfold repeated_label, get_number, series_get.
  destruct (cells_at row key) as [|c [|c' cells]]; cbn; split;
    intros H; try reflexivity; discriminate.
Qed.

Lemma create_document_outcome (row : Row) :
  (repeated_label row "hadith_no" || repeated_label row "chapter_no" = false ->
   is_ok (create_document_from_row py_str row) = true)
  /\ (repeated_label row "hadith_no" || repeated_label row "chapter_no" = true ->
      create_document_from_row py_str row
      = Raise (ValueError "The truth value of a Series is ambiguous")).
Proof.
  destruct (get_number_outcome row "hadith_no") as [Hh0 Hh1].
  destruct (get_number_outcome row "chapter_no") as [Hc0 Hc1].
  unfold create_document_from_row. split; intros H.
  - apply orb_false_iff in H as [Hh Hc].
    specialize (Hh0 Hh). specialize (Hc0 Hc).
    destruct (get_number row "hadith_no"); [| discriminate].
    destruct (get_number row "chapter_no"); [| discriminate]. reflexivity.
  - destruct (repeated_label row "hadith_no") eqn:Hh.
    + rewrite (Hh1 eq_refl). reflexivity.
    + cbn [orb] in H. rewrite (Hc1 H).
      specialize (Hh0 eq_refl).
      destruct (get_number row "hadith_no"); [reflexivity | discriminate].
Qed.

End MapperMoreFacts.

(** X12: [create_document_from_row] raises exactly when the label
    [hadith_no] or the label [chapter_no] occurs more than once in the
    row, and then with the [ValueError] of an ambiguous truth value; a
    repeated label of a text field does not make it raise. *)
Theorem X12_conversion_fails_only_on_a_repeated_number_label py_str (row : Row) :
  (is_ok (create_document_from_row py_str row) = true
   <-> repeated_label row "hadith_no" = false
       /\ repeated_label row "chapter_no" = false)
  /\ (is_ok (create_document_from_row py_str row) = false ->
      create_document_from_row py_str row
      = Raise (ValueError "The truth value of a Series is ambiguous")).
Proof.
  destruct (create_document_outcome py_str row) as [H0 H1].
  destruct (repeated_label row "hadith_no" || repeated_label row "chapter_no")
    eqn:Hrep.
  - rewrite (H1 eq_refl). cbn [is_ok]. split; [| reflexivity].
    split; [discriminate |]. intros [Hh Hc]. rewrite Hh, Hc in Hrep. discriminate.
  - specialize (H0 eq_refl). rewrite H0. split.
    + split; [intros _; apply orb_false_iff, Hrep | reflexivity].
    + discriminate.
Qed.

Lemma X12_witness :
  is_ok (create_document_from_row Sample.show Scenario.repeated_text_row) = true
  /\ create_document_from_row Sample.show Sample.repeated_label_row
     = Raise (ValueError "The truth value of a Series is ambiguous").
Proof.
  split.
  - apply (X12_conversion_fails_only_on_a_repeated_number_label Sample.show
             Scenario.repeated_text_row). split; reflexivity.
  - apply (X12_conversion_fails_only_on_a_repeated_number_label Sample.show
             Sample.repeated_label_row). reflexivity.
Defined.

(** X13: the loop of [process_csv_file] that converts the rows keeps
    exactly the rows in which neither [hadith_no] nor [chapter_no] is
    repeated, in their order, and skips the others. *)
Theorem X13_only_rows_that_convert_are_kept py_str (rows : list Row) :
  let good := fun row =>
    negb (repeated_label row "hadith_no" || repeated_label row "chapter_no") in
  map Ok (convert_rows (create_document_from_row py_str) rows)
  = map (create_document_from_row py_str) (List.filter good rows)
  /\ length (convert_rows (create_document_from_row py_str) rows)
     = length (List.filter good rows)
  /\ (length (convert_rows (create_document_from_row py_str) rows) <= length rows)%nat.
Proof.
  intros good.
  assert (Hmap : map Ok (convert_rows (create_document_from_row py_str) rows)
                 = map (create_document_from_row py_str) (List.filter good rows)).
  { induction rows as [|row rows IH]; [reflexivity |].
    cbn [convert_rows List.filter]. subst good. cbv beta.
    destruct (create_document_outcome py_str row) as [H0 H1].
    destruct (repeated_label row "hadith_no" || repeated_label row "chapter_no").
    - rewrite (H1 eq_refl). cbn [negb]. exact IH.
    - specialize (H0 eq_refl). cbn [negb].
      destruct (create_document_from_row py_str row) as [doc |] eqn:Hdoc;
        [| discriminate].
      cbn [map]. rewrite Hdoc, IH. reflexivity. }
  assert (Hlen : length (convert_rows (create_document_from_row py_str) rows)
                 = length (List.filter good rows)).
  { rewrite <- (length_map Ok), Hmap, length_map. reflexivity. }
  split_and!; [exact Hmap | exact Hlen |].
  rewrite Hlen. apply filter_length_le.
Qed.

(** X14: whatever columns the row has, a Document that is made carries
    exactly the five metadata keys [source], [hadith_number],
    [chapter_number], [chapter] and [chain_index]; other columns of the
    row are dropped. *)
Theorem X14_metadata_has_exactly_five_keys py_str (row : Row) doc :
  create_document_from_row py_str row = Ok doc ->
  dom (metadata doc)
  = ({["source"]} ∪ {["hadith_number"]} ∪ {["chapter_number"]}
     ∪ {["chapter"]} ∪ {["chain_index"]} : gset string)
  /\ size (metadata doc) = 5%nat.
Proof.
  unfold create_document_from_row. intros H.
  destruct (get_number row "hadith_no") as [h|]; [| discriminate].
  destruct (get_number row "chapter_no") as [c|]; [| discriminate].
  cbn [bind_result] in H. injection H as <-. cbn [metadata].
  assert (Hdom : dom (<["source":=series_get row "source" (SStr "Unknown")]>
                       (<["hadith_number":=h]>
                        (<["chapter_number":=c]>
                         (<["chapter":=series_get row "chapter" (SStr "")]>
                          (<["chain_index":=series_get row "chain_indx" (SStr "")]>
                           (∅ : gmap string pyval))))))
                 = ({["source"]} ∪ {["hadith_number"]} ∪ {["chapter_number"]}
                    ∪ {["chapter"]} ∪ {["chain_index"]} : gset string)).
  { rewrite !dom_insert_L, dom_empty_L. set_solver. }
  split; [exact Hdom |].
  rewrite <- size_dom, Hdom. reflexivity.
Qed.

Lemma X14_witness :
  exists doc,
    create_document_from_row Sample.show Sample.full_row = Ok doc
    /\ size (metadata doc) = 5%nat.
Proof.
  eexists. split; [reflexivity |].
  apply (X14_metadata_has_exactly_five_keys Sample.show Sample.full_row).
  reflexivity.
Defined.

(** X19: from a row of the reader a Document is made
    whose metadata holds, for each of the five fields, the cell of the row
    when the field is present and not null, and the default when the label
    is absent from the row: 0 for the two numbers, ["Unknown"] for the
    source, the empty string for the chapter and the chain index.  A null
    number ([nan] or [None]) is replaced by 0 as well. *)
Theorem X19_metadata_follows_the_row py_str (row : Row) :
  reader_row row ->
  exists doc,
    create_document_from_row py_str row = Ok doc
    /\ (forall c, cells_at row "source" = [c] -> notna_scalar c = true ->
          metadata doc !! "source" = Some (Scalar c))
    /\ (forall c, cells_at row "hadith_no" = [c] -> notna_scalar c = true ->
          metadata doc !! "hadith_number" = Some (Scalar c))
    /\ (forall c, cells_at row "chapter_no" = [c] -> notna_scalar c = true ->
          metadata doc !! "chapter_number" = Some (Scalar c))
    /\ (forall c, cells_at row "chapter" = [c] -> notna_scalar c = true ->
          metadata doc !! "chapter" = Some (Scalar c))
    /\ (forall c, cells_at row "chain_indx" = [c] -> notna_scalar c = true ->
          metadata doc !! "chain_index" = Some (Scalar c))
    /\ (cells_at row "source" = [] ->
          metadata doc !! "source" = Some (Scalar (SStr "Unknown")))
    /\ (cells_at row "hadith_no" = [] ->
          metadata doc !! "hadith_number" = Some (Scalar (SInt 0)))
    /\ (cells_at row "chapter_no" = [] ->
          metadata doc !! "chapter_number" = Some (Scalar (SInt 0)))
    /\ (cells_at row "chapter" = [] ->
          metadata doc !! "chapter" = Some (Scalar (SStr "")))
    /\ (cells_at row "chain_indx" = [] ->
          metadata doc !! "chain_index" = Some (Scalar (SStr "")))
    /\ (forall c, cells_at row "hadith_no" = [c] -> notna_scalar c = false ->
          metadata doc !! "hadith_number" = Some (Scalar (SInt 0)))
    /\ (forall c, cells_at row "chapter_no" = [c] -> notna_scalar c = false ->
          metadata doc !! "chapter_number" = Some (Scalar (SInt 0))).
Proof.
  intros Hr.
  destruct (get_number_reader row "hadith_no" Hr) as (h & Hh & Hh0 & Hh1).
  destruct (get_number_reader row "chapter_no" Hr) as (n & Hn & Hn0 & Hn1).
  eexists. unfold create_document_from_row. rewrite Hh, Hn. cbn [bind_result].
  split; [reflexivity |]. cbn [metadata].
  split_and!.
  - intros c Hc _. unfold series_get. rewrite Hc. by simplify_map_eq.
  - intros c Hc Hna. rewrite (Hh1 c Hc), Hna. by simplify_map_eq.
  - intros c Hc Hna. rewrite (Hn1 c Hc), Hna. by simplify_map_eq.
  - intros c Hc _. unfold series_get. rewrite Hc. by simplify_map_eq.
  - intros c Hc _. unfold series_get. rewrite Hc. by simplify_map_eq.
  - intros Hc. unfold series_get. rewrite Hc. by simplify_map_eq.
  - intros Hc. rewrite (Hh0 Hc). by simplify_map_eq.
  - intros Hc. rewrite (Hn0 Hc). by simplify_map_eq.
  - intros Hc. unfold series_get. rewrite Hc. by simplify_map_eq.
  - intros Hc. unfold series_get. rewrite Hc. by simplify_map_eq.
  - intros c Hc Hna. rewrite (Hh1 c Hc), Hna. by simplify_map_eq.
  - intros c Hc Hna. rewrite (Hn1 c Hc), Hna. by simplify_map_eq.
Qed.

Lemma X19_witness :
  reader_row Sample.full_row
  /\ exists doc,
       create_document_from_row Sample.show Sample.full_row = Ok doc
       /\ metadata doc !! "source" = Some (Scalar (SStr "Sahih Bukhari"))
       /\ metadata doc !! "hadith_number" = Some (Scalar (SInt 7))
       /\ metadata doc !! "chapter_number" = Some (Scalar (SInt 1))
       /\ metadata doc !! "chapter" = Some (Scalar (SStr "Revelation"))
       /\ metadata doc !! "chain_index" = Some (Scalar (SStr "30418, 20005")).
Proof.
  assert (Hr : reader_row Sample.full_row).
  { unfold reader_row. apply (bool_decide_unpack _). vm_compute. reflexivity. }
  split; [exact Hr |].
  destruct (X19_metadata_follows_the_row Sample.show Sample.full_row Hr)
    as (doc & Hdoc & Hs & Hh & Hc & Hch & Hci & _).
  exists doc. split; [exact Hdoc |].
  split_and!.
  - apply Hs; reflexivity.
  - apply Hh; reflexivity.
  - apply Hc; reflexivity.
  - apply Hch; reflexivity.
  - apply Hci; reflexivity.
Defined.

Section ConfigMoreFacts.

Context {Embeddings Store : Type}.
Variable int_of_str : string -> option Z.
Variable GoogleGenerativeAIEmbeddings : pyval -> result Embeddings.
Variable PGVector : pyval -> Embeddings -> pyval -> result Store.

(** What a construction that succeeds went through. *)
Lemma init_inversion environ a1 a2 a3 a4 inserter environ' :
  __init__ int_of_str GoogleGenerativeAIEmbeddings PGVector environ a1 a2 a3 a4
  = Ok (inserter, environ') ->
  py_or a1 (Ok (getenv environ "POSTGRES_URL")) = Ok (postgres_url inserter)
  /\ py_or a2 (Ok (getenv environ "GOOGLE_API_KEY")) = Ok (google_api_key inserter)
  /\ py_or a3 (Ok (Scalar (SStr (getenv_default environ "COLLECTION_NAME"
                                   "rag_ahadees"))))
     = Ok (collection_name inserter)
  /\ py_or a4 (env_max_retries int_of_str environ) = Ok (max_retries inserter)
  /\ truthy (postgres_url inserter) = Ok true
  /\ truthy (google_api_key inserter) = Ok true
  /\ setenv environ "GOOGLE_API_KEY" (google_api_key inserter) = Ok environ'
  /\ GoogleGenerativeAIEmbeddings (google_api_key inserter)
     = Ok (embeddings inserter)
  /\ PGVector (postgres_url inserter) (embeddings inserter)
       (collection_name inserter)
     = Ok (vector_store inserter).
Proof.
  unfold __init__. intros H.
  destruct (py_or a1 _) as [u|]; cbn [bind_result] in H; [| discriminate].
  destruct (py_or a2 _) as [g|]; cbn [bind_result] in H; [| discriminate].
  destruct (py_or a3 _) as [c|]; cbn [bind_result] in H; [| discriminate].
  destruct (py_or a4 _) as [m|]; cbn [bind_result] in H; [| discriminate].
  destruct (truthy u) as [[|]|] eqn:Hu; cbn [bind_result negb] in H;
    try discriminate.
  destruct (truthy g) as [[|]|] eqn:Hg; cbn [bind_result negb] in H;
    try discriminate.
  destruct (setenv environ "GOOGLE_API_KEY" g) as [e'|] eqn:He;
    cbn [bind_result] in H; [| discriminate].
  destruct (GoogleGenerativeAIEmbeddings g) as [emb|] eqn:Hemb;
    cbn [bind_result] in H; [| discriminate].
  destruct (PGVector u emb c) as [st|] eqn:Hst; cbn [bind_result] in H;
    [| discriminate].
  injection H as <- <-. cbn. split_and!; try reflexivity; assumption.
Qed.

End ConfigMoreFacts.

(** X15: an inserter that [__init__] returns has a true connection
    string and a non-empty [str] as API key, and the constructor has
    stored that key in [os.environ] under [GOOGLE_API_KEY], leaving the
    other variables as they were.  An argument that is true is taken as
    it is, whatever the environment holds. *)
Theorem X15_constructed_inserter_is_configured {Embeddings Store : Type}
    (int_of_str : string -> option Z)
    (GoogleGenerativeAIEmbeddings : pyval -> result Embeddings)
    (PGVector : pyval -> Embeddings -> pyval -> result Store)
    (environ : gmap string string) (a1 a2 a3 a4 : pyval) inserter environ' :
  __init__ int_of_str GoogleGenerativeAIEmbeddings PGVector environ a1 a2 a3 a4
  = Ok (inserter, environ') ->
  truthy (postgres_url inserter) = Ok true
  /\ (exists key, google_api_key inserter = Scalar (SStr key)
        /\ key <> ""
        /\ environ' = <["GOOGLE_API_KEY" := key]> environ
        /\ environ' !! "GOOGLE_API_KEY" = Some key
        /\ (forall name, name <> "GOOGLE_API_KEY" ->
              environ' !! name = environ !! name))
  /\ (truthy a1 = Ok true -> postgres_url inserter = a1)
  /\ (truthy a2 = Ok true -> google_api_key inserter = a2)
  /\ (truthy a3 = Ok true -> collection_name inserter = a3)
  /\ (truthy a4 = Ok true -> max_retries inserter = a4).
Proof.
  intros H.
  destruct (init_inversion _ _ _ _ _ _ _ _ _ _ H)
    as (H1 & H2 & H3 & H4 & Hu & Hg & He & _ & _).
  split_and!.
  - exact Hu.
  - unfold setenv in He.
    destruct (google_api_key inserter) as [[| | | | | key]|]; try discriminate.
    injection He as <-. exists key. split_and!.
    + reflexivity.
    + intros ->. cbn in Hg. discriminate.
    + reflexivity.
    + apply lookup_insert_eq.
    + intros name Hname. apply lookup_insert_ne. congruence.
  - intros Ht. rewrite py_or_truthy in H1 by exact Ht. congruence.
  - intros Ht. rewrite py_or_truthy in H2 by exact Ht. congruence.
  - intros Ht. rewrite py_or_truthy in H3 by exact Ht. congruence.
  - intros Ht. rewrite py_or_truthy in H4 by exact Ht. congruence.
Qed.

Lemma X15_witness :
  exists inserter environ',
    __init__ Sample.int_of_digit Sample.embeddings_client Sample.store_client
      Sample.environ (Scalar SNone) (Scalar (SStr "other key")) (Scalar SNone)
      (Scalar (SInt 5))
    = Ok (inserter, environ')
    /\ environ' !! "GOOGLE_API_KEY" = Some "other key"
    /\ environ' !! "POSTGRES_URL" = Some "postgresql://localhost/hadith".
Proof.
  eexists _, _. split; [reflexivity |].
  match goal with |- ?e !! _ = _ /\ _ =>
    destruct (X15_constructed_inserter_is_configured Sample.int_of_digit
                Sample.embeddings_client Sample.store_client Sample.environ
                (Scalar SNone) (Scalar (SStr "other key")) (Scalar SNone)
                (Scalar (SInt 5)) _ e eq_refl)
      as (_ & (key & Hkey & _ & _ & Hget & Hother) & _)
  end.
  cbn in Hkey. injection Hkey as <-.
  split; [exact Hget |].
  rewrite Hother by discriminate. reflexivity.
Defined.

(** X16: what [__init__] rejects.  With no true connection string in the
    argument or in [POSTGRES_URL] it raises [ValueError("POSTGRES_URL is
    required")]; with one, but no true API key in the argument or in
    [GOOGLE_API_KEY], it raises [ValueError("GOOGLE_API_KEY is
    required")]; a true API key that is not a [str] is a [TypeError];
    and when the retry count has to be read from a [MAX_RETRIES] that is
    not an integer, the [ValueError] of [int] comes before all of these.
    In each case the clients are not built. *)
Theorem X16_constructor_rejects_incomplete_configuration {Embeddings Store : Type}
    (int_of_str : string -> option Z)
    (GoogleGenerativeAIEmbeddings : pyval -> result Embeddings)
    (PGVector : pyval -> Embeddings -> pyval -> result Store)
    (environ : gmap string string) (a1 a2 a3 a4 url key name retries : pyval) :
  py_or a1 (Ok (getenv environ "POSTGRES_URL")) = Ok url ->
  py_or a2 (Ok (getenv environ "GOOGLE_API_KEY")) = Ok key ->
  py_or a3 (Ok (Scalar (SStr (getenv_default environ "COLLECTION_NAME"
                                "rag_ahadees")))) = Ok name ->
  let init := __init__ int_of_str GoogleGenerativeAIEmbeddings PGVector environ
                a1 a2 a3 a4 in
  (truthy a4 = Ok false ->
   int_of_str (getenv_default environ "MAX_RETRIES" "3") = None ->
   init = Raise (ValueError "invalid literal for int()"))
  /\ (py_or a4 (env_max_retries int_of_str environ) = Ok retries ->
      (truthy url = Ok false ->
       init = Raise (ValueError "POSTGRES_URL is required"))
      /\ (truthy url = Ok true -> truthy key = Ok false ->
          init = Raise (ValueError "GOOGLE_API_KEY is required"))
      /\ (truthy url = Ok true -> truthy key = Ok true ->
          (forall s, key <> Scalar (SStr s)) ->
          init = Raise TypeError)).
Proof.
  intros H1 H2 H3 init. subst init. unfold __init__.
  rewrite H1, H2, H3. cbn [bind_result]. split.
  - intros Ht Hint. rewrite py_or_falsy by exact Ht.
    unfold env_max_retries. rewrite Hint. reflexivity.
  - intros H4. rewrite H4. cbn [bind_result]. split_and!.
    + intros ->. reflexivity.
    + intros -> ->. reflexivity.
    + intros -> -> Hstr. cbn [bind_result negb]. unfold setenv.
      destruct key as [[| | | | | s]|]; try reflexivity.
      destruct (Hstr s eq_refl).
Qed.

Lemma X16_witness :
  __init__ Sample.int_of_digit Sample.embeddings_client Sample.store_client
    Scenario.no_key (Scalar SNone) (Scalar (SStr "")) (Scalar SNone) (Scalar SNone)
  = Raise (ValueError "GOOGLE_API_KEY is required").
Proof.
  pose proof (X16_constructor_rejects_incomplete_configuration
                Sample.int_of_digit Sample.embeddings_client Sample.store_client
                Scenario.no_key (Scalar SNone) (Scalar (SStr "")) (Scalar SNone)
                (Scalar SNone)
                (Scalar (SStr "postgresql://localhost/hadith")) (Scalar SNone)
                (Scalar (SStr "rag_ahadees")) (Scalar (SInt 3))
                eq_refl eq_refl eq_refl) as H.
  cbv zeta in H. destruct H as (_ & H).
  destruct (H eq_refl) as (_ & Hkey & _).
  apply Hkey; reflexivity.
Defined.

Section MainFacts.

Context {Embeddings Store : Type}.
Variable int_of_str : string -> option Z.
Variable str_lower : string -> string.
Variable py_str : pyval -> string.
Variable GoogleGenerativeAIEmbeddings : pyval -> result Embeddings.
Variable PGVector : pyval -> Embeddings -> pyval -> result Store.
Variable read_csv_file : string -> result (list Row).
Variable env : Env.

Lemma load_config_ok environ b m :
  int_of_str (getenv_default environ "BATCH_SIZE" "25") = Some b ->
  int_of_str (getenv_default environ "MAX_RETRIES" "3") = Some m ->
  Main.load_config int_of_str str_lower environ
  = Ok (Main.mkConfiguration
          (getenv environ "POSTGRES_URL") (getenv environ "GOOGLE_API_KEY")
          (getenv_default environ "COLLECTION_NAME" "rag_ahadees")
          (getenv_default environ "CSV_FILE_PATH" "all_hadiths_clean.csv")
          b (Main.getenv_flag str_lower environ "USE_BATCH_INSERT" "true")
          m (Main.getenv_flag str_lower environ "RESUME" "true")).
Proof.
  intros Hb Hm. unfold Main.load_config, Main.getenv_int.
  rewrite Hb, Hm. reflexivity.
Qed.

(** A value read from the environment and passed as an argument: the
    constructor ends with the same value, whether the argument is true or
    it falls back on the environment. *)
Lemma py_or_same (v : pyval) (c : scalar) :
  v = Scalar c -> py_or v (Ok v) = Ok v.
Proof. intros ->. unfold py_or. cbn. destruct (truthy_scalar c); reflexivity. Qed.

Lemma getenv_falsy environ key :
  environ !! key = None \/ environ !! key = Some "" ->
  truthy (getenv environ key) = Ok false.
Proof. unfold getenv. intros [-> | ->]; reflexivity. Qed.

Lemma getenv_truthy environ key v :
  environ !! key = Some v -> v <> "" ->
  getenv environ key = Scalar (SStr v) /\ truthy (getenv environ key) = Ok true.
Proof.
  unfold getenv. intros -> Hv. split; [reflexivity |]. cbn.
  destruct (String.eqb_spec v ""); [contradiction | reflexivity].
Qed.

(** The constructor as [main] calls it, up to the clients. *)
Lemma init_from_main environ m :
  int_of_str (getenv_default environ "MAX_RETRIES" "3") = Some m ->
  __init__ int_of_str GoogleGenerativeAIEmbeddings PGVector environ
    (getenv environ "POSTGRES_URL") (getenv environ "GOOGLE_API_KEY")
    (Scalar (SStr (getenv_default environ "COLLECTION_NAME" "rag_ahadees")))
    (Scalar (SInt m))
  = let url := getenv environ "POSTGRES_URL" in
    let key := getenv environ "GOOGLE_API_KEY" in
    let name := Scalar (SStr (getenv_default environ "COLLECTION_NAME"
                                "rag_ahadees")) in
    let? has_url := truthy url in
    if negb has_url then Raise (ValueError "POSTGRES_URL is required") else
    let? has_key := truthy key in
    if negb has_key then Raise (ValueError "GOOGLE_API_KEY is required") else
    let? environ' := setenv environ "GOOGLE_API_KEY" key in
    let? embeddings := GoogleGenerativeAIEmbeddings key in
    let? vector_store := PGVector url embeddings name in
    Ok (mkInserter url key name (Scalar (SInt m)) embeddings vector_store,
        environ').
Proof.
  intros Hm. unfold __init__.
  assert (Hurl : exists c, getenv environ "POSTGRES_URL" = Scalar c).
  { unfold getenv. destruct (environ !! "POSTGRES_URL"); eauto. }
  assert (Hkey : exists c, getenv environ "GOOGLE_API_KEY" = Scalar c).
  { unfold getenv. destruct (environ !! "GOOGLE_API_KEY"); eauto. }
  destruct Hurl as (cu & Hurl), Hkey as (ck & Hkey).
  rewrite (py_or_same _ cu Hurl), (py_or_same _ ck Hkey).
  rewrite (py_or_same _ _ eq_refl).
  assert (H4 : py_or (Scalar (SInt m)) (env_max_retries int_of_str environ)
               = Ok (Scalar (SInt m))).
  { unfold py_or, env_max_retries. cbn. rewrite Hm.
    destruct (Z.eqb_spec m 0) as [-> |]; reflexivity. }
  rewrite H4. reflexivity.
Qed.

End MainFacts.

(** X17: [main] does nothing before its configuration is complete.  The
    errors come in this order, each with no call to the reader, the store
    or the file system: a [BATCH_SIZE], then a [MAX_RETRIES], that [int]
    refuses; a [GOOGLE_API_KEY] that is unset or empty, reported by
    [main] itself; a [POSTGRES_URL] that is unset or empty, which [main]
    does not check and the constructor rejects; a client that cannot be
    built. *)
Theorem X17_main_checks_the_configuration_first {Embeddings Store : Type}
    (int_of_str : string -> option Z) (str_lower : string -> string)
    (py_str : pyval -> string)
    (GoogleGenerativeAIEmbeddings : pyval -> result Embeddings)
    (PGVector : pyval -> Embeddings -> pyval -> result Store)
    (read_csv_file : string -> result (list Row)) (env : Env)
    (environ : gmap string string) (w : World) (b m : Z) :
  let run := Main.main int_of_str str_lower py_str GoogleGenerativeAIEmbeddings
               PGVector read_csv_file env environ w in
  let unset key := environ !! key = None \/ environ !! key = Some "" in
  let bad_int := ValueError "invalid literal for int()" in
  (int_of_str (getenv_default environ "BATCH_SIZE" "25") = None ->
   run = mkOut (Raise bad_int) w [])
  /\ (int_of_str (getenv_default environ "BATCH_SIZE" "25") = Some b ->
      (int_of_str (getenv_default environ "MAX_RETRIES" "3") = None ->
       run = mkOut (Raise bad_int) w [])
      /\ (int_of_str (getenv_default environ "MAX_RETRIES" "3") = Some m ->
          (unset "GOOGLE_API_KEY" ->
           run = mkOut (Raise (ValueError
                    "Missing required configuration: ['google_api_key']")) w [])
          /\ (forall key, environ !! "GOOGLE_API_KEY" = Some key -> key <> "" ->
              (unset "POSTGRES_URL" ->
               run = mkOut (Raise (ValueError "POSTGRES_URL is required")) w [])
              /\ (forall url e, environ !! "POSTGRES_URL" = Some url -> url <> "" ->
                  GoogleGenerativeAIEmbeddings (Scalar (SStr key)) = Raise e ->
                  run = mkOut (Raise e) w [])
              /\ (forall url emb e,
                  environ !! "POSTGRES_URL" = Some url -> url <> "" ->
                  GoogleGenerativeAIEmbeddings (Scalar (SStr key)) = Ok emb ->
                  PGVector (Scalar (SStr url)) emb
                    (Scalar (SStr (getenv_default environ "COLLECTION_NAME"
                                     "rag_ahadees")))
                  = Raise e ->
                  run = mkOut (Raise e) w [])))).
Proof.
  intros run unset bad_int. subst run unset bad_int. unfold Main.main.
  split.
  { intros Hb. unfold Main.load_config, Main.getenv_int. rewrite Hb. reflexivity. }
  intros Hb. split.
  { intros Hm. unfold Main.load_config, Main.getenv_int. rewrite Hb, Hm.
    reflexivity. }
  intros Hm.
  rewrite (load_config_ok int_of_str str_lower environ b m Hb Hm).
  rewrite bind_lift_ok. cbn [Main.google_api_key Main.postgres_url
    Main.collection_name Main.max_retries].
  split.
  { intros Hk. rewrite (getenv_falsy _ _ Hk). rewrite bind_lift_ok. reflexivity. }
  intros key Hkey Hne.
  destruct (getenv_truthy _ _ _ Hkey Hne) as (Hgk & Htk).
  rewrite Htk, bind_lift_ok. cbn [negb].
  rewrite (init_from_main int_of_str GoogleGenerativeAIEmbeddings PGVector
             environ m Hm).
  cbv zeta. split_and!.
  - intros Hu. rewrite (getenv_falsy _ _ Hu). reflexivity.
  - intros url e Hurl Hune Hemb.
    destruct (getenv_truthy _ _ _ Hurl Hune) as (Hgu & Htu).
    rewrite Htu, Htk. cbn [bind_result negb]. rewrite Hgk. cbn [setenv bind_result].
    rewrite Hemb. reflexivity.
  - intros url emb e Hurl Hune Hemb Hst.
    destruct (getenv_truthy _ _ _ Hurl Hune) as (Hgu & Htu).
    rewrite Htu, Htk. cbn [bind_result negb]. rewrite Hgk, Hgu.
    cbn [setenv bind_result]. rewrite Hemb. cbn [bind_result]. rewrite Hst.
    reflexivity.
Qed.

Lemma X17_witness :
  Main.main Scenario.int_of_decimal Scenario.lower Sample.show
    Sample.embeddings_client Sample.store_client Scenario.two_rows Sample.calm
    Scenario.no_key Sample.w0
  = mkOut (Raise (ValueError "Missing required configuration: ['google_api_key']"))
      Sample.w0 [].
Proof.
  pose proof (X17_main_checks_the_configuration_first Scenario.int_of_decimal
                Scenario.lower Sample.show Sample.embeddings_client
                Sample.store_client Scenario.two_rows Sample.calm
                Scenario.no_key Sample.w0 25 3) as H.
  cbv zeta in H. destruct H as (_ & H).
  destruct (H eq_refl) as (_ & H').
  destruct (H' eq_refl) as (Hkey & _).
  apply Hkey. left. reflexivity.
Defined.

(** X18: with a complete configuration [main] is [process_csv_file] run on
    the values of the environment: the file [CSV_FILE_PATH], batches of
    [int(BATCH_SIZE)], the two flags, and [int(MAX_RETRIES)] attempts for
    each batch.  That count is honoured also when it is 0 or negative;
    the constructor does not replace it by the default 3.  [os.environ] is
    left as it was. *)
Theorem X18_main_runs_the_pipeline_on_the_environment {Embeddings Store : Type}
    (int_of_str : string -> option Z) (str_lower : string -> string)
    (py_str : pyval -> string)
    (GoogleGenerativeAIEmbeddings : pyval -> result Embeddings)
    (PGVector : pyval -> Embeddings -> pyval -> result Store)
    (read_csv_file : string -> result (list Row)) (env : Env)
    (environ : gmap string string) (w : World) (b m : Z) key url emb st :
  int_of_str (getenv_default environ "BATCH_SIZE" "25") = Some b ->
  int_of_str (getenv_default environ "MAX_RETRIES" "3") = Some m ->
  environ !! "GOOGLE_API_KEY" = Some key -> key <> "" ->
  environ !! "POSTGRES_URL" = Some url -> url <> "" ->
  GoogleGenerativeAIEmbeddings (Scalar (SStr key)) = Ok emb ->
  PGVector (Scalar (SStr url)) emb
    (Scalar (SStr (getenv_default environ "COLLECTION_NAME" "rag_ahadees")))
  = Ok st ->
  let run := Main.main int_of_str str_lower py_str GoogleGenerativeAIEmbeddings
               PGVector read_csv_file env environ w in
  let pipeline :=
    process_csv_file env m read_csv_file (create_document_from_row py_str)
      (getenv_default environ "CSV_FILE_PATH" "all_hadiths_clean.csv") b
      (Main.getenv_flag str_lower environ "USE_BATCH_INSERT" "true")
      (Main.getenv_flag str_lower environ "RESUME" "true") w in
  events run = events pipeline
  /\ world run = world pipeline
  /\ outcome run = match outcome pipeline with
                   | Ok _ => Ok environ
                   | Raise e => Raise e
                   end.
Proof.
  intros Hb Hm Hkey Hkne Hurl Hune Hemb Hst run pipeline.
  subst run pipeline. unfold Main.main.
  rewrite (load_config_ok int_of_str str_lower environ b m Hb Hm).
  rewrite bind_lift_ok. cbn [Main.google_api_key Main.postgres_url
    Main.collection_name Main.max_retries Main.csv_file_path Main.batch_size
    Main.use_batch_insert Main.resume].
  destruct (getenv_truthy _ _ _ Hkey Hkne) as (Hgk & Htk).
  destruct (getenv_truthy _ _ _ Hurl Hune) as (Hgu & Htu).
  rewrite Htk, bind_lift_ok. cbn [negb].
  rewrite (init_from_main int_of_str GoogleGenerativeAIEmbeddings PGVector
             environ m Hm).
  cbv zeta. rewrite Htu, Htk. cbn [bind_result negb]. rewrite Hgk, Hgu.
  cbn [setenv bind_result]. rewrite Hemb. cbn [bind_result]. rewrite Hst.
  cbn [bind_result]. rewrite bind_lift_ok. cbn [fst snd max_retries Main.retries_of].
  rewrite bind_lift_ok.
  rewrite (insert_id environ "GOOGLE_API_KEY" key Hkey).
  unfold bind.
  destruct (process_csv_file _ _ _ _ _ _ _ _ w) as [[[]|e] w' t]; cbn.
  - rewrite app_nil_r. split_and!; reflexivity.
  - split_and!; reflexivity.
Qed.

Lemma X18_witness :
  let run := Main.main Scenario.int_of_decimal Scenario.lower Sample.show
               Sample.embeddings_client Sample.store_client Scenario.two_rows
               Sample.calm Scenario.no_retries Sample.w0 in
  outcome run = Ok Scenario.no_retries
  /\ attempts (events run) = []
  /\ length (submitted (events run)) = 1%nat.
Proof.
  pose proof (X18_main_runs_the_pipeline_on_the_environment
                Scenario.int_of_decimal Scenario.lower Sample.show
                Sample.embeddings_client Sample.store_client Scenario.two_rows
                Sample.calm Scenario.no_retries Sample.w0 25 0
                "key" "postgresql://localhost/hadith" tt tt
                eq_refl eq_refl eq_refl ltac:(discriminate)
                eq_refl ltac:(discriminate) eq_refl eq_refl) as H.
  cbv zeta in H. destruct H as (Hev & _ & Hout).
  cbv zeta. rewrite Hev, Hout. split_and!; reflexivity.
Defined.
